(** * SOFAI-LM: the metacognitive controller and its domain collaborators

    A shallow embedding of

      - [src/core/llm_solver.py]                       (the agent client),
      - [src/core/metacognitive_module.py]             (the controller, [MCModule]),
      - [src/core/domain.py]                           (the [DomainInterface] ABC),
      - [src/domains/graph_coloring/*.py]              (parser, domain, graph files),
      - [src/domains/code_debugging/*.py]              (parser, validator, domain,
                                                        prompt, data loader).

    Python values are embedded as follows: [int] is [Z], [str] is [string]
    (ASCII code points), a list of dicts with fixed keys is a list of records,
    a [dict] whose iteration order is observable is an association list, and a
    call that talks to the outside (the model server, the judge, the clock) is
    a function of an explicit [World] that may return normally or raise. *)

From Stdlib Require Import ZArith List String Ascii Bool Lia Arith DecimalString.
From Stdlib Require DecimalPos.
Import ListNotations.

Set Implicit Arguments.

Local Open Scope string_scope.
Local Open Scope list_scope.

(** ** Exceptions and fallible results *)

(** Instances of Python's [Exception] that the sources raise or catch.
    [EnvironmentError] is the alias of [OSError] which
    [validate_code_with_leetcode] handles on its own. *)
Inductive PyExn : Type :=
  | EnvironmentError (msg : string)
  | ImportError (msg : string)
  | TypeError (msg : string)
  | AttributeError (msg : string)
  | OtherException (msg : string).

(** [str(e)] *)
Definition str_of_exn (e : PyExn) : string :=
  match e with
  | EnvironmentError m | ImportError m | TypeError m
  | AttributeError m | OtherException m => m
  end.

(** [isinstance(e, EnvironmentError)] *)
Definition is_EnvironmentError (e : PyExn) : bool :=
  match e with EnvironmentError _ => true | _ => false end.

Inductive result (A : Type) : Type :=
  | Ok (a : A)
  | Raise (e : PyExn).

Arguments Ok {A} a.
Arguments Raise {A} e.

(** ** Computations over a state that may raise *)

Definition Eff (S A : Type) : Type := S -> result A * S.

Definition ret {S A : Type} (a : A) : Eff S A := fun s => (Ok a, s).

Definition bind {S A B : Type} (c : Eff S A) (k : A -> Eff S B) : Eff S B :=
  fun s =>
    match c s with
    | (Ok a, s') => k a s'
    | (Raise e, s') => (Raise e, s')
    end.

Definition gets {S A : Type} (f : S -> A) : Eff S A := fun s => (Ok (f s), s).

Definition modify {S : Type} (f : S -> S) : Eff S unit := fun s => (Ok tt, f s).

Declare Scope eff_scope.
Delimit Scope eff_scope with eff.

Notation "x <- c ;; k" := (bind c (fun x => k))
  (at level 100, c at next level, right associativity) : eff_scope.
Notation "' p <- c ;; k" := (bind c (fun x => match x with p => k end))
  (at level 100, p pattern, c at next level, right associativity) : eff_scope.
Notation "c ;;; k" := (bind c (fun _ => k))
  (at level 100, right associativity) : eff_scope.

(** ** Conversations: [{"role": ..., "content": ...}] *)

Record Message : Type := mkMessage { role : string; content : string }.

Definition user_message (text : string) : Message :=
  {| role := "user"; content := text |}.

Definition assistant_message (text : string) : Message :=
  {| role := "assistant"; content := text |}.

(** ** [core/llm_solver.py] *)

Record LLMSolver : Type := mkLLMSolver { model : string }.

(** [LLMSolver.__init__(self, model="mistral")] *)
Definition LLMSolver_init (model : option string) : LLMSolver :=
  mkLLMSolver (match model with Some m => m | None => "mistral" end).

Section AgentClient.
Variable World : Type.

(** [ollama.chat(model=..., messages=..., stream=True)]: the contents
    [chunk["message"]["content"]] of the streamed chunks, or an exception. *)
Variable ollama_chat : string -> list Message -> Eff World (list string).

(** [LLMSolver.generate_response]: the chunks are concatenated in order. *)
Definition generate_response (self : LLMSolver) (messages : list Message)
  : Eff World string :=
  (stream <- ollama_chat (model self) messages ;;
   ret (fold_left (fun response chunk => (response ++ chunk)%string) stream ""))%eff.
End AgentClient.

(** ** [core/episodic_memory.py] *)

Module EpisodicMemory.
(** Modelled from the spec: [core/episodic_memory.py] is not among the
    sources.  Section 3 and 4.2 of the specification describe the store as
    an append-only log of (problem representation, solution representation)
    pairs kept in insertion order; [memory] is the attribute the controller
    tests for emptiness. *)
Definition t : Type := list (string * string).

(** [EpisodicMemory()] *)
Definition empty : t := [].

(** Modelled from the spec: [add(problem_repr, solution_repr)] appends one
    entry; no deduplication, no capacity bound, no eviction. *)
Definition add_memory (m : t) (problem_repr solution_repr : string) : t :=
  m ++ [(problem_repr, solution_repr)].

(** Truth value of the Python list [self.episodic_memory.memory]. *)
Definition nonempty (m : t) : bool :=
  match m with [] => false | _ :: _ => true end.
End EpisodicMemory.

(** ** [core/domain.py]: the capability contract

    [DomainInterface] is an abstract base class.  The methods that reach the
    outside (the judge, the deliberate solver's agent) are computations over
    the world; the text renderers and the parser are functions, as they are in
    both domains of the repository.  [generate_problem] is not called by the
    controller and is left out. *)
Class DomainInterface (World Problem Solution Feedback Metadata : Type) : Type := {
    validate_solution : Problem -> Solution -> Eff World (bool * Feedback);
    build_prompt : Problem -> option (list (string * string)) -> string;
    parse_solution : string -> Solution;
    run_s2_solver : Problem -> LLMSolver -> Eff World (Solution * Metadata);
    get_problem_representation : Problem -> string;
    format_solution_for_memory : Solution -> string;
    format_feedback : Feedback -> string
}.

(** ** [core/metacognitive_module.py]: the controller *)

(** What one pass through the body of a [while] loop asks of the loop. *)
Inductive control (A : Type) : Type :=
  | Continue (a : A)
  | Break (a : A).

Arguments Continue {A} a.
Arguments Break {A} a.

(** The dict returned by [MCModule.solve], one field per key. *)
Record SolveOutcome (Solution Time : Type) : Type := mkOutcome {
    solved : bool;
    solution : option Solution;
    s1_solved : bool;
    s2_solved : bool;
    iterations : Z;
    s1_time : Time;
    s2_time : Time;
    total_time : Time
}.

(** The attributes of an [MCModule] instance.  [self.domain] is the
    [DomainInterface] instance in scope. *)
Record MCModule : Type := mkMCModule {
    llm_solver : LLMSolver;
    s2_llm_solver : LLMSolver;
    episodic_memory : EpisodicMemory.t;
    max_iterations : Z
}.

(** Truth value of a Python [str]. *)
Definition str_truthy (s : string) : bool :=
  match s with EmptyString => false | String _ _ => true end.

(** [MCModule.__init__(domain, llm_model="mistral", max_iterations=5,
    s2_llm_model=None)], the defaults already filled in by the caller's
    binding (see [MCModule_signature] below).  [s2_llm_model if s2_llm_model
    else llm_model] tests the truth value, so the empty string falls back to
    [llm_model] as [None] does. *)
Definition MCModule_init (llm_model : string) (max_iterations : Z)
    (s2_llm_model : option string) : MCModule :=
  {| llm_solver := LLMSolver_init (Some llm_model);
     s2_llm_solver :=
       LLMSolver_init
         (Some (match s2_llm_model with
                | Some m => if str_truthy m then m else llm_model
                | None => llm_model
                end));
     episodic_memory := EpisodicMemory.empty;
     max_iterations := max_iterations |}.

Section Controller.
Context {World Problem Solution Feedback Metadata : Type}.
Context {domain : DomainInterface World Problem Solution Feedback Metadata}.

(** The transport below the two agent clients. *)
Variable ollama_chat : string -> list Message -> Eff World (list string).

(** [time.time()] reads the clock of the world; the differences and sums of
    readings that the controller computes are kept abstract. *)
Variable Time : Type.
Variable time_time : World -> Time * World.
Variable time_zero : Time.
Variable time_add time_sub : Time -> Time -> Time.

(** [core/improvement_trend_evaluator.py] is not among the sources: the
    controller is embedded over any evaluator with the three operations it
    uses.  A reading of the specification's evaluator is [TrendEvaluator]
    further down. *)
Variable Evaluator : Type.
Variable ImprovementTrendEvaluator : Evaluator.
Variable update_feedback : Evaluator -> Feedback -> Evaluator.
Variable get_no_improvement_flag : Evaluator -> bool.

(** [EpisodicMemory.retrieve_similar(query)], called with the query alone:
    the ranking lives in the missing module. *)
Variable retrieve_similar : EpisodicMemory.t -> string -> list (string * string).

(** The calls the controller makes to its collaborators, in order.  The
    trace is an observation of a run, not data of the program: a
    collaborator sees the world only. *)
Inductive Event : Type :=
  | EvS1Call (messages : list Message)
  | EvValidated (candidate : Solution) (is_valid : bool) (feedback : Feedback)
  | EvS2Call (problem : Problem) (solver : LLMSolver)
  | EvS2Returned (s2_solution : Solution) (s2_metadata : Metadata).

Record St : Type := mkSt {
  world : World;
  memory : EpisodicMemory.t;
  trace : list Event
}.

Definition lift_world {A : Type} (c : Eff World A) : Eff St A :=
  fun st =>
    let '(r, w) := c (world st) in
    (r, {| world := w; memory := memory st; trace := trace st |}).

Definition clock : Eff St Time :=
  fun st =>
    let '(t, w) := time_time (world st) in
    (Ok t, {| world := w; memory := memory st; trace := trace st |}).

Definition log (ev : Event) : Eff St unit :=
  modify (fun st =>
    {| world := world st; memory := memory st; trace := trace st ++ [ev] |}).

(** [self.episodic_memory.add_memory(problem_repr, solution_repr)] *)
Definition add_memory (problem_repr solution_repr : string) : Eff St unit :=
  modify (fun st =>
    {| world := world st;
       memory := EpisodicMemory.add_memory (memory st) problem_repr solution_repr;
       trace := trace st |}).

(** The local variables of [solve] that the loop reads and writes. *)
Record Locals : Type := mkLocals {
  iteration : Z;
  cur_s1_time : Time;
  cur_s2_time : Time;
  cur_s1_solved : bool;
  cur_s2_solved : bool;
  cur_solution : option Solution;
  messages : list Message;
  trend_evaluator : Evaluator
}.

Section Solve.
Variable self : MCModule.
Variable problem : Problem.
Variable verbose : bool.
Variable problem_repr : string.

(** One pass through the body of the [while] loop (lines 97-161).  The
    [print] calls under [verbose] write to the console only and are left
    out; [format_feedback] is a function, so the extra call on line 127
    has no effect of its own. *)
Definition loop_body (l : Locals) : Eff St (control Locals) :=
  (let iteration := (iteration l + 1)%Z in
   s1_iter_start <- clock ;;
   log (EvS1Call (messages l)) ;;;
   llm_response <-
     lift_world (generate_response ollama_chat (llm_solver self) (messages l)) ;;
   s1_iter_end <- clock ;;
   let s1_iter_time := time_sub s1_iter_end s1_iter_start in
   let s1_time := time_add (cur_s1_time l) s1_iter_time in
   let solution := parse_solution llm_response in
   '(is_valid, feedback) <- lift_world (validate_solution problem solution) ;;
   log (EvValidated solution is_valid feedback) ;;;
   if is_valid then
    let solution_repr := format_solution_for_memory solution in
    add_memory problem_repr solution_repr ;;;
    ret (Break {| iteration := iteration;
                  cur_s1_time := s1_time;
                  cur_s2_time := cur_s2_time l;
                  cur_s1_solved := true;
                  cur_s2_solved := cur_s2_solved l;
                  cur_solution := Some solution;
                  messages := messages l;
                  trend_evaluator := trend_evaluator l |})
   else
    let trend_evaluator := update_feedback (trend_evaluator l) feedback in
    if (iteration =? max_iterations self)%Z
       || get_no_improvement_flag trend_evaluator
    then
      s2_start <- clock ;;
      log (EvS2Call problem (s2_llm_solver self)) ;;;
      '(s2_solution, s2_metadata) <-
         lift_world (run_s2_solver problem (s2_llm_solver self)) ;;
      log (EvS2Returned s2_solution s2_metadata) ;;;
      s2_end <- clock ;;
      let s2_time := time_sub s2_end s2_start in
      let solution_repr := format_solution_for_memory s2_solution in
      add_memory problem_repr solution_repr ;;;
      ret (Break {| iteration := iteration;
                    cur_s1_time := s1_time;
                    cur_s2_time := s2_time;
                    cur_s1_solved := cur_s1_solved l;
                    cur_s2_solved := true;
                    cur_solution := Some s2_solution;
                    messages := messages l;
                    trend_evaluator := trend_evaluator |})
    else
      let feedback_str := format_feedback feedback in
      ret (Continue {| iteration := iteration;
                       cur_s1_time := s1_time;
                       cur_s2_time := cur_s2_time l;
                       cur_s1_solved := cur_s1_solved l;
                       cur_s2_solved := cur_s2_solved l;
                       cur_solution := Some solution;
                       messages :=
                         messages l ++
                           [assistant_message llm_response;
                            user_message ("Feedback: " ++ feedback_str)%string];
                       trend_evaluator := trend_evaluator |}))%eff.

(** [while iteration < self.max_iterations: ...].  [fuel] bounds the
    number of passes; [None] is "fuel ran out", which [solve] never
    reaches ([solve_terminates]). *)
Fixpoint while_loop (fuel : nat) (l : Locals) (st : St)
  : option (result Locals * St) :=
  if (iteration l <? max_iterations self)%Z then
  match fuel with
  | O => None
  | S fuel' =>
      match loop_body l st with
      | (Ok (Continue l'), st') => while_loop fuel' l' st'
      | (Ok (Break l'), st') => Some (Ok l', st')
      | (Raise e, st') => Some (Raise e, st')
      end
  end
  else Some (Ok l, st).
End Solve.

(** What a call of [solve] leaves behind: the value returned or the
    exception raised, the controller with its memory as it is afterwards,
    the world, and the trace of collaborator calls. *)
Record Run : Type := mkRun {
  returned : result (SolveOutcome Solution Time);
  self_after : MCModule;
  world_after : World;
  calls : list Event
}.

Definition with_memory (self : MCModule) (m : EpisodicMemory.t) : MCModule :=
  {| llm_solver := llm_solver self;
     s2_llm_solver := s2_llm_solver self;
     episodic_memory := m;
     max_iterations := max_iterations self |}.

(** [MCModule.solve(self, problem, verbose=True)] *)
Definition solve (self : MCModule) (problem : Problem) (verbose : bool)
    (w : World) : option Run :=
  let '(start_time, w) := time_time w in
  let problem_repr := get_problem_representation problem in
  let episodic_examples :=
    if EpisodicMemory.nonempty (episodic_memory self)
    then Some (retrieve_similar (episodic_memory self) problem_repr)
    else None in
  let initial_prompt := build_prompt problem episodic_examples in
  let l0 := {| iteration := 0;
               cur_s1_time := time_zero;
               cur_s2_time := time_zero;
               cur_s1_solved := false;
               cur_s2_solved := false;
               cur_solution := None;
               messages := [user_message initial_prompt];
               trend_evaluator := ImprovementTrendEvaluator |} in
  let st0 := {| world := w; memory := episodic_memory self; trace := [] |} in
  match while_loop self problem problem_repr
          (Z.to_nat (max_iterations self)) l0 st0 with
  | None => None
  | Some (Raise e, st) =>
      Some {| returned := Raise e;
              self_after := with_memory self (memory st);
              world_after := world st;
              calls := trace st |}
  | Some (Ok l, st) =>
      let '(end_time, w') := time_time (world st) in
      let total_time := time_sub end_time start_time in
      Some {| returned :=
                Ok {| solved := cur_s1_solved l || cur_s2_solved l;
                      solution := cur_solution l;
                      s1_solved := cur_s1_solved l;
                      s2_solved := cur_s2_solved l;
                      iterations := iteration l;
                      s1_time := cur_s1_time l;
                      s2_time := cur_s2_time l;
                      total_time := total_time |};
              self_after := with_memory self (memory st);
              world_after := w';
              calls := trace st |}
  end.

End Controller.

(** ** Python strings *)

Module PyStr.

Definition code (c : ascii) : nat := nat_of_ascii c.

Definition between (lo hi : nat) (c : ascii) : bool :=
  (lo <=? code c)%nat && (code c <=? hi)%nat.

(** [str.isspace] on one ASCII character, which is also the class [\s] of
    [re] on [str] patterns: TAB, LF, VT, FF, CR, FS, GS, RS, US and the
    space. *)
Definition is_space (c : ascii) : bool :=
  between 9 13 c || between 28 31 c || (code c =? 32)%nat.

(** The class [\d] on ASCII. *)
Definition is_digit (c : ascii) : bool := between 48 57 c.

(** The class [\w] on ASCII: letters, digits and the underscore. *)
Definition is_word (c : ascii) : bool :=
  between 65 90 c || between 97 122 c || is_digit c || (code c =? 95)%nat.

Fixpoint rev_onto (s acc : string) : string :=
  match s with
  | EmptyString => acc
  | String c s' => rev_onto s' (String c acc)
  end.

Definition rev (s : string) : string := rev_onto s EmptyString.

(** [str.lstrip()], [str.rstrip()], [str.strip()] *)
Fixpoint lstrip (s : string) : string :=
  match s with
  | EmptyString => EmptyString
  | String c s' => if is_space c then lstrip s' else s
  end.

Definition rstrip (s : string) : string := rev (lstrip (rev s)).

Definition strip (s : string) : string := rstrip (lstrip s).

(** [s.split('\n')]: never empty, [''.split('\n') == ['']]. *)
Fixpoint split_lines (s : string) : list string :=
  match s with
  | EmptyString => [EmptyString]
  | String c s' =>
      if (code c =? 10)%nat then EmptyString :: split_lines s'
      else match split_lines s' with
           | [] => [String c EmptyString]
           | line :: rest => String c line :: rest
           end
  end.

(** The longest prefix whose characters all satisfy [p], and the rest: how
    a greedy [+] or [*] over a character class consumes its input. *)
Fixpoint span (p : ascii -> bool) (s : string) : string * string :=
  match s with
  | EmptyString => (EmptyString, EmptyString)
  | String c s' =>
      if p c then let '(taken, rest) := span p s' in (String c taken, rest)
      else (EmptyString, s)
  end.

Fixpoint drop (n : nat) (s : string) : string :=
  match n, s with
  | O, _ => s
  | S n', String _ s' => drop n' s'
  | S _, EmptyString => EmptyString
  end.

(** The text before and after the first occurrence of [needle] in [hay]. *)
Fixpoint find (needle hay : string) : option (string * string) :=
  if String.prefix needle hay
  then Some (EmptyString, drop (String.length needle) hay)
  else match hay with
       | EmptyString => None
       | String c hay' =>
           match find needle hay' with
           | Some (before, after) => Some (String c before, after)
           | None => None
           end
       end.

(** [needle in hay] *)
Definition contains (needle hay : string) : bool :=
  match find needle hay with Some _ => true | None => false end.

(** [int(digits)] for a string of ASCII decimal digits. *)
Fixpoint int_digits (acc : Z) (s : string) : Z :=
  match s with
  | EmptyString => acc
  | String c s' => int_digits (10 * acc + Z.of_nat (code c - 48)) s'
  end.

Definition int (s : string) : Z := int_digits 0 s.

(** [str(n)] for an [int]. *)
Definition of_int (n : Z) : string :=
  DecimalString.NilZero.string_of_int (Z.to_int n).

(** [sep.join(parts)] *)
Definition join (sep : string) (parts : list string) : string :=
  String.concat sep parts.

Definition newline : string := String (ascii_of_nat 10) EmptyString.

End PyStr.

(** ** [domains/graph_coloring/solution_parser.py] *)

Module GraphColoringParser.
Import PyStr.

(** A [dict] from vertex labels to colours, in insertion order. *)
Definition Coloring : Type := list (string * Z).

(** [d[k] = v]: an existing key keeps its place, a new key goes last. *)
Fixpoint dict_set (d : Coloring) (k : string) (v : Z) : Coloring :=
  match d with
  | [] => [(k, v)]
  | (k', v') :: d' =>
      if String.eqb k' k then (k, v) :: d' else (k', v') :: dict_set d' k v
  end.

(** [pattern.match(line)] for [\((\w+)\s+(\d+)\)], the two groups.  The
    three classes that follow one another are pairwise disjoint and [)] is
    no digit, so the greedy choice for each [+] is the only one that can
    succeed and no backtracking is lost. *)
Definition pattern_match (line : string) : option (string * string) :=
  match line with
  | String "(" s1 =>
      let '(vertex, s2) := span is_word s1 in
      let '(blank, s3) := span is_space s2 in
      let '(color, s4) := span is_digit s3 in
      match vertex, blank, color, s4 with
      | String _ _, String _ _, String _ _, String ")" _ => Some (vertex, color)
      | _, _, _, _ => None
      end
  | _ => None
  end.

(** The [for line in lines] loop of [parse_solution]. *)
Definition scan_lines (lines : list string) (coloring_assignment : Coloring)
  : Coloring :=
  fold_left
    (fun acc line =>
       let line := strip line in
       match pattern_match line with
       | Some (vertex, color) => dict_set acc vertex (int color)
       | None => acc
       end)
    lines coloring_assignment.

(** [parse_solution(response)] *)
Definition parse_solution (response : string) : Coloring :=
  let coloring_assignment := [] in
  let lines := split_lines (strip response) in
  scan_lines lines coloring_assignment.

End GraphColoringParser.

(** ** [domains/code_debugging/solution_parser.py] *)

Module CodeDebuggingParser.
Import PyStr.

(** [re.search(open \s*(.*?)\s* close, text, re.DOTALL)], [group(1)]
    stripped, for literal [open] and [close] where [close] starts with no
    blank.  The search succeeds at the leftmost [open] that has a [close]
    after it, and if the leftmost has none then no later one has.  The lazy
    group ends where the blanks before the first such [close] begin, so
    stripping it gives the text between the two delimiters, stripped. *)
Definition search_between (opening closing text : string) : option string :=
  match find opening text with
  | None => None
  | Some (_, rest) =>
      match find closing rest with
      | None => None
      | Some (inner, _) => Some (strip inner)
      end
  end.

(** [parse_fixed_code(llm_response)] *)
Definition parse_fixed_code (llm_response : string) : string :=
  match search_between "<code>" "</code>" llm_response with
  | Some fixed_code => fixed_code
  | None =>
      let fenced_python :=
        if contains "```python" llm_response
        then search_between "```python" "```" llm_response
        else None in
      match fenced_python with
      | Some code => code
      | None =>
          let fenced :=
            if contains "```" llm_response
            then search_between "```" "```" llm_response
            else None in
          match fenced with
          | Some code => code
          | None => strip llm_response
          end
      end
  end.

(** [parse_explanation(llm_response)] *)
Definition parse_explanation (llm_response : string) : string :=
  match search_between "<exp>" "</exp>" llm_response with
  | Some explanation => explanation
  | None => EmptyString
  end.

End CodeDebuggingParser.

(** ** Python values and dicts with string keys *)

Inductive PyVal : Type :=
  | VNone
  | VBool (b : bool)
  | VInt (n : Z)
  | VStr (s : string)
  | VObj (name : string).

Module PyDict.
Definition t : Type := list (string * PyVal).

(** [d.get(key)] is [None] for a missing key. *)
Fixpoint lookup (d : t) (key : string) : option PyVal :=
  match d with
  | [] => None
  | (k, v) :: d' => if String.eqb k key then Some v else lookup d' key
  end.

(** [d.get(key, default)] *)
Definition get (d : t) (key : string) (default : PyVal) : PyVal :=
  match lookup d key with Some v => v | None => default end.

(** [v == 'text'] *)
Definition eq_str (v : PyVal) (text : string) : bool :=
  match v with VStr s => String.eqb s text | _ => false end.

(** Truth value of a Python value. *)
Definition truthy (v : PyVal) : bool :=
  match v with
  | VNone => false
  | VBool b => b
  | VInt n => negb (n =? 0)%Z
  | VStr s => str_truthy s
  | VObj _ => true
  end.

(** [str(v)], as an f-string renders a value. *)
Definition str (v : PyVal) : string :=
  match v with
  | VNone => "None"
  | VBool true => "True"
  | VBool false => "False"
  | VInt n => PyStr.of_int n
  | VStr s => s
  | VObj name => name
  end.
End PyDict.

(** ** [domains/graph_coloring/graph_coloring_domain.py] *)

Module GraphColoring.
Import PyStr.
Import GraphColoringParser.

(** [GraphColoringProblem]: the attributes set by [__init__] from
    [parse_graph(file_path)]. *)
Record GraphColoringProblem : Type := mkProblem {
  file_path : string;
  min_colors : Z;
  graph_repr : string;
  num_edges : string;
  num_vertices : string;
  edges : list string;
  vertices : list string
}.

(** The edges on which a colouring fails, or [None]. *)
Definition Feedback : Type := option (list (string * string)).

Section Domain.
Variable World : Type.
Variable ollama_chat : string -> list Message -> Eff World (list string).

(** [GraphColoringValidator(file_path).validate_coloring(solution)]:
    [domains/graph_coloring/validator.py] is not among the sources. *)
Variable validate_coloring :
  string -> Coloring -> Eff World (bool * list (string * string)).

(** [prompt_generator(graph_repr, min_colors, additional_examples=...)]:
    [domains/graph_coloring/prompt_builder.py] is not among the sources. *)
Variable prompt_generator :
  string -> Z -> option (list (string * string)) -> string.

(** [validate_solution]: [errors if errors else None] *)
Definition validate_solution (problem : GraphColoringProblem)
  (solution : Coloring) : Eff World (bool * Feedback) :=
  ('(is_valid, errors) <- validate_coloring (file_path problem) solution ;;
  ret (is_valid, match errors with [] => None | _ :: _ => Some errors end))%eff.

Definition build_prompt (problem : GraphColoringProblem)
  (episodic_examples : option (list (string * string))) : string :=
  prompt_generator (graph_repr problem) (min_colors problem) episodic_examples.

Definition parse_solution (llm_response : string) : Coloring :=
  GraphColoringParser.parse_solution llm_response.

(** [max(solution.values()) if solution else 0] *)
Definition max_color (solution : Coloring) : Z :=
  match solution with
  | [] => 0%Z
  | (_, c) :: rest => fold_left (fun m kv => Z.max m (snd kv)) rest c
  end.

Definition run_s2_solver (problem : GraphColoringProblem)
  (llm_solver : LLMSolver) : Eff World (Coloring * Z) :=
  (let initial_prompt := build_prompt problem None in
  let messages := [user_message initial_prompt] in
  llm_response <- generate_response ollama_chat llm_solver messages ;;
  let solution := parse_solution llm_response in
  ret (solution, max_color solution))%eff.

Definition get_problem_representation (problem : GraphColoringProblem)
  : string := graph_repr problem.

(** ["\n".join([f"({v} {c})" for v, c in solution.items()])] *)
Definition format_solution_for_memory (solution : Coloring) : string :=
  join newline
  (map (fun vc => ("(" ++ fst vc ++ " " ++ of_int (snd vc) ++ ")")%string)
       solution).

Definition format_feedback (feedback : Feedback) : string :=
  match feedback with
  | None | Some [] => "Solution is correct!"
  | Some feedback =>
    let feedback_list :=
      map (fun edge =>
             ("adjacent vertices " ++ fst edge ++ " and " ++ snd edge
              ++ " have the same color")%string)
          feedback in
    join " | " feedback_list
  end.

#[export] Instance GraphColoringDomain
  : DomainInterface World GraphColoringProblem Coloring Feedback Z := {
  validate_solution := validate_solution;
  build_prompt := build_prompt;
  parse_solution := parse_solution;
  run_s2_solver := run_s2_solver;
  get_problem_representation := get_problem_representation;
  format_solution_for_memory := format_solution_for_memory;
  format_feedback := format_feedback
}.
End Domain.
End GraphColoring.

(** ** [domains/code_debugging/validator.py] *)

Module LeetCodeValidator.

Section Validator.
(** The outside of the process: the network, the clock, the environment
    variables. *)
Variable Ext : Type.
Variable Tester : Type.

(** Clock readings; [time.time() - t], [a < b], and the numerals [0] and
    [15] of the module. *)
Variable Time : Type.
Variable time_time : Ext -> Time * Ext.
Variable time_sleep : Time -> Ext -> Ext.
Variable time_sub : Time -> Time -> Time.
Variable time_lt : Time -> Time -> bool.
Variable time_of_Z : Z -> Time.

(** [os.environ.get(name)] *)
Variable environ_get : string -> Ext -> option string.

(** The class [LeetCodeTester] of DebugBench, [None] when the import at
    the top of the module failed; calling it builds a tester or raises. *)
Variable LeetCodeTester : option (Eff Ext Tester).

(** [tester.test(code=..., task_id=..., language=...)], the truth value of
    the reward and the submission result. *)
Variable tester_test :
  Tester -> string -> string -> string -> Eff Ext (bool * PyDict.t).

(** The module-level globals. *)
Record Globals : Type := mkGlobals {
  _tester_instance : option Tester;
  _last_submission_time : Time
}.

Record VWorld : Type := mkVWorld { globals : Globals; ext : Ext }.

Definition SUBMISSION_COOLDOWN : Time := time_of_Z 15.

(** The state of the module when it has just been imported. *)
Definition initial_globals : Globals :=
  {| _tester_instance := None; _last_submission_time := time_of_Z 0 |}.

Definition raise {A : Type} (e : PyExn) : Eff VWorld A :=
  fun w => (Raise e, w).

Definition lift_ext {A : Type} (c : Eff Ext A) : Eff VWorld A :=
  fun w =>
  let '(r, x) := c (ext w) in
  (r, {| globals := globals w; ext := x |}).

Definition now : Eff VWorld Time :=
  fun w =>
  let '(t, x) := time_time (ext w) in
  (Ok t, {| globals := globals w; ext := x |}).

Definition sleep (d : Time) : Eff VWorld unit :=
  modify (fun w => {| globals := globals w; ext := time_sleep d (ext w) |}).

Definition set_tester_instance (t : Tester) : Eff VWorld unit :=
  modify (fun w =>
  {| globals := {| _tester_instance := Some t;
                   _last_submission_time :=
                     _last_submission_time (globals w) |};
     ext := ext w |}).

Definition set_last_submission_time (t : Time) : Eff VWorld unit :=
  modify (fun w =>
  {| globals := {| _tester_instance := _tester_instance (globals w);
                   _last_submission_time := t |};
     ext := ext w |}).

Definition session_missing_message : string :=
  "LEETCODE_SESSION environment variable not set. Please set it to your LeetCode session cookie value.".

(** [not os.environ.get('LEETCODE_SESSION')]: unset or empty. *)
Definition session_missing (x : Ext) : bool :=
  match environ_get "LEETCODE_SESSION" x with
  | Some v => negb (str_truthy v)
  | None => true
  end.

(** [get_leetcode_tester()] *)
Definition get_leetcode_tester : Eff VWorld Tester :=
  (instance <- gets (fun w => _tester_instance (globals w)) ;;
  match instance with
  | Some tester => ret tester
  | None =>
     missing <- gets (fun w => session_missing (ext w)) ;;
     if missing then raise (EnvironmentError session_missing_message)
     else
       match LeetCodeTester with
       | None =>
           raise (ImportError
                    "LeetCodeTester could not be imported from DebugBench")
       | Some construct =>
           tester <- lift_ext construct ;;
           set_tester_instance tester ;;;
           ret tester
       end
  end)%eff.

(** The body of the [try] statement of [validate_code_with_leetcode]. *)
Definition validate_try (code task_id language : string)
  : Eff VWorld (bool * PyDict.t) :=
  (t <- now ;;
  last <- gets (fun w => _last_submission_time (globals w)) ;;
  let time_since_last := time_sub t last in
  (if time_lt time_since_last SUBMISSION_COOLDOWN
  then sleep (time_sub SUBMISSION_COOLDOWN time_since_last)
  else ret tt) ;;;
  tester <- get_leetcode_tester ;;
  '(reward, submission_result) <-
    lift_ext (tester_test tester code task_id language) ;;
  t' <- now ;;
  set_last_submission_time t' ;;;
  let is_valid :=
   reward
   && match PyDict.lookup submission_result "status_msg" with
      | Some v => PyDict.eq_str v "Accepted"
      | None => false
      end in
  ret (is_valid, submission_result))%eff.

(** The two [except] clauses, in order. *)
Definition validate_except (e : PyExn) : bool * PyDict.t :=
  if is_EnvironmentError e
  then (false, [("error", VStr (str_of_exn e));
              ("status_msg", VStr "Environment Error")])
  else (false, [("error", VStr (str_of_exn e));
              ("status_msg", VStr "Validation Error")]).

(** [validate_code_with_leetcode(code, task_id, language="python")] *)
Definition validate_code_with_leetcode (code task_id language : string)
  : Eff VWorld (bool * PyDict.t) :=
  fun w =>
  match validate_try code task_id language w with
  | (Ok r, w') => (Ok r, w')
  | (Raise e, w') => (Ok (validate_except e), w')
  end.
End Validator.
End LeetCodeValidator.

(** ** [domains/code_debugging/prompt_builder.py] *)

Module CodeDebuggingPrompt.
Import PyStr.

(** [IO_INTENTION_PROMPT_TEMPLATE.format(LANG=..., DESCRIPTION=...,
    EXAMPLES=..., CONSTRAINTS=..., BUGGY_CODE=...)] *)
Definition IO_INTENTION_PROMPT_TEMPLATE_format
  (lang description examples_str constraints buggy_code : string) : string :=
  ("Observe the function intention and its corresponding " ++
   lang ++
   " implementation which is complete with no extra context. The implementation is faulty. Your task is to fix up the code and explain on the modification in less than 20 words.
You have to write the fixed code again. You should put <code></code> and <exp></exp> on the boundary of the code and the explanation. Do not write anything else in your response. Your reply should be like this:
<code>
fixed code
</code>
<exp>
short explanation about the bug
</exp>

Function Intention:
" ++
   description ++
   "

Examples:
" ++
   examples_str ++
   "

Constraints:
" ++
   constraints ++
   "

Faulty " ++
   lang ++
   " Implementation:
" ++
   buggy_code ++
   "
")%string.

(** The body of the [for i, (prob_repr, sol_repr) in enumerate(..., 1)]
    loop, [i] being the running index. *)
Fixpoint episodic_lines (i : Z) (examples : list (string * string))
    (episodic_str : string) : string :=
  match examples with
  | [] => episodic_str
  | (prob_repr, sol_repr) :: rest =>
      episodic_lines (i + 1) rest
        (episodic_str ++ newline ++ "Example " ++ of_int i ++ ":" ++ newline
         ++ prob_repr ++ newline ++ sol_repr ++ newline)%string
  end.

(** [build_debugging_prompt(problem, episodic_examples)], on the fields of
    the problem that it reads. *)
Definition build_debugging_prompt
    (description : string) (examples : list string)
    (constraints buggy_code : string)
    (episodic_examples : option (list (string * string))) : string :=
  let examples_str :=
    match examples with
    | [] => "No examples provided."
    | _ :: _ => join newline examples
    end in
  let prompt :=
    IO_INTENTION_PROMPT_TEMPLATE_format "Python3" description examples_str
      (if str_truthy constraints then constraints
       else "No constraints specified.")
      buggy_code in
  match episodic_examples with
  | Some ((_ :: _) as episodic_examples) =>
      let episodic_str :=
        (newline ++ newline ++ "--- Similar Past Problems ---" ++ newline)%string in
      let episodic_str :=
        episodic_lines 1 (firstn 3 episodic_examples) episodic_str in
      let episodic_str :=
        (episodic_str ++ newline ++ "--- End of Similar Examples ---"
         ++ newline ++ newline)%string in
      (episodic_str ++ prompt)%string
  | _ => prompt
  end.
End CodeDebuggingPrompt.

(** ** [domains/code_debugging/code_debugging_domain.py] *)

Module CodeDebugging.
Import PyStr.

(** The dataclass [CodeDebuggingProblem]. *)
Record CodeDebuggingProblem : Type := mkProblem {
  slug : string;
  description : string;
  examples : list string;
  constraints : string;
  level : string;
  buggy_code : string;
  oracle_code : string;
  explanations : string;
  content : string;
  bug_type : string
}.

(** [self.language] and [self.leetcode_language], set by [__init__]. *)
Definition language : string := "Python3".
Definition leetcode_language : string := "python".

Section Domain.
Variable Ext : Type.
Variable Tester : Type.
Variable Time : Type.
Variable time_time : Ext -> Time * Ext.
Variable time_sleep : Time -> Ext -> Ext.
Variable time_sub : Time -> Time -> Time.
Variable time_lt : Time -> Time -> bool.
Variable time_of_Z : Z -> Time.
Variable environ_get : string -> Ext -> option string.
Variable LeetCodeTester : option (Eff Ext Tester).
Variable tester_test :
  Tester -> string -> string -> string -> Eff Ext (bool * PyDict.t).
Variable ollama_chat : string -> list Message -> Eff Ext (list string).

(** The world of the domain: the outside and the validator's globals. *)
Definition World : Type := LeetCodeValidator.VWorld Ext Tester Time.

(** The transport as the controller sees it, in the domain's world. *)
Definition chat (model : string) (messages : list Message)
  : Eff World (list string) :=
  LeetCodeValidator.lift_ext (ollama_chat model messages).

Definition validate_solution (problem : CodeDebuggingProblem)
  (solution : string) : Eff World (bool * PyDict.t) :=
  ('(is_valid, feedback) <-
    LeetCodeValidator.validate_code_with_leetcode
      time_time time_sleep time_sub time_lt time_of_Z environ_get
      LeetCodeTester tester_test
      solution (slug problem) leetcode_language ;;
  ret (is_valid, feedback))%eff.

Definition build_prompt (problem : CodeDebuggingProblem)
  (episodic_examples : option (list (string * string))) : string :=
  CodeDebuggingPrompt.build_debugging_prompt
  (description problem) (examples problem) (constraints problem)
  (buggy_code problem) episodic_examples.

Definition parse_solution (llm_response : string) : string :=
  CodeDebuggingParser.parse_fixed_code llm_response.

Definition run_s2_solver (problem : CodeDebuggingProblem)
  (llm_solver : LLMSolver) : Eff World (string * PyDict.t) :=
  (let initial_prompt := build_prompt problem None in
  let messages := [user_message initial_prompt] in
  llm_response <- generate_response chat llm_solver messages ;;
  let fixed_code := parse_solution llm_response in
  let metadata := [("solver", VStr "S2_LLM")] in
  ret (fixed_code, metadata))%eff.

Definition get_problem_representation (problem : CodeDebuggingProblem)
  : string :=
  ("Problem: " ++ slug problem ++ newline
  ++ "Bug Type: " ++ bug_type problem ++ newline
  ++ "Description: " ++ substring 0 200 (description problem) ++ "...")%string.

Definition format_solution_for_memory (solution : string) : string :=
  ("Fixed Code:" ++ newline ++ solution)%string.

(** [format_feedback(feedback)] on a dict, which is what
    [validate_solution] returns in every case. *)
Definition format_feedback (feedback : PyDict.t) : string :=
  let status := PyDict.get feedback "status_msg" (VStr "Unknown") in
  let runtime := PyDict.get feedback "runtime" (VStr "N/A") in
  let memory := PyDict.get feedback "memory" (VStr "N/A") in
  if PyDict.eq_str status "Accepted" then
  ("Solution accepted! Runtime: " ++ PyDict.str runtime
   ++ ", Memory: " ++ PyDict.str memory)%string
  else
  let error_msg :=
    PyDict.get feedback "full_runtime_error"
      (PyDict.get feedback "compile_error" (VStr "")) in
  let last_testcase := PyDict.get feedback "last_testcase" (VStr "") in
  let expected := PyDict.get feedback "expected_output" (VStr "") in
  let actual := PyDict.get feedback "code_output" (VStr "") in
  let feedback_str := ("Status: " ++ PyDict.str status ++ newline)%string in
  let feedback_str :=
    if PyDict.truthy error_msg
    then (feedback_str ++ "Error: " ++ PyDict.str error_msg ++ newline)%string
    else feedback_str in
  let feedback_str :=
    if PyDict.truthy last_testcase
    then (feedback_str ++ "Failed Test Case: " ++ PyDict.str last_testcase
          ++ newline)%string
    else feedback_str in
  let feedback_str :=
    if PyDict.truthy expected && PyDict.truthy actual
    then (feedback_str ++ "Expected: " ++ PyDict.str expected ++ newline
          ++ "Actual: " ++ PyDict.str actual ++ newline)%string
    else feedback_str in
  feedback_str.

#[export] Instance CodeDebuggingDomain
  : DomainInterface World CodeDebuggingProblem string PyDict.t PyDict.t := {
  validate_solution := validate_solution;
  build_prompt := build_prompt;
  parse_solution := parse_solution;
  run_s2_solver := run_s2_solver;
  get_problem_representation := get_problem_representation;
  format_solution_for_memory := format_solution_for_memory;
  format_feedback := format_feedback
}.
End Domain.
End CodeDebugging.

(** ** [domains/code_debugging/utils.py] *)

Module CodeDebuggingUtils.
Section Utils.
Variable Ext : Type.

(** [os.environ.get(name)], which is not [None] exactly when
    [name in os.environ]. *)
Variable environ_get : string -> Ext -> option string.

(** [check_leetcode_session()]: ['LEETCODE_SESSION' in os.environ] *)
Definition check_leetcode_session (x : Ext) : bool :=
  match environ_get "LEETCODE_SESSION" x with
  | Some _ => true
  | None => false
  end.
End Utils.
End CodeDebuggingUtils.

(** ** [domains/code_debugging/data_loader.py] *)

Module DataLoader.
Import PyStr.

Definition BUG_TYPES : list string :=
  [ "condition error"; "double"; "faulty indexing"; "illegal comment";
    "illegal indentation"; "illegal keywords"; "missing colons";
    "misused == or ="; "operation error"; "other error"; "quadruple";
    "triple"; "unclosed parentheses"; "unclosed string";
    "undefined methods"; "undefined objects"; "variable error" ].

(** [x in xs] for strings. *)
Definition mem (x : string) (xs : list string) : bool :=
  existsb (String.eqb x) xs.

(** [str.lower()] on ASCII. *)
Definition lower_char (c : ascii) : ascii :=
  if between 65 90 c then ascii_of_nat (code c + 32) else c.

Fixpoint lower (s : string) : string :=
  match s with
  | EmptyString => EmptyString
  | String c s' => String (lower_char c) (lower s')
  end.

(** [s.replace(c, "")] for a one-character [c]. *)
Fixpoint remove_char (c : ascii) (s : string) : string :=
  match s with
  | EmptyString => EmptyString
  | String d s' =>
      if Ascii.eqb d c then remove_char c s' else String d (remove_char c s')
  end.

(** [f"{language_lower}3_{bug_type}.json"] with
    [language_lower = language.lower().replace("3", "")] *)
Definition filename (language bug_type : string) : string :=
  let language_lower := remove_char "3" (lower language) in
  (language_lower ++ "3_" ++ bug_type ++ ".json")%string.

(** [repr] of a list of strings that hold no quote and no backslash, as
    those of [BUG_TYPES]. *)
Definition repr_list (xs : list string) : string :=
  ("[" ++ join ", " (map (fun x => "'" ++ x ++ "'") xs) ++ "]")%string.

(** An object of a dataset file: each key is absent or holds a value of
    the type that [CodeDebuggingProblem] declares for it. *)
Record Entry : Type := mkEntry {
  e_slug : option string;
  e_description : option string;
  e_examples : option (list string);
  e_constraints : option string;
  e_level : option string;
  e_buggy_code : option string;
  e_oracle_code : option string;
  e_explanations : option string;
  e_content : option string
}.

(** [d.get(key, default)] *)
Definition get {A : Type} (value : option A) (default : A) : A :=
  match value with Some v => v | None => default end.

(** [data[i]]: a negative index counts from the end. *)
Definition index {A : Type} (data : list A) (i : Z) : result A :=
  let n := Z.of_nat (List.length data) in
  let j := if (i <? 0)%Z then (i + n)%Z else i in
  if ((0 <=? j) && (j <? n))%Z
  then match nth_error data (Z.to_nat j) with
       | Some a => Ok a
       | None => Raise (OtherException "list index out of range")
       end
  else Raise (OtherException "list index out of range").

Section Loader.
Variable World : Type.

(** [random.choice] and [random.randint]. *)
Variable random_choice : list string -> Eff World string.
Variable random_randint : Z -> Z -> Eff World Z.

(** [os.path.join(DEBUGBENCH_PATH, filename)], [os.path.exists] and
    [json.load] on the opened file. *)
Variable DEBUGBENCH_PATH : string.
Variable os_path_join : string -> string -> string.
Variable os_path_exists : string -> Eff World bool.
Variable json_load : string -> Eff World (list Entry).

Definition raise {A : Type} (e : PyExn) : Eff World A :=
  fun w => (Raise e, w).

(** [load_problem_from_dataset(language, bug_type, problem_index)];
    [FileNotFoundError] is an [EnvironmentError]. *)
Definition load_problem_from_dataset (language : string)
    (bug_type : option string) (problem_index : option Z)
  : Eff World CodeDebugging.CodeDebuggingProblem :=
  (bug_type <-
     match bug_type with
     | None => random_choice BUG_TYPES
     | Some bug_type =>
         if negb (mem bug_type BUG_TYPES)
         then raise (OtherException
                       ("Invalid bug_type '" ++ bug_type
                        ++ "'. Must be one of " ++ repr_list BUG_TYPES)%string)
         else ret bug_type
     end ;;
   let filepath := os_path_join DEBUGBENCH_PATH (filename language bug_type) in
   found <- os_path_exists filepath ;;
   (if negb found
    then raise (EnvironmentError
                  ("Dataset file not found: " ++ filepath)%string)
    else ret tt) ;;;
   data <- json_load filepath ;;
   let len_data := Z.of_nat (List.length data) in
   problem_index <-
     match problem_index with
     | None => random_randint 0 (len_data - 1)
     | Some problem_index =>
         if (problem_index >=? len_data)%Z
         then raise (OtherException
                       ("Problem index " ++ of_int problem_index
                        ++ " out of range (max: " ++ of_int (len_data - 1)
                        ++ ")")%string)
         else ret problem_index
     end ;;
   match index data problem_index with
   | Raise e => raise e
   | Ok problem_data =>
       ret {| CodeDebugging.slug := get (e_slug problem_data) "unknown";
              CodeDebugging.description :=
                get (e_description problem_data) "";
              CodeDebugging.examples := get (e_examples problem_data) [];
              CodeDebugging.constraints :=
                get (e_constraints problem_data) "";
              CodeDebugging.level := get (e_level problem_data) "medium";
              CodeDebugging.buggy_code :=
                get (e_buggy_code problem_data) "";
              CodeDebugging.oracle_code :=
                get (e_oracle_code problem_data) "";
              CodeDebugging.explanations :=
                get (e_explanations problem_data) "";
              CodeDebugging.content := get (e_content problem_data) "";
              CodeDebugging.bug_type := bug_type |}
   end)%eff.

(** [CodeDebuggingDomain.generate_problem], on the two keys of its
    keyword arguments that it reads. *)
Definition generate_problem (bug_type : option string)
    (problem_index : option Z)
  : Eff World CodeDebugging.CodeDebuggingProblem :=
  load_problem_from_dataset CodeDebugging.language bug_type problem_index.

End Loader.
End DataLoader.

(** ** [domains/graph_coloring/utils.py] *)

Module GraphUtils.
Import PyStr.

(** [s.split()]: the maximal runs of characters that are no blanks, [word]
    being the run that is being read. *)
Fixpoint split_from (word s : string) : list string :=
  match s with
  | EmptyString =>
      match word with EmptyString => [] | String _ _ => [word] end
  | String c s' =>
      if is_space c
      then match word with
           | EmptyString => split_from EmptyString s'
           | String _ _ => word :: split_from EmptyString s'
           end
      else split_from (word ++ String c EmptyString) s'
  end.

Definition split (s : string) : list string := split_from EmptyString s.

(** [file.readlines()] on a file that holds [text], whose line breaks are
    line feeds: the lines with the line feed that ends them. *)
Fixpoint readlines (text : string) : list string :=
  match text with
  | EmptyString => []
  | String c text' =>
      if (code c =? 10)%nat then String c EmptyString :: readlines text'
      else match readlines text' with
           | [] => [String c EmptyString]
           | line :: rest => String c line :: rest
           end
  end.

(** The variables of [parse_graph] that the loop assigns.  [num_vertices]
    and [num_edges] start as the [int] 0 and become the [str] words of a
    [p] line. *)
Record Parse : Type := mkParse {
  edges : list string;
  num_vertices : PyVal;
  num_edges : PyVal;
  vertices : list string
}.

Definition initial : Parse :=
  {| edges := []; num_vertices := VInt 0; num_edges := VInt 0;
     vertices := [] |}.

(** The [ValueError] of [_, _, num_vertices, num_edges = parts] when
    [parts] has not four items. *)
Definition unpack_error (got : nat) : PyExn :=
  OtherException
    (if (got <? 4)%nat
     then "not enough values to unpack (expected 4, got " ++ of_int (Z.of_nat got)
          ++ ")"
     else "too many values to unpack (expected 4)")%string.

(** The body of [for line in lines]. *)
Definition step (st : Parse) (line : string) : result Parse :=
  let parts := split (strip line) in
  match parts with
  | [] => Ok st
  | first :: _ =>
      if String.eqb first "p" then
        match parts with
        | [_; _; num_vertices; num_edges] =>
            Ok {| edges := edges st;
                  num_vertices := VStr num_vertices;
                  num_edges := VStr num_edges;
                  vertices := vertices st |}
        | _ => Raise (unpack_error (List.length parts))
        end
      else if String.eqb first "e" && (List.length parts =? 3)%nat then
        match parts with
        | [_; v1; v2] =>
            Ok {| edges := edges st ++ [(v1 ++ " " ++ v2)%string];
                  num_vertices := num_vertices st;
                  num_edges := num_edges st;
                  vertices := vertices st ++ [v1; v2] |}
        | _ => Ok st
        end
      else Ok st
  end.

Fixpoint scan (lines : list string) (st : Parse) : result Parse :=
  match lines with
  | [] => Ok st
  | line :: rest =>
      match step st line with
      | Ok st' => scan rest st'
      | Raise e => Raise e
      end
  end.

(** [f"p edge {num_vertices} {num_edges}\n" + "\n".join(f"e {edge}" for
    edge in edges)] *)
Definition graph_description (st : Parse) : string :=
  ("p edge " ++ PyDict.str (num_vertices st) ++ " "
   ++ PyDict.str (num_edges st) ++ newline
   ++ join newline (map (fun edge => "e " ++ edge) (edges st)))%string.

Section ParseGraph.
Variable World : Type.

(** [open(file_path, 'r')] and [file.readlines()]: the lines of the file,
    or the exception of a file that cannot be opened or read. *)
Variable read_lines : string -> Eff World (list string).

(** [list(set(vertices))]: the distinct labels in the order in which the
    interpreter iterates over the set. *)
Variable list_of_set : list string -> list string.

(** [parse_graph(file_path)] *)
Definition parse_graph (file_path : string)
  : Eff World (string * PyVal * PyVal * list string * list string) :=
  (lines <- read_lines file_path ;;
   fun w =>
   match scan lines initial with
   | Raise e => (Raise e, w)
   | Ok st =>
       let vertices := list_of_set (vertices st) in
       let graph_description := graph_description st in
       (Ok (graph_description, num_edges st, num_vertices st, edges st,
            vertices), w)
   end)%eff.
End ParseGraph.

End GraphUtils.

(** ** [core/improvement_trend_evaluator.py] *)

Module TrendEvaluator.
Section Evaluator.
(** A feedback sample is opaque to the evaluator. *)
Variable Feedback : Type.

(** Modelled from the spec: the derived size measure of section 3 ("a
    derived distance/size measure it can compare across rounds"), the number
    of violations a sample reports.  It is supplied per domain (section 9). *)
Variable violations : Feedback -> nat.

(** Modelled from the spec: whether two samples have shapes that can be
    compared at all (section 4.3, edge case policy). *)
Variable comparable : Feedback -> Feedback -> bool.

(** Modelled from the spec: the attempt history of section 3, an ordered
    sequence of samples, most recent last, created afresh by every [solve]. *)
Definition AttemptHistory : Type := list Feedback.

Definition ImprovementTrendEvaluator : AttemptHistory := [].

(** Modelled from the spec: [update(feedback_sample)] appends the sample to
    the attempt history. *)
Definition update_feedback (history : AttemptHistory) (feedback : Feedback)
  : AttemptHistory :=
  history ++ [feedback].

(** Modelled from the spec: the latest sample reports a measurable reduction
    of errors against the previous one; samples that are not comparable
    report none. *)
Definition improved (previous latest : Feedback) : bool :=
  comparable previous latest && (violations latest <? violations previous)%nat.

(** Modelled from the spec: [no_improvement()] of section 4.3.  With fewer
    than two samples it is false; otherwise it compares the latest sample with
    the previous one and is true iff there is no measurable reduction. *)
Definition get_no_improvement_flag (history : AttemptHistory) : bool :=
  match List.rev history with
  | latest :: previous :: _ => negb (improved previous latest)
  | _ => false
  end.
End Evaluator.
End TrendEvaluator.

(** ** Binding the arguments of a call *)

Module PyCall.

(** A parameter and its default, if it has one. *)
Record Param : Type := mkParam { pname : string; pdefault : option PyVal }.

Definition Signature : Type := list Param.

Definition names (sig : Signature) : list string := map pname sig.

Fixpoint lookup (kwargs : list (string * PyVal)) (key : string) : option PyVal :=
  match kwargs with
  | [] => None
  | (k, v) :: rest => if String.eqb k key then Some v else lookup rest key
  end.

Definition mem (key : string) (keys : list string) : bool :=
  existsb (String.eqb key) keys.

(** The first keyword of the call that names no parameter. *)
Fixpoint unexpected (sig : Signature) (kwargs : list (string * PyVal))
  : option string :=
  match kwargs with
  | [] => None
  | (k, _) :: rest => if mem k (names sig) then unexpected sig rest else Some k
  end.

(** Each parameter takes the keyword's value, else its default, else the
    call fails. *)
Fixpoint fill (sig : Signature) (kwargs : list (string * PyVal))
  : result (list (string * PyVal)) :=
  match sig with
  | [] => Ok []
  | p :: rest =>
      match (match lookup kwargs (pname p) with
             | Some v => Some v
             | None => pdefault p
             end) with
      | None =>
          Raise (TypeError ("missing 1 required argument: '" ++ pname p ++ "'")%string)
      | Some v =>
          match fill rest kwargs with
          | Ok env => Ok ((pname p, v) :: env)
          | Raise e => Raise e
          end
      end
  end.

(** A call [f(k1=v1, ..., kn=vn)] against the parameters of [f] after
    [self]: a keyword that names no parameter is a [TypeError]. *)
Definition bind_keywords (sig : Signature) (kwargs : list (string * PyVal))
  : result (list (string * PyVal)) :=
  match unexpected sig kwargs with
  | Some k =>
      Raise (TypeError ("got an unexpected keyword argument '" ++ k ++ "'")%string)
  | None => fill sig kwargs
  end.

(** [MCModule.__init__(self, domain, llm_model="mistral", max_iterations=5,
    s2_llm_model=None)] *)
Definition MCModule_signature : Signature :=
  [ mkParam "domain" None;
    mkParam "llm_model" (Some (VStr "mistral"));
    mkParam "max_iterations" (Some (VInt 5));
    mkParam "s2_llm_model" (Some VNone) ].

(** [MCModule.solve(self, problem, verbose=True)] *)
Definition solve_signature : Signature :=
  [ mkParam "problem" None;
    mkParam "verbose" (Some (VBool true)) ].

(** The call on lines 203-208 of [main.py]. *)
Definition main_call (domain s1_llm max_iterations s2_lrm : PyVal)
  : list (string * PyVal) :=
  [ ("domain", domain); ("s1_llm", s1_llm);
    ("max_iterations", max_iterations); ("s2_lrm", s2_lrm) ].

End PyCall.

(** ** Reading a trace of collaborator calls *)

Section Observations.
Context {Problem Solution Feedback Metadata : Type}.

Local Abbreviation Event := (@Event Problem Solution Feedback Metadata).

Definition is_s1_call (ev : Event) : bool :=
  match ev with EvS1Call _ => true | _ => false end.

Definition is_s2_call (ev : Event) : bool :=
  match ev with EvS2Call _ _ => true | _ => false end.

(** How many times the System 1 agent client was called. *)
Definition s1_calls (tr : list Event) : nat := List.length (filter is_s1_call tr).

(** How many times the domain's System 2 solver was invoked. *)
Definition s2_calls (tr : list Event) : nat := List.length (filter is_s2_call tr).

(** The verdicts of [validate_solution], in order: candidate, verdict,
    feedback. *)
Fixpoint validations (tr : list Event) : list (Solution * bool * Feedback) :=
  match tr with
  | [] => []
  | EvValidated candidate is_valid feedback :: tr' =>
      (candidate, is_valid, feedback) :: validations tr'
  | _ :: tr' => validations tr'
  end.

(** The events of refinement rounds whose candidate was rejected and after
    which the loop went on: one agent call and one negative verdict each. *)
Definition failed_rounds (rs : list (list Message * Solution * Feedback))
  : list Event :=
  flat_map
    (fun r => let '(m, s, f) := r in [EvS1Call m; EvValidated s false f])
    rs.

(** The verdict of round [i], rounds counted from 1 as [iteration] counts
    them. *)
Definition verdict_at (tr : list Event) (i : nat)
  : option (Solution * bool * Feedback) :=
  match i with
  | O => None
  | S k => nth_error (validations tr) k
  end.

End Observations.

(** ** Worked runs

    A model server that streams scripted answers, a graph with the single
    edge 1-2, and the controller over the graph-colouring domain. *)

Module Scenario.
Import PyStr.

(** The answers the model server still has to give. *)
Definition World : Type := list string.

(** Each call takes the next scripted answer, streamed as one chunk; when the
    script is used up the server answers that it does not know. *)
Definition scripted_chat (model : string) (messages : list Message)
  : Eff World (list string) :=
  fun w =>
    match w with
    | [] => (Ok ["I do not know."], [])
    | answer :: rest => (Ok [answer], rest)
    end.

(** A server that is down. *)
Definition unreachable_chat (model : string) (messages : list Message)
  : Eff World (list string) :=
  fun w => (Raise (OtherException "connection refused"), w).

Fixpoint color_of (coloring : GraphColoringParser.Coloring) (v : string)
  : option Z :=
  match coloring with
  | [] => None
  | (v', c) :: rest => if String.eqb v' v then Some c else color_of rest v
  end.

Definition same_color (a b : option Z) : bool :=
  match a, b with
  | Some x, Some y => (x =? y)%Z
  | None, None => true
  | _, _ => false
  end.

(** A validator for the graph with the edge 1-2: the edge is in error when
    [coloring.get("1") == coloring.get("2")]. *)
Definition edge_validator (file_path : string)
    (coloring : GraphColoringParser.Coloring)
  : Eff World (bool * list (string * string)) :=
  fun w =>
    let errors :=
      if same_color (color_of coloring "1") (color_of coloring "2")
      then [("1", "2")] else [] in
    (Ok (match errors with [] => true | _ :: _ => false end, errors), w).

(** A validator that rejects every colouring. *)
Definition rejecting_validator (file_path : string)
    (coloring : GraphColoringParser.Coloring)
  : Eff World (bool * list (string * string)) :=
  fun w => (Ok (false, [("1", "2")]), w).

Definition prompt_generator (graph_repr : string) (min_colors : Z)
    (additional_examples : option (list (string * string))) : string :=
  ("Color the graph with " ++ of_int min_colors ++ " colors, one (vertex color) per line."
   ++ newline ++ graph_repr
   ++ match additional_examples with
      | None => ""
      | Some examples =>
          newline ++ "Examples: " ++ of_int (Z.of_nat (List.length examples))
      end)%string.

Definition problem : GraphColoring.GraphColoringProblem :=
  {| GraphColoring.file_path := "graph_0.col";
     GraphColoring.min_colors := 2;
     GraphColoring.graph_repr := ("p edge 2 1" ++ newline ++ "e 1 2")%string;
     GraphColoring.num_edges := "1";
     GraphColoring.num_vertices := "2";
     GraphColoring.edges := ["1 2"];
     GraphColoring.vertices := ["1"; "2"] |}.

(** The clock of the examples stands still. *)
Definition time_time (w : World) : nat * World := (0%nat, w).

(** The evaluator of the specification on graph-colouring feedback: the
    number of edges in error. *)
Definition violations (feedback : GraphColoring.Feedback) : nat :=
  match feedback with None => 0%nat | Some errors => List.length errors end.

Definition comparable (a b : GraphColoring.Feedback) : bool := true.

Definition retrieve_similar (m : EpisodicMemory.t) (query : string)
  : list (string * string) := firstn 3 m.

Definition Run : Type :=
  @Run World GraphColoring.GraphColoringProblem GraphColoringParser.Coloring
       GraphColoring.Feedback Z nat.

(** [MCModule(domain, llm_model="gemma3:1b", max_iterations=...,
    s2_llm_model="deepseek-r1:1.5b").solve(problem, verbose=False)] *)
Definition solve_with
    (chat : string -> list Message -> Eff World (list string))
    (validator : string -> GraphColoringParser.Coloring
                 -> Eff World (bool * list (string * string)))
    (max_iterations : Z) (script : World) : option Run :=
  solve (domain := GraphColoring.GraphColoringDomain chat validator
                     prompt_generator)
    chat time_time 0%nat Nat.add Nat.sub
    (TrendEvaluator.ImprovementTrendEvaluator GraphColoring.Feedback)
    (@TrendEvaluator.update_feedback GraphColoring.Feedback)
    (TrendEvaluator.get_no_improvement_flag violations comparable)
    retrieve_similar
    (MCModule_init "gemma3:1b" max_iterations (Some "deepseek-r1:1.5b"))
    problem false script.

Definition good_answer : string := ("(1 1)" ++ newline ++ "(2 2)")%string.
Definition bad_answer : string := ("(1 1)" ++ newline ++ "(2 1)")%string.
Definition no_answer : string := "I could not find a coloring.".


(** The state of [solve] when the loop is entered, for a controller with an
    empty memory. *)
Definition initial_locals
  : @Locals GraphColoringParser.Coloring nat (list GraphColoring.Feedback) :=
  {| iteration := 0;
     cur_s1_time := 0%nat;
     cur_s2_time := 0%nat;
     cur_s1_solved := false;
     cur_s2_solved := false;
     cur_solution := None;
     messages :=
       [user_message
          (prompt_generator (GraphColoring.graph_repr problem)
             (GraphColoring.min_colors problem) None)];
     trend_evaluator := [] |}.

(** A process without [LEETCODE_SESSION]: the clock of the judge stands
    still, sleeping changes nothing, the environment is empty. *)
Definition judge_time (x : World) : Z * World := (0%Z, x).
Definition judge_sleep (d : Z) (x : World) : World := x.
Definition empty_environ (name : string) (x : World) : option string := None.

Definition accepting_tester : option (Eff World unit) :=
  Some (fun x => (Ok tt, x)).

Definition accepting_test (tester : unit) (code task_id language : string)
  : Eff World (bool * PyDict.t) :=
  fun x => (Ok (true, [("status_msg", VStr "Accepted")]), x).

Definition two_sum : CodeDebugging.CodeDebuggingProblem :=
  {| CodeDebugging.slug := "two-sum";
     CodeDebugging.description := "Return the indices of two numbers that add up to target.";
     CodeDebugging.examples := [];
     CodeDebugging.constraints := "";
     CodeDebugging.level := "easy";
     CodeDebugging.buggy_code := "def twoSum(nums, target): return []";
     CodeDebugging.oracle_code := "";
     CodeDebugging.explanations := "";
     CodeDebugging.content := "";
     CodeDebugging.bug_type := "condition error" |}.

(** The code-debugging domain's world, its clock as the controller reads it,
    and the state of [solve] when the loop is entered. *)
Definition cd_clock (w : CodeDebugging.World World unit Z)
  : nat * CodeDebugging.World World unit Z := (0%nat, w).

Definition cd_start (script : World)
  : CodeDebugging.World World unit Z :=
  {| LeetCodeValidator.globals :=
       LeetCodeValidator.initial_globals unit (fun z : Z => z);
     LeetCodeValidator.ext := script |}.

Definition cd_locals : @Locals string nat (list PyDict.t) :=
  {| iteration := 0;
     cur_s1_time := 0%nat;
     cur_s2_time := 0%nat;
     cur_s1_solved := false;
     cur_s2_solved := false;
     cur_solution := None;
     messages := [user_message (CodeDebugging.build_prompt two_sum None)];
     trend_evaluator := [] |}.

End Scenario.
Section ControllerFacts.
Context {World Problem Solution Feedback Metadata : Type}.
Context {domain : DomainInterface World Problem Solution Feedback Metadata}.
Variable ollama_chat : string -> list Message -> Eff World (list string).
Variable Time : Type.
Variable time_time : World -> Time * World.
Variable time_zero : Time.
Variable time_add time_sub : Time -> Time -> Time.
Variable Evaluator : Type.
Variable ImprovementTrendEvaluator : Evaluator.
Variable update_feedback : Evaluator -> Feedback -> Evaluator.
Variable get_no_improvement_flag : Evaluator -> bool.
Variable retrieve_similar : EpisodicMemory.t -> string -> list (string * string).

Local Abbreviation Event := (@Event Problem Solution Feedback Metadata).
Local Abbreviation St := (@St World Problem Solution Feedback Metadata).
Local Abbreviation Locals := (@Locals Solution Time Evaluator).
Local Abbreviation Run := (@Run World Problem Solution Feedback Metadata Time).
Local Abbreviation body :=
  (loop_body ollama_chat time_time time_add time_sub
             update_feedback get_no_improvement_flag).
Local Abbreviation loop :=
  (while_loop ollama_chat time_time time_add time_sub
              update_feedback get_no_improvement_flag).
Local Abbreviation solve_ :=
  (solve ollama_chat time_time time_zero time_add time_sub
         ImprovementTrendEvaluator update_feedback get_no_improvement_flag
         retrieve_similar).

(** *** Reading the trace of a run *)

Lemma validations_app (tr1 tr2 : list Event) :
  validations (tr1 ++ tr2) = validations tr1 ++ validations tr2.
Proof.
  induction tr1 as [| ev tr1 IH]; cbn [app validations]; [ reflexivity | ].
  destruct ev; rewrite IH; reflexivity.
Qed.

Lemma validations_failed_rounds (rs : list (list Message * Solution * Feedback)) :
  validations (failed_rounds (Problem := Problem) (Metadata := Metadata) rs)
  = map (fun r => (snd (fst r), false, snd r)) rs.
Proof.
  induction rs as [| [[m s] f] rs IH]; [ reflexivity | ].
  cbn [failed_rounds flat_map app validations map fst snd].
  f_equal. exact IH.
Qed.

Lemma nth_error_rejected (rs : list (list Message * Solution * Feedback))
    (k : nat) (sol : Solution) (b : bool) (fb : Feedback) :
  nth_error (map (fun r => (snd (fst r), false, snd r)) rs) k = Some (sol, b, fb) ->
  b = false /\ (k < List.length rs)%nat.
Proof.
  revert k. induction rs as [| r rs IH]; intros [| k]; cbn; try discriminate.
  - intros H; inversion H. split; [ reflexivity | lia ].
  - intros H. apply IH in H. destruct H. split; [ assumption | lia ].
Qed.

(** The verdict at position [k] of a trace made of failed rounds followed by
    events [last] whose only verdict is [v]. *)
Lemma nth_error_rounds_then (rs : list (list Message * Solution * Feedback))
    (last : list Event) (v : Solution * bool * Feedback) (k : nat)
    (sol : Solution) (b : bool) (fb : Feedback) :
  validations last = [v] ->
  nth_error (validations (failed_rounds rs ++ last)) k = Some (sol, b, fb) ->
  (b = false /\ (k < List.length rs)%nat)
  \/ (k = List.length rs /\ v = (sol, b, fb)).
Proof.
  intros Hlast. rewrite validations_app, validations_failed_rounds, Hlast.
  intros H.
  destruct (Nat.lt_ge_cases k (List.length rs)) as [Hlt | Hge].
  - rewrite nth_error_app1 in H by (rewrite length_map; exact Hlt).
    left. eapply nth_error_rejected; eassumption.
  - rewrite nth_error_app2 in H by (rewrite length_map; exact Hge).
    rewrite length_map in H.
    destruct (k - List.length rs)%nat as [| j] eqn:Hk; cbn in H.
    + right. split; [ lia | congruence ].
    + destruct j; discriminate.
Qed.

Lemma s1_calls_app (tr1 tr2 : list Event) :
  s1_calls (tr1 ++ tr2) = (s1_calls tr1 + s1_calls tr2)%nat.
Proof. unfold s1_calls. now rewrite filter_app, length_app. Qed.

Lemma s2_calls_app (tr1 tr2 : list Event) :
  s2_calls (tr1 ++ tr2) = (s2_calls tr1 + s2_calls tr2)%nat.
Proof. unfold s2_calls. now rewrite filter_app, length_app. Qed.

Lemma s1_calls_failed_rounds (rs : list (list Message * Solution * Feedback)) :
  s1_calls (failed_rounds (Problem := Problem) (Metadata := Metadata) rs)
  = List.length rs.
Proof.
  induction rs as [| [[m s] f] rs IH]; [ reflexivity | ].
  change (failed_rounds ((m, s, f) :: rs))
    with ([EvS1Call m; EvValidated s false f]
          ++ failed_rounds (Problem := Problem) (Metadata := Metadata) rs).
  rewrite s1_calls_app, IH. reflexivity.
Qed.

Lemma s2_calls_failed_rounds (rs : list (list Message * Solution * Feedback)) :
  s2_calls (failed_rounds (Problem := Problem) (Metadata := Metadata) rs) = 0%nat.
Proof.
  induction rs as [| [[m s] f] rs IH]; [ reflexivity | ].
  change (failed_rounds ((m, s, f) :: rs))
    with ([EvS1Call m; EvValidated s false f]
          ++ failed_rounds (Problem := Problem) (Metadata := Metadata) rs).
  rewrite s2_calls_app, IH. reflexivity.
Qed.

Section Round.
Variable self : MCModule.
Variable problem : Problem.
Variable problem_repr : string.

(** Where an exception that leaves [solve] can come from. *)
Definition agent_raises (e : PyExn) : Prop :=
  exists solver msgs w w',
    generate_response ollama_chat solver msgs w = (Raise e, w').

Definition validator_raises (e : PyExn) : Prop :=
  exists p s w w', validate_solution p s w = (Raise e, w').

Definition validator_answers (p : Problem) (s : Solution) (is_valid : bool)
    (fb : Feedback) : Prop :=
  exists w w', validate_solution p s w = (Ok (is_valid, fb), w').

Definition s2_solver_raises (e : PyExn) : Prop :=
  exists p solver w w', run_s2_solver p solver w = (Raise e, w').

(** Whether the round that brings the counter to [i] and leaves the
    evaluator [te] escalates (line 134). *)
Definition escalates (i : Z) (te : Evaluator) : bool :=
  (i =? max_iterations self)%Z || get_no_improvement_flag te.

(** The five ways one pass through the loop body can end. *)
Inductive body_spec (l : Locals) (st : St)
  : result (control Locals) -> St -> Prop :=
| BodyS1Raise e st' :
    trace st' = trace st ++ [EvS1Call (messages l)] ->
    memory st' = memory st ->
    agent_raises e \/ validator_raises e ->
    body_spec l st (Raise e) st'
| BodySolved response fb l' st' :
    trace st' = trace st ++
      [EvS1Call (messages l); EvValidated (parse_solution response) true fb] ->
    memory st' = memory st ++
      [(problem_repr, format_solution_for_memory (parse_solution response))] ->
    iteration l' = (iteration l + 1)%Z ->
    cur_s1_solved l' = true ->
    cur_s2_solved l' = cur_s2_solved l ->
    cur_s2_time l' = cur_s2_time l ->
    cur_solution l' = Some (parse_solution response) ->
    validator_answers problem (parse_solution response) true fb ->
    body_spec l st (Ok (Break l')) st'
| BodyContinue response fb l' st' :
    trace st' = trace st ++
      [EvS1Call (messages l); EvValidated (parse_solution response) false fb] ->
    memory st' = memory st ->
    iteration l' = (iteration l + 1)%Z ->
    escalates (iteration l + 1) (update_feedback (trend_evaluator l) fb) = false ->
    trend_evaluator l' = update_feedback (trend_evaluator l) fb ->
    cur_s1_solved l' = cur_s1_solved l ->
    cur_s2_solved l' = cur_s2_solved l ->
    cur_s2_time l' = cur_s2_time l ->
    messages l' = messages l ++
      [assistant_message response;
       user_message ("Feedback: " ++ format_feedback fb)%string] ->
    body_spec l st (Ok (Continue l')) st'
| BodyS2Raise response fb e st' :
    trace st' = trace st ++
      [EvS1Call (messages l); EvValidated (parse_solution response) false fb;
       EvS2Call problem (s2_llm_solver self)] ->
    memory st' = memory st ->
    escalates (iteration l + 1) (update_feedback (trend_evaluator l) fb) = true ->
    s2_solver_raises e ->
    body_spec l st (Raise e) st'
| BodyS2Solved response fb s2_solution s2_metadata l' st' :
    trace st' = trace st ++
      [EvS1Call (messages l); EvValidated (parse_solution response) false fb;
       EvS2Call problem (s2_llm_solver self);
       EvS2Returned s2_solution s2_metadata] ->
    memory st' = memory st ++
      [(problem_repr, format_solution_for_memory s2_solution)] ->
    iteration l' = (iteration l + 1)%Z ->
    escalates (iteration l + 1) (update_feedback (trend_evaluator l) fb) = true ->
    cur_s1_solved l' = cur_s1_solved l ->
    cur_s2_solved l' = true ->
    cur_solution l' = Some s2_solution ->
    body_spec l st (Ok (Break l')) st'.

Lemma body_cases (l : Locals) (st : St) r st' :
  body self problem problem_repr l st = (r, st') -> body_spec l st r st'.
Proof.
  unfold loop_body, bind, clock, log, lift_world, add_memory, modify, ret.
  destruct st as [w mem tr]; cbn [world memory trace].
  destruct (time_time w) as [t0 w0]; cbn [world memory trace].
  destruct (generate_response ollama_chat (llm_solver self) (messages l) w0)
    as [[response | e] w1] eqn:Hs1; cbn [world memory trace].
  2:{ intros H; inversion H; subst.
      apply BodyS1Raise; try reflexivity.
      left. now exists (llm_solver self), (messages l), w0, w1. }
  destruct (time_time w1) as [t1 w2]; cbn [world memory trace].
  destruct (validate_solution problem (parse_solution response) w2)
    as [[[is_valid fb] | e] w3] eqn:Hval; cbn [world memory trace].
  2:{ intros H; inversion H; subst.
      apply BodyS1Raise; try reflexivity.
      right. now exists problem, (parse_solution response), w2, w3. }
  destruct is_valid.
  { intros H; inversion H; subst.
    eapply BodySolved; cbn; try reflexivity.
    - rewrite <- !app_assoc; reflexivity.
    - now exists w2, w3. }
  assert (Hfold :
    ((iteration l + 1 =? max_iterations self)%Z
     || get_no_improvement_flag (update_feedback (trend_evaluator l) fb))
    = escalates (iteration l + 1) (update_feedback (trend_evaluator l) fb))
    by reflexivity.
  rewrite Hfold; clear Hfold.
  destruct (escalates _ _) eqn:Hesc; cbn [world memory trace].
  - destruct (time_time w3) as [t2 w4]; cbn [world memory trace].
    destruct (run_s2_solver problem (s2_llm_solver self) w4)
      as [[[s2_solution s2_metadata] | e] w5] eqn:Hs2; cbn [world memory trace].
    + destruct (time_time w5) as [t3 w6]; cbn [world memory trace].
      intros H; inversion H; subst.
      eapply BodyS2Solved; cbn; try reflexivity;
        try (rewrite <- !app_assoc; reflexivity); assumption.
    + intros H; inversion H; subst.
      eapply BodyS2Raise; cbn; try reflexivity;
        try (rewrite <- !app_assoc; reflexivity); try eassumption.
      now exists problem, (s2_llm_solver self), w4, w5.
  - intros H; inversion H; subst.
    eapply BodyContinue; cbn; try reflexivity;
      try (rewrite <- !app_assoc; reflexivity); assumption.
Qed.

(** How the whole loop can end, started with locals [l] in state [st]: the
    trace grows by some rounds that failed and went on, then by the events
    of the last round. *)
Inductive loop_spec (l : Locals) (st : St) : result Locals -> St -> Prop :=
| LoopExit :
    (max_iterations self <= iteration l)%Z ->
    loop_spec l st (Ok l) st
| LoopS1Raise rs m e st' :
    trace st' = trace st ++ failed_rounds rs ++ [EvS1Call m] ->
    memory st' = memory st ->
    (iteration l + Z.of_nat (List.length rs) + 1 <= max_iterations self)%Z ->
    agent_raises e \/ validator_raises e ->
    loop_spec l st (Raise e) st'
| LoopSolved rs m sol fb l' st' :
    trace st' = trace st ++ failed_rounds rs ++
      [EvS1Call m; EvValidated sol true fb] ->
    memory st' = memory st ++ [(problem_repr, format_solution_for_memory sol)] ->
    iteration l' = (iteration l + Z.of_nat (List.length rs) + 1)%Z ->
    (iteration l' <= max_iterations self)%Z ->
    cur_s1_solved l' = true ->
    cur_s2_solved l' = cur_s2_solved l ->
    cur_s2_time l' = cur_s2_time l ->
    cur_solution l' = Some sol ->
    validator_answers problem sol true fb ->
    loop_spec l st (Ok l') st'
| LoopS2Raise rs m sol fb e st' :
    trace st' = trace st ++ failed_rounds rs ++
      [EvS1Call m; EvValidated sol false fb;
       EvS2Call problem (s2_llm_solver self)] ->
    memory st' = memory st ->
    (iteration l + Z.of_nat (List.length rs) + 1 <= max_iterations self)%Z ->
    s2_solver_raises e ->
    loop_spec l st (Raise e) st'
| LoopS2Solved rs m sol fb s2_solution s2_metadata l' st' :
    trace st' = trace st ++ failed_rounds rs ++
      [EvS1Call m; EvValidated sol false fb;
       EvS2Call problem (s2_llm_solver self);
       EvS2Returned s2_solution s2_metadata] ->
    memory st' = memory st ++
      [(problem_repr, format_solution_for_memory s2_solution)] ->
    iteration l' = (iteration l + Z.of_nat (List.length rs) + 1)%Z ->
    (iteration l' <= max_iterations self)%Z ->
    cur_s1_solved l' = cur_s1_solved l ->
    cur_s2_solved l' = true ->
    cur_solution l' = Some s2_solution ->
    loop_spec l st (Ok l') st'.

Lemma escalates_false_lt (i : Z) (te : Evaluator) :
  (i <= max_iterations self)%Z -> escalates i te = false ->
  (i < max_iterations self)%Z.
Proof.
  unfold escalates. intros Hle H.
  apply orb_false_iff in H. destruct H as [H _].
  apply Z.eqb_neq in H. lia.
Qed.

Lemma loop_cases (fuel : nat) :
  forall (l : Locals) (st : St) r st',
    loop self problem problem_repr fuel l st = Some (r, st') ->
    loop_spec l st r st'.
Proof.
  induction fuel as [| fuel IH]; intros l st r st'; cbn [while_loop];
    destruct (Z.ltb_spec (iteration l) (max_iterations self)) as [Hlt | Hge];
    try discriminate;
    try (intros H; inversion H; subst; now apply LoopExit).
  destruct (body self problem problem_repr l st) as [[[l1 | l1] | e] st1] eqn:Hbody;
    apply body_cases in Hbody; intros H.
  - (* the round failed and the loop goes on *)
    apply IH in H.
    inversion Hbody as [ | | response fb ? ? Htr Hmem Hit Hesc Hte Hs1 Hs2 Ht2 Hmsg | | ];
      subst.
    apply escalates_false_lt in Hesc; [ | lia ].
    set (round := (messages l, parse_solution response, fb)).
    inversion H as [ Hex | rs m e' ? Htr' Hmem' Hle Hwhy
                   | rs m sol fb' ? ? Htr' Hmem' Hit' Hle Ha Hb Hc Hd Hans
                   | rs m sol fb' e' ? Htr' Hmem' Hle Hwhy
                   | rs m sol fb' s2s s2m ? ? Htr' Hmem' Hit' Hle Ha Hb Hc ];
      subst.
    + lia.
    + apply LoopS1Raise with (rs := round :: rs) (m := m).
      * rewrite Htr', Htr, <- !app_assoc. reflexivity.
      * congruence.
      * cbn [List.length]. lia.
      * assumption.
    + apply LoopSolved with (rs := round :: rs) (m := m) (sol := sol) (fb := fb').
      * rewrite Htr', Htr, <- !app_assoc. reflexivity.
      * congruence.
      * cbn [List.length]. lia.
      * assumption.
      * assumption.
      * congruence.
      * congruence.
      * assumption.
      * assumption.
    + apply LoopS2Raise with (rs := round :: rs) (m := m) (sol := sol) (fb := fb').
      * rewrite Htr', Htr, <- !app_assoc. reflexivity.
      * congruence.
      * cbn [List.length]. lia.
      * assumption.
    + apply LoopS2Solved with (rs := round :: rs) (m := m) (sol := sol)
                              (fb := fb') (s2_solution := s2s)
                              (s2_metadata := s2m).
      * rewrite Htr', Htr, <- !app_assoc. reflexivity.
      * congruence.
      * cbn [List.length]. lia.
      * assumption.
      * congruence.
      * assumption.
      * assumption.
  - (* the round ended the loop *)
    inversion H; subst.
    inversion Hbody as [ | response fb ? ? Htr Hmem Hit Ha Hb Hc Hd Hans | |
                       | response fb s2s s2m ? ? Htr Hmem Hit Hesc Ha Hb Hc ];
      subst.
    + apply LoopSolved with (rs := []) (m := messages l)
                            (sol := parse_solution response) (fb := fb);
        cbn [List.length failed_rounds flat_map app]; try assumption; lia.
    + apply LoopS2Solved with (rs := []) (m := messages l)
                              (sol := parse_solution response) (fb := fb)
                              (s2_solution := s2s) (s2_metadata := s2m);
        cbn [List.length failed_rounds flat_map app]; try assumption; lia.
  - (* a collaborator raised *)
    inversion H; subst.
    inversion Hbody as [ ? ? Htr Hmem Hwhy | | | response fb ? ? Htr Hmem Hesc Hwhy | ];
      subst.
    + apply LoopS1Raise with (rs := []) (m := messages l);
        cbn [List.length failed_rounds flat_map app]; try assumption; lia.
    + apply LoopS2Raise with (rs := []) (m := messages l)
                             (sol := parse_solution response) (fb := fb);
        cbn [List.length failed_rounds flat_map app]; try assumption; lia.
Qed.

(** The loop needs no more passes than the counter is short of the bound. *)
Lemma loop_total (fuel : nat) :
  forall (l : Locals) (st : St),
    (Z.to_nat (max_iterations self - iteration l) <= fuel)%nat ->
    exists r st', loop self problem problem_repr fuel l st = Some (r, st').
Proof.
  induction fuel as [| fuel IH]; intros l st Hfuel; cbn [while_loop];
    destruct (Z.ltb_spec (iteration l) (max_iterations self)) as [Hlt | Hge];
    try (now eexists; eexists); try lia.
  destruct (body self problem problem_repr l st) as [[[l1 | l1] | e] st1] eqn:Hbody;
    try (now eexists; eexists).
  apply body_cases in Hbody.
  inversion Hbody; subst.
  apply IH. lia.
Qed.
End Round.

(** Every way a call of [solve] can end.  [rs] are the rounds that failed
    and after which the loop went on; the last round follows them in the
    trace. *)
Inductive solve_spec (self : MCModule) (problem : Problem)
  : Run -> Prop :=
| SolveNoRound out run :
    (max_iterations self <= 0)%Z ->
    returned run = Ok out ->
    calls run = [] ->
    self_after run = with_memory self (episodic_memory self) ->
    solved out = false ->
    s1_solved out = false ->
    s2_solved out = false ->
    iterations out = 0%Z ->
    s2_time out = time_zero ->
    solution out = None ->
    solve_spec self problem run
| SolveS1Raise rs m e run :
    returned run = Raise e ->
    calls run = failed_rounds rs ++ [EvS1Call m] ->
    self_after run = with_memory self (episodic_memory self) ->
    (Z.of_nat (List.length rs) + 1 <= max_iterations self)%Z ->
    agent_raises e \/ validator_raises e ->
    solve_spec self problem run
| SolveS1Solved rs m sol fb out run :
    returned run = Ok out ->
    calls run = failed_rounds rs ++ [EvS1Call m; EvValidated sol true fb] ->
    self_after run =
      with_memory self
        (episodic_memory self ++
           [(get_problem_representation problem, format_solution_for_memory sol)]) ->
    solved out = true ->
    s1_solved out = true ->
    s2_solved out = false ->
    iterations out = (Z.of_nat (List.length rs) + 1)%Z ->
    (iterations out <= max_iterations self)%Z ->
    s2_time out = time_zero ->
    solution out = Some sol ->
    validator_answers problem sol true fb ->
    solve_spec self problem run
| SolveS2Raise rs m sol fb e run :
    returned run = Raise e ->
    calls run = failed_rounds rs ++
      [EvS1Call m; EvValidated sol false fb;
       EvS2Call problem (s2_llm_solver self)] ->
    self_after run = with_memory self (episodic_memory self) ->
    (Z.of_nat (List.length rs) + 1 <= max_iterations self)%Z ->
    s2_solver_raises e ->
    solve_spec self problem run
| SolveS2Solved rs m sol fb s2_solution s2_metadata out run :
    returned run = Ok out ->
    calls run = failed_rounds rs ++
      [EvS1Call m; EvValidated sol false fb;
       EvS2Call problem (s2_llm_solver self);
       EvS2Returned s2_solution s2_metadata] ->
    self_after run =
      with_memory self
        (episodic_memory self ++
           [(get_problem_representation problem,
             format_solution_for_memory s2_solution)]) ->
    solved out = true ->
    s1_solved out = false ->
    s2_solved out = true ->
    iterations out = (Z.of_nat (List.length rs) + 1)%Z ->
    (iterations out <= max_iterations self)%Z ->
    solution out = Some s2_solution ->
    solve_spec self problem run.

Lemma solve_cases (self : MCModule) (problem : Problem) (verbose : bool)
    (w : World) (run : Run) :
  solve_ self problem verbose w = Some run -> solve_spec self problem run.
Proof.
  unfold solve.
  destruct (time_time w) as [start_time w0].
  match goal with
  | |- context [while_loop _ _ _ _ _ _ ?s ?p ?pr ?f ?l ?st] =>
      destruct (while_loop ollama_chat time_time time_add time_sub
                  update_feedback get_no_improvement_flag s p pr f l st)
        as [[[lf | e] stf] |] eqn:Hloop
  end; try discriminate; apply loop_cases in Hloop.
  - destruct (time_time (world stf)) as [end_time w1].
    intros H; inversion H; subst; clear H.
    inversion Hloop as [ Hex | | rs m sol fb ? ? Htr Hmem Hit Hle Ha Hb Hc Hd Hans |
                       | rs m sol fb s2s s2m ? ? Htr Hmem Hit Hle Ha Hb Hc ];
      subst; cbn [iteration cur_s1_solved cur_s2_solved cur_s2_time cur_solution
                  trace memory app] in *.
    + eapply SolveNoRound; cbn; try reflexivity. assumption.
    + eapply SolveS1Solved with (rs := rs) (m := m) (sol := sol) (fb := fb);
        cbn [returned calls self_after solved s1_solved s2_solved iterations
             s2_time solution];
        try reflexivity; try assumption; try congruence;
        try (rewrite Ha, Hb; reflexivity); try lia.
    + eapply SolveS2Solved with (rs := rs) (m := m) (sol := sol) (fb := fb)
                                (s2_solution := s2s) (s2_metadata := s2m);
        cbn [returned calls self_after solved s1_solved s2_solved iterations
             s2_time solution];
        try reflexivity; try assumption; try congruence;
        try (rewrite Ha, Hb; reflexivity); try lia.
  - intros H; inversion H; subst; clear H.
    inversion Hloop as [ | rs m ? ? Htr Hmem Hle Hwhy | |
                       rs m sol fb ? ? Htr Hmem Hle Hwhy | ];
      subst; cbn [iteration trace memory app] in *.
    + eapply SolveS1Raise with (rs := rs) (m := m);
        cbn [returned calls self_after];
        try reflexivity; try assumption; try congruence; try lia.
    + eapply SolveS2Raise with (rs := rs) (m := m) (sol := sol) (fb := fb);
        cbn [returned calls self_after];
        try reflexivity; try assumption; try congruence; try lia.
Qed.

(** [solve] never runs out of fuel. *)
Lemma solve_terminates (self : MCModule) (problem : Problem) (verbose : bool)
    (w : World) :
  exists run, solve_ self problem verbose w = Some run.
Proof.
  unfold solve.
  destruct (time_time w) as [start_time w0].
  match goal with
  | |- context [while_loop _ _ _ _ _ _ ?s ?p ?pr ?f ?l ?st] =>
      destruct (@loop_total s p pr f l st) as (r & st' & Hloop);
        [ cbn [iteration]; lia | rewrite Hloop ]
  end.
  destruct r as [lf | e].
  - destruct (time_time (world st')) as [end_time w1]. now eexists.
  - now eexists.
Qed.

(** *** Claims about [MCModule.solve] *)

(** C1.  If the candidate parsed from System 1's answer is accepted by
    [validate_solution] in round [i], then [i <= max_iterations], [solve]
    returns a dict with [solved], [s1_solved] true and [iterations = i], and
    the episodic memory has grown by exactly one entry: the problem
    representation paired with the representation of the accepted candidate. *)
Theorem s1_acceptance_outcome (self : MCModule) (problem : Problem)
    (verbose : bool) (w : World) (run : Run)
    (i : nat) (sol : Solution) (fb : Feedback) :
  solve_ self problem verbose w = Some run ->
  verdict_at (calls run) i = Some (sol, true, fb) ->
  (Z.of_nat i <= max_iterations self)%Z /\
  exists out,
    returned run = Ok out /\
    solved out = true /\
    s1_solved out = true /\
    iterations out = Z.of_nat i /\
    solution out = Some sol /\
    episodic_memory (self_after run)
    = episodic_memory self ++
        [(get_problem_representation problem, format_solution_for_memory sol)].
Proof.
  intros Hsolve Hverdict.
  apply solve_cases in Hsolve.
  destruct i as [| k]; [ discriminate | cbn [verdict_at] in Hverdict ].
  inversion Hsolve as
      [ out ? Hmax Hret Hcalls
      | rs m e ? Hret Hcalls
      | rs m sol' fb' out ? Hret Hcalls Hself Hsolved Hs1 Hs2 Hit Hle Ht2 Hsol Hans
      | rs m sol' fb' e ? Hret Hcalls
      | rs m sol' fb' s2s s2m out ? Hret Hcalls ];
    subst; rewrite Hcalls in Hverdict.
  - destruct k; discriminate.
  - rewrite validations_app, validations_failed_rounds in Hverdict.
    cbn [validations] in Hverdict. rewrite app_nil_r in Hverdict.
    apply nth_error_rejected in Hverdict. destruct Hverdict; discriminate.
  - apply nth_error_rounds_then with (v := (sol', true, fb')) in Hverdict;
      [ | reflexivity ].
    destruct Hverdict as [[Hb _] | [Hk Hv]]; [ discriminate | ].
    inversion Hv; subst.
    split; [ lia | ].
    exists out. rewrite Hself. cbn [episodic_memory with_memory].
    repeat split; try assumption. lia.
  - apply nth_error_rounds_then with (v := (sol', false, fb')) in Hverdict;
      [ | reflexivity ].
    destruct Hverdict as [[Hb _] | [_ Hv]]; [ discriminate | inversion Hv ].
  - apply nth_error_rounds_then with (v := (sol', false, fb')) in Hverdict;
      [ | reflexivity ].
    destruct Hverdict as [[Hb _] | [_ Hv]]; [ discriminate | inversion Hv ].
Qed.





(** C4, as amended.  With [max_iterations >= 1], a call of [solve] that
    returns (no collaborator raised) returns [solved = True]; with
    [max_iterations <= 0], whatever the value, the loop body is never
    entered: the call returns without a single request, with [solved],
    [s1_solved] and [s2_solved] all [False] and [iterations = 0]. *)
Theorem solved_whenever_a_round_is_allowed (self : MCModule)
    (problem : Problem) (verbose : bool) (w : World) :
  ((1 <= max_iterations self)%Z ->
   forall (run : Run) (out : SolveOutcome Solution Time),
     solve_ self problem verbose w = Some run ->
     returned run = Ok out ->
     solved out = true) /\
  ((max_iterations self <= 0)%Z ->
   exists (run : Run) (out : SolveOutcome Solution Time),
     solve_ self problem verbose w = Some run /\
     returned run = Ok out /\
     calls run = [] /\
     solved out = false /\ s1_solved out = false /\ s2_solved out = false /\
     iterations out = 0%Z).
Proof.
  split.
  - intros Hmax run out Hsolve Hret.
    apply solve_cases in Hsolve.
    inversion Hsolve as
        [ out' ? Hle Hret'
        | rs m e ? Hret'
        | rs m sol fb out' ? Hret' Hcalls Hself Hsolved
        | rs m sol fb e ? Hret'
        | rs m sol fb s2s s2m out' ? Hret' Hcalls Hself Hsolved ];
      subst; rewrite Hret in Hret'; try discriminate; try lia;
      inversion Hret'; subst; assumption.
  - intros Hmax.
    destruct (solve_terminates self problem verbose w) as [run Hsolve].
    exists run. pose proof Hsolve as Hspec. apply solve_cases in Hspec.
    inversion Hspec as
        [ out ? Hle Hret Hcalls Hself Hsolved Hs1 Hs2 Hit
        | rs m e ? Hret Hcalls Hself Hle
        | rs m sol fb out ? Hret Hcalls Hself Hsolved Hs1 Hs2 Hit Hle
        | rs m sol fb e ? Hret Hcalls Hself Hle
        | rs m sol fb s2s s2m out ? Hret Hcalls Hself Hsolved Hs1 Hs2 Hit Hle ];
      subst; try lia.
    exists out. repeat split; assumption.
Qed.

(** C5.  Every call of [solve] ends, after at most [max_iterations] calls of
    the System 1 agent client and at most one invocation of the System 2
    solver; the [iterations] it reports is the number of System 1 calls. *)
Theorem solve_is_bounded (self : MCModule) (problem : Problem)
    (verbose : bool) (w : World) :
  exists run,
    solve_ self problem verbose w = Some run /\
    (s1_calls (calls run) <= Z.to_nat (max_iterations self))%nat /\
    (s2_calls (calls run) <= 1)%nat /\
    (forall out, returned run = Ok out ->
                 iterations out = Z.of_nat (s1_calls (calls run))).
Proof.
  destruct (solve_terminates self problem verbose w) as [run Hsolve].
  exists run. split; [ exact Hsolve | ].
  apply solve_cases in Hsolve.
  inversion Hsolve as
      [ out ? Hle Hret Hcalls Hself Hsolved Hs1 Hs2 Hit
      | rs m e ? Hret Hcalls Hself Hle
      | rs m sol fb out ? Hret Hcalls Hself Hsolved Hs1 Hs2 Hit Hle
      | rs m sol fb e ? Hret Hcalls Hself Hle
      | rs m sol fb s2s s2m out ? Hret Hcalls Hself Hsolved Hs1 Hs2 Hit Hle ];
    subst; rewrite Hcalls;
    try rewrite s1_calls_app, s1_calls_failed_rounds;
    try rewrite s2_calls_app, s2_calls_failed_rounds;
    cbn; (split; [ lia | split; [ lia | ] ]);
    intros out' Hout; rewrite Hret in Hout; inversion Hout; subst; lia.
Qed.

(** C10.  In every dict that [solve] returns, [s1_solved] and [s2_solved]
    are not both true, [solved] is their disjunction, and [s2_time] is the
    initial [0] when [s1_solved] is true. *)
Theorem outcome_invariants (self : MCModule) (problem : Problem)
    (verbose : bool) (w : World) (run : Run)
    (out : SolveOutcome Solution Time) :
  solve_ self problem verbose w = Some run ->
  returned run = Ok out ->
  s1_solved out && s2_solved out = false /\
  solved out = s1_solved out || s2_solved out /\
  (s1_solved out = true -> s2_time out = time_zero).
Proof.
  intros Hsolve Hret.
  apply solve_cases in Hsolve.
  inversion Hsolve as
      [ out' ? Hle Hret' Hcalls Hself Hsolved Hs1 Hs2 Hit Ht2
      | rs m e ? Hret'
      | rs m sol fb out' ? Hret' Hcalls Hself Hsolved Hs1 Hs2 Hit Hle Ht2
      | rs m sol fb e ? Hret'
      | rs m sol fb s2s s2m out' ? Hret' Hcalls Hself Hsolved Hs1 Hs2 ];
    subst; rewrite Hret in Hret'; try discriminate;
    inversion Hret'; subst;
    rewrite Hsolved, Hs1, Hs2; repeat split;
    intros; first [ assumption | discriminate ].
Qed.


(** A round in which the agent answers [response] and the validator rejects
    the candidate parsed from it with feedback [fb]: either the loop goes on,
    the conversation extended by the answer and by the feedback as
    [format_feedback] renders it, or the System 2 solver is invoked.  The
    candidate and the feedback are whatever [parse_solution] and
    [validate_solution] returned. *)
Lemma round_after_rejection (self : MCModule) (problem : Problem)
    (problem_repr : string) (l : Locals) (st : St)
    (t0 t1 : Time) (w0 w1 w2 w3 : World) (response : string) (fb : Feedback) :
  time_time (world st) = (t0, w0) ->
  generate_response ollama_chat (llm_solver self) (messages l) w0
  = (Ok response, w1) ->
  time_time w1 = (t1, w2) ->
  validate_solution problem (parse_solution response) w2 = (Ok (false, fb), w3) ->
  exists r st',
    body self problem problem_repr l st = (r, st') /\
    if escalates self (iteration l + 1) (update_feedback (trend_evaluator l) fb)
    then
      exists rest,
        trace st'
        = trace st ++
            [EvS1Call (messages l);
             EvValidated (parse_solution response) false fb;
             EvS2Call problem (s2_llm_solver self)] ++ rest
    else
      exists l',
        r = Ok (Continue l') /\
        iteration l' = (iteration l + 1)%Z /\
        messages l'
        = messages l ++
            [assistant_message response;
             user_message ("Feedback: " ++ format_feedback fb)%string] /\
        memory st' = memory st /\
        trace st'
        = trace st ++
            [EvS1Call (messages l);
             EvValidated (parse_solution response) false fb].
Proof.
  intros Ht0 Hs1 Ht1 Hval.
  destruct (body self problem problem_repr l st) as [r st'] eqn:Hbody.
  exists r, st'. split; [ reflexivity | ].
  revert Hbody.
  unfold loop_body, bind, clock, log, lift_world, add_memory, modify, ret.
  destruct st as [w mem tr]; cbn [world memory trace] in *.
  rewrite Ht0; cbn [world memory trace].
  rewrite Hs1; cbn [world memory trace].
  rewrite Ht1; cbn [world memory trace].
  rewrite Hval; cbn [world memory trace].
  assert (Hfold :
    ((iteration l + 1 =? max_iterations self)%Z
     || get_no_improvement_flag (update_feedback (trend_evaluator l) fb))
    = escalates self (iteration l + 1) (update_feedback (trend_evaluator l) fb))
    by reflexivity.
  rewrite Hfold; clear Hfold.
  destruct (escalates _ _ _); cbn [world memory trace].
  - destruct (time_time w3) as [t2 w4]; cbn [world memory trace].
    destruct (run_s2_solver problem (s2_llm_solver self) w4)
      as [[[s2_solution s2_metadata] | e] w5]; cbn [world memory trace].
    + destruct (time_time w5) as [t3 w6]; cbn [world memory trace].
      intros H; inversion H; subst; cbn [trace].
      exists [EvS2Returned s2_solution s2_metadata].
      rewrite <- !app_assoc. reflexivity.
    + intros H; inversion H; subst; cbn [trace].
      exists []. rewrite <- !app_assoc. reflexivity.
  - intros H; inversion H; subst; cbn [trace memory].
    eexists. split; [ reflexivity | ].
    cbn [iteration messages]. repeat split.
    rewrite <- !app_assoc. reflexivity.
Qed.

End ControllerFacts.

(** ** The trend evaluator *)

Section TrendEvaluatorFacts.
Variable Feedback : Type.
Variable violations : Feedback -> nat.
Variable comparable : Feedback -> Feedback -> bool.

Local Abbreviation flag :=
  (TrendEvaluator.get_no_improvement_flag violations comparable).
Local Abbreviation update := (@TrendEvaluator.update_feedback Feedback).


End TrendEvaluatorFacts.

(** ** The parsers *)

Lemma scan_lines_no_match (lines : list string)
    (acc : GraphColoringParser.Coloring) :
  (forall line, In line lines ->
                GraphColoringParser.pattern_match (PyStr.strip line) = None) ->
  GraphColoringParser.scan_lines lines acc = acc.
Proof.
  unfold GraphColoringParser.scan_lines.
  revert acc. induction lines as [| line lines IH]; intros acc Hnone;
    cbn [fold_left]; [ reflexivity | ].
  rewrite (Hnone line (or_introl eq_refl)).
  apply IH. intros line' Hin. apply Hnone. now right.
Qed.

(** A response none of whose lines matches [(vertex color)] parses to the
    empty dict. *)
Lemma parse_solution_sentinel (response : string) :
  (forall line, In line (PyStr.split_lines (PyStr.strip response)) ->
                GraphColoringParser.pattern_match (PyStr.strip line) = None) ->
  GraphColoringParser.parse_solution response = [].
Proof.
  intros Hnone. unfold GraphColoringParser.parse_solution.
  now apply scan_lines_no_match.
Qed.

(** A response with no [<code>] block and no fenced block parses to the
    whole response, stripped. *)
Lemma parse_fixed_code_sentinel (llm_response : string) :
  CodeDebuggingParser.search_between "<code>" "</code>" llm_response = None ->
  CodeDebuggingParser.search_between "```python" "```" llm_response = None ->
  CodeDebuggingParser.search_between "```" "```" llm_response = None ->
  CodeDebuggingParser.parse_fixed_code llm_response = PyStr.strip llm_response.
Proof.
  intros H1 H2 H3. unfold CodeDebuggingParser.parse_fixed_code.
  rewrite H1, H2, H3.
  destruct (PyStr.contains "```python" llm_response);
    destruct (PyStr.contains "```" llm_response); reflexivity.
Qed.

(** The inputs of [test_solution_parser] and [test_domain_interface] in
    [test_code_debugging.py], and a response in the format the graph-colouring
    prompt asks for. *)
Example parse_fixed_code_tags :
  CodeDebuggingParser.parse_fixed_code
    ("<code>" ++ PyStr.newline ++ "def fixed():" ++ PyStr.newline
     ++ "    return True" ++ PyStr.newline ++ "</code>" ++ PyStr.newline
     ++ "<exp>Fixed the bug</exp>")%string
  = ("def fixed():" ++ PyStr.newline ++ "    return True")%string.
Proof. reflexivity. Qed.

Example parse_fixed_code_fence :
  CodeDebuggingParser.parse_fixed_code
    ("```python" ++ PyStr.newline ++ "def fixed():" ++ PyStr.newline
     ++ "    return True" ++ PyStr.newline ++ "```")%string
  = ("def fixed():" ++ PyStr.newline ++ "    return True")%string.
Proof. reflexivity. Qed.

Example parse_solution_pairs :
  GraphColoringParser.parse_solution
    ("Here is a coloring:" ++ PyStr.newline ++ "(a 1)" ++ PyStr.newline
     ++ "  (b   22) as asked" ++ PyStr.newline ++ "(a 3)" ++ PyStr.newline
     ++ "(c x)" ++ PyStr.newline ++ "see (d 1)")%string
  = [("a", 3%Z); ("b", 22%Z)].
Proof. reflexivity. Qed.

(** ** The LeetCode validator *)

Section ValidatorFacts.
Variable Ext : Type.
Variable Tester : Type.
Variable Time : Type.
Variable time_time : Ext -> Time * Ext.
Variable time_sleep : Time -> Ext -> Ext.
Variable time_sub : Time -> Time -> Time.
Variable time_lt : Time -> Time -> bool.
Variable time_of_Z : Z -> Time.
Variable environ_get : string -> Ext -> option string.
Variable LeetCodeTester : option (Eff Ext Tester).
Variable tester_test :
  Tester -> string -> string -> string -> Eff Ext (bool * PyDict.t).
Variable ollama_chat : string -> list Message -> Eff Ext (list string).

Local Abbreviation VWorld := (LeetCodeValidator.VWorld Ext Tester Time).
Local Abbreviation validate_try :=
  (LeetCodeValidator.validate_try time_time time_sleep time_sub time_lt
     time_of_Z environ_get LeetCodeTester tester_test).
Local Abbreviation validate_code_with_leetcode :=
  (LeetCodeValidator.validate_code_with_leetcode time_time time_sleep time_sub
     time_lt time_of_Z environ_get LeetCodeTester tester_test).
Local Abbreviation get_leetcode_tester :=
  (LeetCodeValidator.get_leetcode_tester (Time := Time) environ_get
     LeetCodeTester).

(** The dict an exception is turned into. *)
Definition error_feedback (e : PyExn) : PyDict.t :=
  [("error", VStr (str_of_exn e));
   ("status_msg",
    VStr (if is_EnvironmentError e then "Environment Error"
          else "Validation Error"))].

Lemma validate_except_feedback (e : PyExn) :
  LeetCodeValidator.validate_except e = (false, error_feedback e).
Proof. destruct e; reflexivity. Qed.

(** The function returns in every case; when the [try] block raised, the
    result is [False] with the error dict. *)
Lemma validate_never_raises (code task_id language : string) (w : VWorld) :
  exists v w',
    validate_code_with_leetcode code task_id language w = (Ok v, w') /\
    forall e w1,
      validate_try code task_id language w = (Raise e, w1) ->
      v = (false, error_feedback e) /\ w' = w1.
Proof.
  unfold LeetCodeValidator.validate_code_with_leetcode.
  destruct (validate_try code task_id language w) as [[v | e] w'].
  - exists v, w'. split; [ reflexivity | ]. intros e w1 H. discriminate.
  - exists (LeetCodeValidator.validate_except e), w'.
    split; [ reflexivity | ].
    intros e' w1 H. inversion H; subst.
    split; [ apply validate_except_feedback | reflexivity ].
Qed.

(** Without a tester instance and without [LEETCODE_SESSION], the tester
    cannot be obtained. *)
Lemma get_leetcode_tester_missing_session (w : VWorld) :
  LeetCodeValidator._tester_instance (LeetCodeValidator.globals w) = None ->
  LeetCodeValidator.session_missing environ_get (LeetCodeValidator.ext w) = true ->
  get_leetcode_tester w
  = (Raise (EnvironmentError LeetCodeValidator.session_missing_message), w).
Proof.
  intros Hnone Hmissing.
  unfold LeetCodeValidator.get_leetcode_tester, bind, gets.
  rewrite Hnone, Hmissing. reflexivity.
Qed.

(** [LEETCODE_SESSION] is unset (or empty), and stays so while the validator
    reads the clock and sleeps. *)
Definition session_unset : Prop :=
  forall x : Ext, LeetCodeValidator.session_missing environ_get x = true.

Lemma validate_missing_session (code task_id language : string) (w : VWorld) :
  LeetCodeValidator._tester_instance (LeetCodeValidator.globals w) = None ->
  session_unset ->
  exists w',
    validate_code_with_leetcode code task_id language w
    = (Ok (false,
           [("error", VStr LeetCodeValidator.session_missing_message);
            ("status_msg", VStr "Environment Error")]), w').
Proof.
  intros Hnone Hmissing.
  unfold LeetCodeValidator.validate_code_with_leetcode,
    LeetCodeValidator.validate_try, bind, gets, LeetCodeValidator.now.
  destruct (time_time (LeetCodeValidator.ext w)) as [t x] eqn:Ht.
  cbn [LeetCodeValidator.globals LeetCodeValidator.ext].
  match goal with
  | |- context [if ?c then LeetCodeValidator.sleep _ _ else ret tt] =>
      destruct c
  end.
  - unfold LeetCodeValidator.sleep, modify.
    cbn [LeetCodeValidator.globals LeetCodeValidator.ext].
    rewrite get_leetcode_tester_missing_session by (try apply Hmissing; assumption).
    eexists. reflexivity.
  - unfold ret.
    rewrite get_leetcode_tester_missing_session by (try apply Hmissing; assumption).
    eexists. reflexivity.
Qed.
End ValidatorFacts.

(** ** The controller over the code-debugging domain *)

Section CodeDebuggingFacts.
Variable Ext : Type.
Variable Tester : Type.
Variable Time : Type.
Variable time_time : Ext -> Time * Ext.
Variable time_sleep : Time -> Ext -> Ext.
Variable time_sub : Time -> Time -> Time.
Variable time_lt : Time -> Time -> bool.
Variable time_of_Z : Z -> Time.
Variable environ_get : string -> Ext -> option string.
Variable LeetCodeTester : option (Eff Ext Tester).
Variable tester_test :
  Tester -> string -> string -> string -> Eff Ext (bool * PyDict.t).
Variable ollama_chat : string -> list Message -> Eff Ext (list string).

Local Abbreviation World := (CodeDebugging.World Ext Tester Time).
Local Abbreviation validate_try :=
  (LeetCodeValidator.validate_try time_time time_sleep time_sub time_lt
     time_of_Z environ_get LeetCodeTester tester_test).
Local Abbreviation validate_code_with_leetcode :=
  (LeetCodeValidator.validate_code_with_leetcode time_time time_sleep time_sub
     time_lt time_of_Z environ_get LeetCodeTester tester_test).
Local Abbreviation domain :=
  (CodeDebugging.CodeDebuggingDomain time_time time_sleep time_sub time_lt
     time_of_Z environ_get LeetCodeTester tester_test ollama_chat).
Local Abbreviation chat := (CodeDebugging.chat (Tester := Tester) (Time := Time) ollama_chat).

(** The controller's own clock, sums and differences, and its evaluator. *)
Variable CTime : Type.
Variable clock_time : World -> CTime * World.
Variable ctime_add ctime_sub : CTime -> CTime -> CTime.
Variable Evaluator : Type.
Variable update_feedback : Evaluator -> PyDict.t -> Evaluator.
Variable get_no_improvement_flag : Evaluator -> bool.

Lemma validate_solution_of_fault (problem : CodeDebugging.CodeDebuggingProblem)
    (solution : string) (w w' : World) (e : PyExn) :
  validate_try solution (CodeDebugging.slug problem)
    CodeDebugging.leetcode_language w = (Raise e, w') ->
  validate_solution (DomainInterface := domain) problem solution w
  = (Ok (false, error_feedback e), w').
Proof.
  intros Htry. cbn [validate_solution domain CodeDebugging.CodeDebuggingDomain].
  unfold CodeDebugging.validate_solution, bind,
    LeetCodeValidator.validate_code_with_leetcode.
  rewrite Htry, validate_except_feedback. reflexivity.
Qed.

(** C6.  [validate_code_with_leetcode] returns in every case; when a step of
    its [try] block raises [e], it returns [False] with a dict that carries
    [str(e)] and a status message, which for a missing [LEETCODE_SESSION] is
    the [EnvironmentError]'s; and a round of the controller in which that
    happens goes on as after any rejected candidate: the loop continues with
    the rendered feedback appended to the conversation, or escalates. *)
Theorem validation_fault_is_feedback :
  (forall code task_id language (w : World),
      exists v w',
        validate_code_with_leetcode code task_id language w = (Ok v, w') /\
        forall e w1,
          validate_try code task_id language w = (Raise e, w1) ->
          v = (false, error_feedback e) /\ w' = w1)
  /\
  (forall code task_id language (w : World),
      LeetCodeValidator._tester_instance (LeetCodeValidator.globals w) = None ->
      session_unset environ_get ->
      exists w',
        validate_code_with_leetcode code task_id language w
        = (Ok (false,
               [("error", VStr LeetCodeValidator.session_missing_message);
                ("status_msg", VStr "Environment Error")]), w'))
  /\
  (forall (self : MCModule) (problem : CodeDebugging.CodeDebuggingProblem)
          (problem_repr : string) (l : Locals CTime Evaluator)
          (st : St (World := World)
                   (Problem := CodeDebugging.CodeDebuggingProblem)
                   (Solution := string) (Feedback := PyDict.t)
                   (Metadata := PyDict.t))
          t0 w0 response w1 t1 w2 e w3,
      clock_time (world st) = (t0, w0) ->
      generate_response chat (llm_solver self) (messages l) w0
      = (Ok response, w1) ->
      clock_time w1 = (t1, w2) ->
      validate_try (CodeDebuggingParser.parse_fixed_code response)
        (CodeDebugging.slug problem) CodeDebugging.leetcode_language w2
      = (Raise e, w3) ->
      exists r st',
        loop_body (domain := domain) chat clock_time ctime_add ctime_sub
          update_feedback get_no_improvement_flag
          self problem problem_repr l st = (r, st') /\
        if escalates get_no_improvement_flag self (iteration l + 1)
             (update_feedback (trend_evaluator l) (error_feedback e))
        then
          exists rest,
            trace st'
            = trace st ++
                [EvS1Call (messages l);
                 EvValidated (CodeDebuggingParser.parse_fixed_code response)
                   false (error_feedback e);
                 EvS2Call problem (s2_llm_solver self)] ++ rest
        else
          exists l',
            r = Ok (Continue l') /\
            iteration l' = (iteration l + 1)%Z /\
            messages l'
            = messages l ++
                [assistant_message response;
                 user_message
                   ("Feedback: "
                    ++ CodeDebugging.format_feedback (error_feedback e))%string] /\
            memory st' = memory st /\
            trace st'
            = trace st ++
                [EvS1Call (messages l);
                 EvValidated (CodeDebuggingParser.parse_fixed_code response)
                   false (error_feedback e)]).
Proof.
  split; [ | split ].
  - intros. apply validate_never_raises.
  - intros. now apply validate_missing_session.
  - intros self problem problem_repr l st t0 w0 response w1 t1 w2 e w3
           Ht0 Hs1 Ht1 Htry.
    apply validate_solution_of_fault in Htry.
    exact (round_after_rejection (domain := domain) chat clock_time
             ctime_add ctime_sub update_feedback get_no_improvement_flag
             self problem problem_repr l st Ht0 Hs1 Ht1 Htry).
Qed.
End CodeDebuggingFacts.

(** ** Escalation *)

Section EscalationFacts.
Context {World Problem Solution Feedback Metadata : Type}.
Context {domain : DomainInterface World Problem Solution Feedback Metadata}.
Variable ollama_chat : string -> list Message -> Eff World (list string).
Variable Time : Type.
Variable time_time : World -> Time * World.
Variable time_zero : Time.
Variable time_add time_sub : Time -> Time -> Time.
Variable Evaluator : Type.
Variable ImprovementTrendEvaluator : Evaluator.
Variable update_feedback : Evaluator -> Feedback -> Evaluator.
Variable get_no_improvement_flag : Evaluator -> bool.
Variable retrieve_similar : EpisodicMemory.t -> string -> list (string * string).


End EscalationFacts.

(** ** Parse faults *)

Section ParseFaultFacts.
Variable World : Type.
Variable ollama_chat : string -> list Message -> Eff World (list string).
Variable validate_coloring :
  string -> GraphColoringParser.Coloring
  -> Eff World (bool * list (string * string)).
Variable prompt_generator :
  string -> Z -> option (list (string * string)) -> string.
Variable Time : Type.
Variable time_time : World -> Time * World.
Variable time_add time_sub : Time -> Time -> Time.
Variable Evaluator : Type.
Variable update_feedback : Evaluator -> GraphColoring.Feedback -> Evaluator.
Variable get_no_improvement_flag : Evaluator -> bool.

Local Abbreviation domain :=
  (GraphColoring.GraphColoringDomain ollama_chat validate_coloring
     prompt_generator).

(** C7, as amended.  A response in which no line matches [(vertex color)]
    parses to the empty dict, and a response with no [<code>] block and no
    fenced block parses to the stripped response: the parsers return and do
    not raise.  The controller hands that value to [validate_solution] like
    any candidate and synthesizes no feedback of its own: if the validator
    rejects it, the loop continues with the validator's feedback as
    [format_feedback] renders it, or escalates. *)
Theorem parse_fault_stays_in_loop :
  (forall response,
      (forall line,
          In line (PyStr.split_lines (PyStr.strip response)) ->
          GraphColoringParser.pattern_match (PyStr.strip line) = None) ->
      GraphColoringParser.parse_solution response = [])
  /\
  (forall llm_response,
      CodeDebuggingParser.search_between "<code>" "</code>" llm_response = None ->
      CodeDebuggingParser.search_between "```python" "```" llm_response = None ->
      CodeDebuggingParser.search_between "```" "```" llm_response = None ->
      CodeDebuggingParser.parse_fixed_code llm_response
      = PyStr.strip llm_response)
  /\
  (forall (self : MCModule) (problem : GraphColoring.GraphColoringProblem)
          (problem_repr : string) (l : Locals Time Evaluator)
          (st : St (World := World)
                   (Problem := GraphColoring.GraphColoringProblem)
                   (Solution := GraphColoringParser.Coloring)
                   (Feedback := GraphColoring.Feedback) (Metadata := Z))
          t0 w0 response w1 t1 w2 fb w3,
      (forall line,
          In line (PyStr.split_lines (PyStr.strip response)) ->
          GraphColoringParser.pattern_match (PyStr.strip line) = None) ->
      time_time (world st) = (t0, w0) ->
      generate_response ollama_chat (llm_solver self) (messages l) w0
      = (Ok response, w1) ->
      time_time w1 = (t1, w2) ->
      GraphColoring.validate_solution validate_coloring problem [] w2
      = (Ok (false, fb), w3) ->
      exists r st',
        loop_body (domain := domain) ollama_chat time_time time_add time_sub
          update_feedback get_no_improvement_flag
          self problem problem_repr l st = (r, st') /\
        if escalates get_no_improvement_flag self (iteration l + 1)
             (update_feedback (trend_evaluator l) fb)
        then
          exists rest,
            trace st'
            = trace st ++
                [EvS1Call (messages l); EvValidated [] false fb;
                 EvS2Call problem (s2_llm_solver self)] ++ rest
        else
          exists l',
            r = Ok (Continue l') /\
            iteration l' = (iteration l + 1)%Z /\
            messages l'
            = messages l ++
                [assistant_message response;
                 user_message
                   ("Feedback: " ++ GraphColoring.format_feedback fb)%string] /\
            memory st' = memory st /\
            trace st'
            = trace st ++ [EvS1Call (messages l); EvValidated [] false fb]).
Proof.
  split; [ | split ].
  - exact parse_solution_sentinel.
  - exact parse_fixed_code_sentinel.
  - intros self problem problem_repr l st t0 w0 response w1 t1 w2 fb w3
           Hnone Ht0 Hs1 Ht1 Hval.
    pose proof (parse_solution_sentinel response Hnone) as Hparse.
    pose proof (round_after_rejection (domain := domain) ollama_chat time_time
                  time_add time_sub update_feedback get_no_improvement_flag
                  self problem problem_repr l st (fb := fb) (w3 := w3)
                  Ht0 Hs1 Ht1) as H.
    cbn [parse_solution validate_solution format_feedback domain
           GraphColoring.GraphColoringDomain] in H.
    unfold GraphColoring.parse_solution in H.
    rewrite Hparse in H. exact (H Hval).
Qed.
End ParseFaultFacts.

(** ** The configuration surface *)

Lemma fill_names (sig : PyCall.Signature) (kwargs env : list (string * PyVal)) :
  PyCall.fill sig kwargs = Ok env -> map fst env = PyCall.names sig.
Proof.
  revert env. induction sig as [| p sig IH]; intros env; cbn [PyCall.fill].
  - intros H; inversion H. reflexivity.
  - destruct (match PyCall.lookup kwargs (PyCall.pname p) with
              | Some v => Some v
              | None => PyCall.pdefault p
              end) as [v |]; [ | discriminate ].
    destruct (PyCall.fill sig kwargs) as [env' | e]; [ | discriminate ].
    intros H; inversion H; subst. cbn. f_equal. now apply IH.
Qed.

Lemma bind_keywords_names (sig : PyCall.Signature)
    (kwargs env : list (string * PyVal)) :
  PyCall.bind_keywords sig kwargs = Ok env -> map fst env = PyCall.names sig.
Proof.
  unfold PyCall.bind_keywords.
  destruct (PyCall.unexpected sig kwargs); [ discriminate | apply fill_names ].
Qed.

Lemma unexpected_keyword (sig : PyCall.Signature)
    (kwargs : list (string * PyVal)) (k : string) (v : PyVal) :
  In (k, v) kwargs -> PyCall.mem k (PyCall.names sig) = false ->
  exists k', PyCall.unexpected sig kwargs = Some k'.
Proof.
  induction kwargs as [| [k0 v0] kwargs IH]; intros Hin Hmem; [ destruct Hin | ].
  cbn [PyCall.unexpected].
  destruct (PyCall.mem k0 (PyCall.names sig)) eqn:Hk0; [ | now eexists ].
  destruct Hin as [Heq | Hin]; [ inversion Heq; subst; congruence | ].
  now apply IH.
Qed.

(** Against C8 as stated: no parameter of the constructor has the default
    [3], and a call that passes a number of memory examples under a name of
    its own is refused. *)
Lemma memory_examples_parameter_counterexample :
  filter (fun p => match PyCall.pdefault p with
                   | Some (VInt 3) => true
                   | _ => false
                   end) PyCall.MCModule_signature = []
  /\
  PyCall.bind_keywords PyCall.MCModule_signature
    [("domain", VObj "GraphColoringDomain"); ("num_examples", VInt 3)]
  = Raise (TypeError "got an unexpected keyword argument 'num_examples'").
Proof. split; reflexivity. Qed.

(** The call on lines 203-208 of [main.py] names [s1_llm] and [s2_lrm],
    which are no parameters of the constructor. *)
Lemma main_call_is_refused (domain s1_llm max_iterations s2_lrm : PyVal) :
  PyCall.bind_keywords PyCall.MCModule_signature
    (PyCall.main_call domain s1_llm max_iterations s2_lrm)
  = Raise (TypeError "got an unexpected keyword argument 's1_llm'").
Proof. reflexivity. Qed.

(** ** The claims on the worked runs *)

Module Runs.
Import PyStr.
Import Scenario.

Local Abbreviation gc_domain validator :=
  (GraphColoring.GraphColoringDomain scripted_chat validator prompt_generator).

Local Abbreviation evaluator_flag :=
  (TrendEvaluator.get_no_improvement_flag violations comparable).

Local Abbreviation evaluator_update :=
  (@TrendEvaluator.update_feedback GraphColoring.Feedback).

Local Abbreviation evaluator_new :=
  (TrendEvaluator.ImprovementTrendEvaluator GraphColoring.Feedback).

Local Abbreviation self_with max :=
  (MCModule_init "gemma3:1b" max (Some "deepseek-r1:1.5b")).

(** Scenario A: the first answer is a proper colouring. *)
Lemma s1_acceptance_witness :
  exists run : Run,
    solve_with scripted_chat edge_validator 5 [good_answer] = Some run /\
    verdict_at (calls run) 1 = Some ([("1", 1%Z); ("2", 2%Z)], true, None) /\
    (Z.of_nat 1 <= 5)%Z /\
    exists out,
      returned run = Ok out /\
      solved out = true /\
      s1_solved out = true /\
      iterations out = Z.of_nat 1 /\
      solution out = Some [("1", 1%Z); ("2", 2%Z)] /\
      episodic_memory (self_after run)
      = [] ++ [(("p edge 2 1" ++ newline ++ "e 1 2")%string,
                ("(1 1)" ++ newline ++ "(2 2)")%string)].
Proof.
  eexists.
  split; [ vm_compute; reflexivity | ].
  split; [ vm_compute; reflexivity | ].
  refine (s1_acceptance_outcome (domain := gc_domain edge_validator)
            scripted_chat time_time 0%nat Nat.add Nat.sub
            evaluator_new evaluator_update evaluator_flag retrieve_similar
            (self_with 5%Z) problem false [good_answer] 1 _ _);
    vm_compute; reflexivity.
Defined.






(** Against C4 as stated: with no round allowed, [solve] returns at once,
    unsolved, though no collaborator raised. *)
Lemma no_round_counterexample :
  exists (run : Run) out,
    solve_with scripted_chat edge_validator 0 [good_answer] = Some run /\
    returned run = Ok out /\
    solved out = false /\ s1_solved out = false /\ s2_solved out = false /\
    iterations out = 0%Z /\ calls run = [].
Proof.
  eexists. eexists.
  split; [ vm_compute; reflexivity | ].
  split; [ vm_compute; reflexivity | ].
  repeat split.
Qed.

Lemma solved_witness :
  exists (run : Run) out,
    (1 <= 5)%Z /\
    solve_with scripted_chat edge_validator 5 [good_answer] = Some run /\
    returned run = Ok out /\
    solved out = true.
Proof.
  eexists. eexists.
  assert (Hle : (1 <= 5)%Z) by lia.
  split; [ exact Hle | ].
  split; [ vm_compute; reflexivity | ].
  split; [ vm_compute; reflexivity | ].
  refine (proj1 (solved_whenever_a_round_is_allowed
                   (domain := gc_domain edge_validator)
                   scripted_chat time_time 0%nat Nat.add Nat.sub
                   evaluator_new evaluator_update evaluator_flag
                   retrieve_similar
                   (self_with 5%Z) problem false [good_answer]) Hle _ _ _ _);
    vm_compute; reflexivity.
Defined.

Lemma outcome_invariants_witness :
  exists (run : Run) out,
    solve_with scripted_chat edge_validator 3
      [bad_answer; bad_answer; good_answer] = Some run /\
    returned run = Ok out /\
    s1_solved out && s2_solved out = false /\
    solved out = s1_solved out || s2_solved out /\
    (s1_solved out = true -> s2_time out = 0%nat).
Proof.
  eexists. eexists.
  split; [ vm_compute; reflexivity | ].
  split; [ vm_compute; reflexivity | ].
  refine (outcome_invariants
            (domain := gc_domain edge_validator)
            scripted_chat time_time 0%nat Nat.add Nat.sub
            evaluator_new evaluator_update evaluator_flag retrieve_similar
            (self_with 3%Z) problem false
            [bad_answer; bad_answer; good_answer] _ _);
    vm_compute; reflexivity.
Defined.

(** Scenario B of the specification: three rounds allowed and the same
    feedback twice; with the specification's evaluator the escalation comes
    in round 2, and the System 2 solver is invoked once. *)
Lemma stagnation_escalates_in_round_two :
  exists (run : Run) out,
    solve_with scripted_chat edge_validator 3
      [bad_answer; bad_answer; good_answer] = Some run /\
    returned run = Ok out /\
    iterations out = 2%Z /\ s2_solved out = true /\
    s1_calls (calls run) = 2%nat /\ s2_calls (calls run) = 1%nat.
Proof.
  eexists. eexists.
  split; [ vm_compute; reflexivity | ].
  split; [ vm_compute; reflexivity | ].
  repeat split.
Qed.




(** Against C7 as stated: for an answer with no colouring in it, the
    validator's feedback on the empty dict is what the next request carries,
    and it is not the text "no solution found". *)
Lemma parse_fault_feedback_counterexample :
  GraphColoringParser.parse_solution no_answer = [] /\
  exists (run : Run) prompt rest,
    solve_with scripted_chat edge_validator 3 [no_answer; good_answer]
    = Some run /\
    calls run
    = EvS1Call [user_message prompt]
      :: EvValidated [] false (Some [("1", "2")])
      :: EvS1Call
           [user_message prompt; assistant_message no_answer;
            user_message
              "Feedback: adjacent vertices 1 and 2 have the same color"]
      :: rest /\
    GraphColoring.format_feedback (Some [("1", "2")])
    = "adjacent vertices 1 and 2 have the same color" /\
    String.eqb (GraphColoring.format_feedback (Some [("1", "2")]))
      "no solution found" = false.
Proof.
  split; [ reflexivity | ].
  eexists. eexists. eexists.
  split; [ vm_compute; reflexivity | ].
  split; [ vm_compute; reflexivity | ].
  split; reflexivity.
Qed.

Lemma no_answer_has_no_pair (line : string) :
  In line (split_lines (strip no_answer)) ->
  GraphColoringParser.pattern_match (strip line) = None.
Proof.
  intros [H | []]. rewrite <- H. reflexivity.
Defined.

Lemma parse_fault_witness :
  (forall line, In line (split_lines (strip no_answer)) ->
                GraphColoringParser.pattern_match (strip line) = None) /\
  GraphColoringParser.parse_solution no_answer = [] /\
  CodeDebuggingParser.parse_fixed_code no_answer = strip no_answer /\
  exists r st' l',
    loop_body (domain := gc_domain edge_validator)
      scripted_chat time_time Nat.add Nat.sub evaluator_update evaluator_flag
      (self_with 3%Z) problem (GraphColoring.graph_repr problem)
      initial_locals
      {| world := [no_answer; good_answer]; memory := []; trace := [] |}
    = (r, st') /\
    r = Ok (Continue l') /\
    iteration l' = 1%Z /\
    messages l'
    = messages initial_locals ++
        [assistant_message no_answer;
         user_message
           "Feedback: adjacent vertices 1 and 2 have the same color"] /\
    memory st' = [] /\
    trace st'
    = [EvS1Call (messages initial_locals);
       EvValidated [] false (Some [("1", "2")])].
Proof.
  destruct (parse_fault_stays_in_loop scripted_chat edge_validator
              prompt_generator time_time Nat.add Nat.sub
              evaluator_update evaluator_flag)
    as (Hparse & Hcode & Hround).
  split; [ exact no_answer_has_no_pair | ].
  split; [ exact (Hparse no_answer no_answer_has_no_pair) | ].
  split; [ exact (Hcode no_answer eq_refl eq_refl eq_refl) | ].
  destruct (Hround (self_with 3%Z) problem (GraphColoring.graph_repr problem)
              initial_locals
              {| world := [no_answer; good_answer]; memory := []; trace := [] |}
              0%nat [no_answer; good_answer] no_answer [good_answer]
              0%nat [good_answer] (Some [("1", "2")]) [good_answer]
              no_answer_has_no_pair eq_refl eq_refl eq_refl eq_refl)
    as (r & st' & Hbody & Hnext).
  cbn in Hnext. destruct Hnext as (l' & Hr & Hit & Hmsg & Hmem & Htr).
  exists r, st', l'. repeat split; assumption.
Defined.

Local Abbreviation cd_domain :=
  (CodeDebugging.CodeDebuggingDomain judge_time judge_sleep Z.sub Z.ltb
     (fun z => z) empty_environ accepting_tester accepting_test scripted_chat).

(** The judge cannot be reached because [LEETCODE_SESSION] is unset: the
    round ends with the error dict as feedback and the loop goes on. *)
Lemma validation_fault_witness :
  session_unset empty_environ /\
  (exists w',
      LeetCodeValidator.validate_code_with_leetcode judge_time judge_sleep
        Z.sub Z.ltb (fun z => z) empty_environ accepting_tester accepting_test
        "x = 1" "two-sum" "python" (cd_start [])
      = (Ok (false,
             [("error", VStr LeetCodeValidator.session_missing_message);
              ("status_msg", VStr "Environment Error")]), w')) /\
  exists r st' l',
    loop_body (domain := cd_domain)
      (CodeDebugging.chat scripted_chat) cd_clock Nat.add Nat.sub
      (@TrendEvaluator.update_feedback PyDict.t)
      (TrendEvaluator.get_no_improvement_flag
         (fun _ : PyDict.t => 1%nat) (fun _ _ => true))
      (self_with 3%Z) two_sum (CodeDebugging.get_problem_representation two_sum)
      cd_locals
      {| world := cd_start ["<code>x = 1</code>"]; memory := []; trace := [] |}
    = (r, st') /\
    r = Ok (Continue l') /\
    messages l'
    = messages cd_locals ++
        [assistant_message "<code>x = 1</code>";
         user_message
           ("Feedback: Status: Environment Error" ++ newline)%string] /\
    trace st'
    = [EvS1Call (messages cd_locals);
       EvValidated "x = 1" false
         (error_feedback
            (EnvironmentError LeetCodeValidator.session_missing_message))].
Proof.
  destruct (validation_fault_is_feedback judge_time judge_sleep Z.sub Z.ltb
              (fun z => z) empty_environ accepting_tester accepting_test
              scripted_chat cd_clock Nat.add Nat.sub
              (@TrendEvaluator.update_feedback PyDict.t)
              (TrendEvaluator.get_no_improvement_flag
                 (fun _ : PyDict.t => 1%nat) (fun _ _ => true)))
    as (_ & Hsession & Hround).
  assert (Hunset : session_unset empty_environ) by (intros x; reflexivity).
  split; [ exact Hunset | ].
  split; [ exact (Hsession "x = 1" "two-sum" "python" (cd_start [])
                    eq_refl Hunset) | ].
  destruct (Hround (self_with 3%Z) two_sum
              (CodeDebugging.get_problem_representation two_sum)
              cd_locals
              {| world := cd_start ["<code>x = 1</code>"];
                 memory := []; trace := [] |}
              0%nat (cd_start ["<code>x = 1</code>"])
              "<code>x = 1</code>" (cd_start [])
              0%nat (cd_start [])
              (EnvironmentError LeetCodeValidator.session_missing_message)
              (cd_start [])
              eq_refl eq_refl eq_refl eq_refl)
    as (r & st' & Hbody & Hnext).
  cbn in Hnext. destruct Hnext as (l' & Hr & Hit & Hmsg & Hmem & Htr).
  exists r, st', l'. repeat split; assumption.
Defined.

End Runs.

(** * Further properties of the code

    What follows covers more of the sources than the claims above name: the
    conversation and the escalation rule of [solve], the memory across
    calls, the round trips of the parsers and renderers, the prompt of the
    code-debugging domain, the validator's globals, [parse_graph], the data
    loader and the constructor call of [main.py]. *)

(** ** The course of a call of [solve] *)

Section Course.
Context {World Problem Solution Feedback Metadata : Type}.
Context {domain : DomainInterface World Problem Solution Feedback Metadata}.
Variable ollama_chat : string -> list Message -> Eff World (list string).
Variable Time : Type.
Variable time_time : World -> Time * World.
Variable time_zero : Time.
Variable time_add time_sub : Time -> Time -> Time.
Variable Evaluator : Type.
Variable ImprovementTrendEvaluator : Evaluator.
Variable update_feedback : Evaluator -> Feedback -> Evaluator.
Variable get_no_improvement_flag : Evaluator -> bool.
Variable retrieve_similar : EpisodicMemory.t -> string -> list (string * string).

Local Abbreviation Event := (@Event Problem Solution Feedback Metadata).
Local Abbreviation St := (@St World Problem Solution Feedback Metadata).
Local Abbreviation Locals := (@Locals Solution Time Evaluator).
Local Abbreviation Run := (@Run World Problem Solution Feedback Metadata Time).
Local Abbreviation body :=
  (loop_body ollama_chat time_time time_add time_sub
             update_feedback get_no_improvement_flag).
Local Abbreviation loop :=
  (while_loop ollama_chat time_time time_add time_sub
              update_feedback get_no_improvement_flag).
Local Abbreviation solve_ :=
  (solve ollama_chat time_time time_zero time_add time_sub
         ImprovementTrendEvaluator update_feedback get_no_improvement_flag
         retrieve_similar).
Local Abbreviation escalates_ := (escalates get_no_improvement_flag).

(** A rejected round, as the loop keeps it: the agent's answer and the
    validator's feedback. *)
Local Abbreviation Round := (string * Feedback)%type.

(** The two turns lines 159-161 append for a rejected round. *)
Definition turns (r : Round) : list Message :=
  [assistant_message (fst r);
   user_message ("Feedback: " ++ format_feedback (snd r))%string].

(** [messages] after the rounds [rs], started from [initial]. *)
Definition conversation (initial : list Message) (rs : list Round)
  : list Message :=
  initial ++ flat_map turns rs.

(** [trend_evaluator] after [update_feedback] for each of the rounds. *)
Definition evaluator_after (te : Evaluator) (rs : list Round) : Evaluator :=
  fold_left (fun te r => update_feedback te (snd r)) rs te.

(** The events of rejected rounds after which the loop went on, each agent
    call with the conversation it was given. *)
Fixpoint refinement (msgs : list Message) (rs : list Round) : list Event :=
  match rs with
  | [] => []
  | r :: rest =>
      EvS1Call msgs
      :: EvValidated (parse_solution (fst r)) false (snd r)
      :: refinement (msgs ++ turns r) rest
  end.

(** None of the rounds [rs], the first of which brings the counter to
    [i + 1], met the test of line 134. *)
Fixpoint went_on (self : MCModule) (i : Z) (te : Evaluator) (rs : list Round)
  : Prop :=
  match rs with
  | [] => True
  | r :: rest =>
      escalates_ self (i + 1) (update_feedback te (snd r)) = false /\
      went_on self (i + 1) (update_feedback te (snd r)) rest
  end.

(** The events of the round that ends the loop, entered with counter [i],
    conversation [msgs] and evaluator [te]. *)
Inductive closing (self : MCModule) (problem : Problem) (i : Z)
    (msgs : list Message) (te : Evaluator) : list Event -> Prop :=
| ClosingRaise :
    closing self problem i msgs te [EvS1Call msgs]
| ClosingSolved response fb :
    closing self problem i msgs te
      [EvS1Call msgs; EvValidated (parse_solution response) true fb]
| ClosingS2Raise response fb :
    escalates_ self (i + 1) (update_feedback te fb) = true ->
    closing self problem i msgs te
      [EvS1Call msgs; EvValidated (parse_solution response) false fb;
       EvS2Call problem (s2_llm_solver self)]
| ClosingS2 response fb s2_solution s2_metadata :
    escalates_ self (i + 1) (update_feedback te fb) = true ->
    closing self problem i msgs te
      [EvS1Call msgs; EvValidated (parse_solution response) false fb;
       EvS2Call problem (s2_llm_solver self);
       EvS2Returned s2_solution s2_metadata].

Lemma conversation_cons (msgs : list Message) (r : Round) (rs : list Round) :
  conversation (msgs ++ turns r) rs = conversation msgs (r :: rs).
Proof. unfold conversation. cbn [flat_map]. now rewrite <- app_assoc. Qed.

(** The trace the loop adds: rounds that were rejected and went on, then
    the closing round; nothing when the guard fails at once. *)
Lemma loop_course (self : MCModule) (problem : Problem) (problem_repr : string)
    (fuel : nat) :
  forall (l : Locals) (st : St) r st',
    loop self problem problem_repr fuel l st = Some (r, st') ->
    ((max_iterations self <= iteration l)%Z /\ st' = st) \/
    exists rs last,
      trace st' = trace st ++ refinement (messages l) rs ++ last /\
      went_on self (iteration l) (trend_evaluator l) rs /\
      closing self problem (iteration l + Z.of_nat (List.length rs))
        (conversation (messages l) rs)
        (evaluator_after (trend_evaluator l) rs) last /\
      (iteration l + Z.of_nat (List.length rs) + 1 <= max_iterations self)%Z.
Proof.
  induction fuel as [| fuel IH]; intros l st r st'; cbn [while_loop];
    destruct (Z.ltb_spec (iteration l) (max_iterations self)) as [Hlt | Hge];
    try discriminate;
    try (intros H; inversion H; subst; left; split; [ lia | reflexivity ]).
  destruct (body self problem problem_repr l st) as [[[l1 | l1] | e] st1] eqn:Hbody;
    apply body_cases in Hbody; intros H; right.
  - inversion Hbody as [ | | response fb ? ? Htr Hmem Hit Hesc Hte Hs1 Hs2 Ht2 Hmsg | | ];
      subst.
    apply IH in H.
    pose proof Hesc as Hlt'. apply escalates_false_lt in Hlt'; [ | lia ].
    destruct H as [[Hge _] | (rs & last & Htr' & Hwent & Hlast & Hle)];
      [ lia | ].
    exists ((response, fb) :: rs), last.
    rewrite Hit, Hte, Hmsg in *.
    change (messages l ++
              [assistant_message response;
               user_message ("Feedback: " ++ format_feedback fb)%string])
      with (messages l ++ turns (response, fb)) in *.
    rewrite conversation_cons in Hlast.
    cbn [List.length refinement went_on evaluator_after fold_left fst snd].
    repeat split.
    + rewrite Htr', Htr, <- !app_assoc. reflexivity.
    + assumption.
    + assumption.
    + replace (iteration l + Z.of_nat (S (List.length rs)))%Z
        with (iteration l + 1 + Z.of_nat (List.length rs))%Z by lia.
      exact Hlast.
    + lia.
  - inversion H; subst.
    exists [].
    inversion Hbody as [ | response fb ? ? Htr Hmem Hit Ha Hb Hc Hd Hans | |
                       | response fb s2s s2m ? ? Htr Hmem Hit Hesc Ha Hb Hc ];
      subst; eexists;
      (split; [ cbn [refinement app]; eassumption | ]);
      (split; [ exact I | ]);
      (split; [ | cbn [List.length]; lia ]);
      cbn [List.length evaluator_after fold_left]; unfold conversation;
      cbn [flat_map]; rewrite app_nil_r, Z.add_0_r.
    + apply ClosingSolved.
    + now apply ClosingS2.
  - inversion H; subst.
    exists [].
    inversion Hbody as [ ? ? Htr Hmem Hwhy | | | response fb ? ? Htr Hmem Hesc Hwhy | ];
      subst; eexists;
      (split; [ cbn [refinement app]; eassumption | ]);
      (split; [ exact I | ]);
      (split; [ | cbn [List.length]; lia ]);
      cbn [List.length evaluator_after fold_left]; unfold conversation;
      cbn [flat_map]; rewrite app_nil_r, Z.add_0_r.
    + apply ClosingRaise.
    + now apply ClosingS2Raise.
Qed.


(** The examples of lines 81-85 and the conversation of line 88. *)
Definition episodic_examples (self : MCModule) (problem : Problem)
  : option (list (string * string)) :=
  if EpisodicMemory.nonempty (episodic_memory self)
  then Some (retrieve_similar (episodic_memory self)
               (get_problem_representation problem))
  else None.

Definition opening (self : MCModule) (problem : Problem) : list Message :=
  [user_message (build_prompt problem (episodic_examples self problem))].

Lemma solve_course (self : MCModule) (problem : Problem) (verbose : bool)
    (w : World) (run : Run) :
  solve_ self problem verbose w = Some run ->
  ((max_iterations self <= 0)%Z /\ calls run = []) \/
  exists rs last,
    calls run = refinement (opening self problem) rs ++ last /\
    went_on self 0 ImprovementTrendEvaluator rs /\
    closing self problem (Z.of_nat (List.length rs))
      (conversation (opening self problem) rs)
      (evaluator_after ImprovementTrendEvaluator rs) last /\
    (Z.of_nat (List.length rs) + 1 <= max_iterations self)%Z.
Proof.
  unfold solve.
  destruct (time_time w) as [start_time w0].
  match goal with
  | |- context [while_loop _ _ _ _ _ _ ?s ?p ?pr ?f ?l ?st] =>
      destruct (while_loop ollama_chat time_time time_add time_sub
                  update_feedback get_no_improvement_flag s p pr f l st)
        as [[r stf] |] eqn:Hloop
  end; [ | discriminate ].
  apply loop_course in Hloop. cbn [iteration messages trend_evaluator trace] in Hloop.
  assert (Hcalls : forall run',
             match r with
             | Ok l =>
                 let '(end_time, w') := time_time (world stf) in
                 Some {| returned :=
                           Ok {| solved := cur_s1_solved l || cur_s2_solved l;
                                 solution := cur_solution l;
                                 s1_solved := cur_s1_solved l;
                                 s2_solved := cur_s2_solved l;
                                 iterations := iteration l;
                                 s1_time := cur_s1_time l;
                                 s2_time := cur_s2_time l;
                                 total_time := time_sub end_time start_time |};
                         self_after := with_memory self (memory stf);
                         world_after := w';
                         calls := trace stf |}
             | Raise e =>
                 Some {| returned := Raise e;
                         self_after := with_memory self (memory stf);
                         world_after := world stf;
                         calls := trace stf |}
             end = Some run' -> calls run' = trace stf).
  { intros run'. destruct r.
    - destruct (time_time (world stf)). intros H; inversion H; reflexivity.
    - intros H; inversion H; reflexivity. }
  intros H. apply Hcalls in H. rewrite H.
  destruct Hloop as [[Hle Hst] | (rs & last & Htr & Hwent & Hlast & Hle)].
  - left. subst stf. split; [ assumption | reflexivity ].
  - right. exists rs, last. cbn [app] in Htr.
    repeat split; try assumption; lia.
Qed.

(** The conversations the System 1 agent client was called with, in order. *)
Fixpoint s1_requests (tr : list Event) : list (list Message) :=
  match tr with
  | [] => []
  | EvS1Call msgs :: tr' => msgs :: s1_requests tr'
  | _ :: tr' => s1_requests tr'
  end.

(** The feedback of the rejected candidates, in order. *)
Fixpoint rejections (tr : list Event) : list Feedback :=
  match tr with
  | [] => []
  | EvValidated _ false fb :: tr' => fb :: rejections tr'
  | _ :: tr' => rejections tr'
  end.

Lemma s1_requests_app (tr1 tr2 : list Event) :
  s1_requests (tr1 ++ tr2) = s1_requests tr1 ++ s1_requests tr2.
Proof.
  induction tr1 as [| ev tr1 IH]; [ reflexivity | ].
  destruct ev; cbn [app s1_requests]; now rewrite IH.
Qed.

Lemma rejections_app (tr1 tr2 : list Event) :
  rejections (tr1 ++ tr2) = rejections tr1 ++ rejections tr2.
Proof.
  induction tr1 as [| ev tr1 IH]; [ reflexivity | ].
  destruct ev as [ | c [|] f | | ]; cbn [app rejections]; now rewrite IH.
Qed.

Lemma s1_calls_requests (tr : list Event) :
  s1_calls tr = List.length (s1_requests tr).
Proof.
  unfold s1_calls. induction tr as [| ev tr IH]; [ reflexivity | ].
  destruct ev; cbn [filter is_s1_call s1_requests List.length]; now rewrite IH.
Qed.

Lemma s1_requests_refinement (rs : list Round) :
  forall msgs,
    s1_requests (refinement msgs rs)
    = map (fun k => conversation msgs (firstn k rs)) (seq 0 (List.length rs)).
Proof.
  induction rs as [| r rs IH]; intros msgs; [ reflexivity | ].
  cbn [refinement s1_requests List.length seq map firstn].
  unfold conversation at 1. cbn [flat_map]. rewrite app_nil_r. f_equal.
  rewrite IH, <- seq_shift, map_map.
  apply map_ext. intros k. cbn [firstn]. apply conversation_cons.
Qed.

Lemma validations_refinement (rs : list Round) :
  forall msgs,
    validations (refinement msgs rs)
    = map (fun r => (parse_solution (fst r), false, snd r)) rs.
Proof.
  induction rs as [| r rs IH]; intros msgs; [ reflexivity | ].
  cbn [refinement validations map]. now rewrite IH.
Qed.

Lemma rejections_refinement (rs : list Round) :
  forall msgs, rejections (refinement msgs rs) = map snd rs.
Proof.
  induction rs as [| r rs IH]; intros msgs; [ reflexivity | ].
  cbn [refinement rejections map]. now rewrite IH.
Qed.

Lemma s2_calls_refinement (rs : list Round) :
  forall msgs, s2_calls (refinement msgs rs) = 0%nat.
Proof.
  induction rs as [| r rs IH]; intros msgs; [ reflexivity | ].
  unfold s2_calls in *. cbn [refinement filter is_s2_call]. apply IH.
Qed.

Lemma closing_requests (self : MCModule) (problem : Problem) (i : Z)
    (msgs : list Message) (te : Evaluator) (last : list Event) :
  closing self problem i msgs te last -> s1_requests last = [msgs].
Proof. intros H; inversion H; reflexivity. Qed.

Lemma evaluator_after_fold (te : Evaluator) (rs : list Round) :
  evaluator_after te rs = fold_left update_feedback (map snd rs) te.
Proof.
  unfold evaluator_after. revert te.
  induction rs as [| r rs IH]; intros te; [ reflexivity | ].
  cbn [fold_left map]. apply IH.
Qed.

Lemma went_on_prefix (self : MCModule) (rs : list Round) :
  forall (i : Z) (te : Evaluator) (j : nat),
    went_on self i te rs ->
    (0 < j <= List.length rs)%nat ->
    escalates_ self (i + Z.of_nat j)
      (fold_left update_feedback (firstn j (map snd rs)) te) = false.
Proof.
  induction rs as [| r rs IH]; intros i te j Hwent Hj; cbn in Hj; [ lia | ].
  destruct Hwent as [Hesc Hrest].
  destruct j as [| j]; [ lia | ].
  cbn [map firstn fold_left].
  destruct j as [| j].
  - cbn [firstn fold_left]. replace (i + Z.of_nat 1)%Z with (i + 1)%Z by lia.
    exact Hesc.
  - replace (i + Z.of_nat (S (S j)))%Z with (i + 1 + Z.of_nat (S j))%Z by lia.
    apply IH; [ assumption | lia ].
Qed.

(** X1.  A call of [solve] that raises leaves the controller, its episodic
    memory included, as it was: the memory is written only on the two paths
    that return. *)
Theorem failed_solve_changes_nothing (self : MCModule) (problem : Problem)
    (verbose : bool) (w : World) (run : Run) (e : PyExn) :
  solve_ self problem verbose w = Some run ->
  returned run = Raise e ->
  self_after run = self.
Proof.
  intros Hsolve Hret.
  apply solve_cases in Hsolve.
  assert (Hsame : with_memory self (episodic_memory self) = self)
    by (destruct self; reflexivity).
  inversion Hsolve as
      [ out ? Hle Hret'
      | rs m e' ? Hret' Hcalls Hself Hle Hwhy
      | rs m sol fb out ? Hret'
      | rs m sol fb e' ? Hret' Hcalls Hself Hle Hwhy
      | rs m sol fb s2s s2m out ? Hret' ];
    subst; rewrite Hret in Hret'; try discriminate;
    inversion Hret'; subst; rewrite Hself, Hsame; reflexivity.
Qed.

(** X2.  With [max_iterations >= 1], a call of [solve] that returns returns
    a solution and has appended exactly one entry to the episodic memory: the
    problem representation with the representation of the solution it
    returns, whichever tier produced it. *)
Theorem returned_solution_is_remembered (self : MCModule) (problem : Problem)
    (verbose : bool) (w : World) (run : Run)
    (out : SolveOutcome Solution Time) :
  (1 <= max_iterations self)%Z ->
  solve_ self problem verbose w = Some run ->
  returned run = Ok out ->
  exists sol,
    solution out = Some sol /\
    self_after run
    = with_memory self
        (episodic_memory self ++
           [(get_problem_representation problem,
             format_solution_for_memory sol)]).
Proof.
  intros Hmax Hsolve Hret.
  apply solve_cases in Hsolve.
  inversion Hsolve as
      [ out' ? Hle Hret'
      | rs m e' ? Hret'
      | rs m sol fb out' ? Hret' Hcalls Hself Hsolved Hs1 Hs2 Hit Hle Ht2 Hsol
      | rs m sol fb e' ? Hret'
      | rs m sol fb s2s s2m out' ? Hret' Hcalls Hself Hsolved Hs1 Hs2 Hit Hle Hsol ];
    subst; rewrite Hret in Hret'; try discriminate; try lia;
    inversion Hret'; subst; eexists; split; eassumption.
Qed.

(** X3.  Every request to the System 1 agent is the opening prompt followed,
    for each earlier round in order, by the agent's answer as an assistant
    turn and ["Feedback: " + format_feedback(feedback)] as a user turn; the
    candidates of those rounds were all rejected. *)
Theorem requests_follow_the_conversation (self : MCModule) (problem : Problem)
    (verbose : bool) (w : World) (run : Run) :
  solve_ self problem verbose w = Some run ->
  exists rs : list Round,
    s1_requests (calls run)
    = map (fun k => conversation (opening self problem) (firstn k rs))
          (seq 0 (s1_calls (calls run))) /\
    (s1_calls (calls run) <= S (List.length rs))%nat /\
    firstn (List.length rs) (validations (calls run))
    = map (fun r => (parse_solution (fst r), false, snd r)) rs.
Proof.
  intros Hsolve. apply solve_course in Hsolve.
  destruct Hsolve as [[_ Hcalls] | (rs & last & Hcalls & _ & Hlast & _)].
  - exists []. rewrite Hcalls. repeat split. cbn. lia.
  - exists rs. apply closing_requests in Hlast.
    rewrite s1_calls_requests, Hcalls, s1_requests_app, validations_app,
      s1_requests_refinement, validations_refinement, Hlast,
      length_app, length_map, length_seq.
    cbn [List.length]. rewrite Nat.add_1_r.
    split; [ | split ].
    + rewrite seq_S, map_app. cbn [map Nat.add]. rewrite firstn_all. reflexivity.
    + lia.
    + rewrite firstn_app, length_map, Nat.sub_diag. cbn [firstn].
      rewrite app_nil_r. rewrite <- (length_map (fun r => (parse_solution (fst r), false, snd r)) rs) at 1.
      apply firstn_all.
Qed.

(** X4.  The rule of line 134 on a whole run: the System 2 solver is invoked
    after the [j]-th rejected candidate exactly when that is the first round
    at which [j = max_iterations] or the evaluator, fed the feedback of the
    rejected rounds 1 to [j] in order, raises its flag; the loop goes on after
    every rejection before it. *)
Theorem escalation_rule (self : MCModule) (problem : Problem)
    (verbose : bool) (w : World) (run : Run) (j : nat) :
  solve_ self problem verbose w = Some run ->
  (0 < j <= List.length (rejections (calls run)))%nat ->
  escalates_ self (Z.of_nat j)
    (fold_left update_feedback (firstn j (rejections (calls run)))
       ImprovementTrendEvaluator) = true
  <-> (j = List.length (rejections (calls run)) /\
       (0 < s2_calls (calls run))%nat).
Proof.
  intros Hsolve Hj. apply solve_course in Hsolve.
  destruct Hsolve as [[_ Hcalls] | (rs & last & Hcalls & Hwent & Hlast & _)];
    rewrite Hcalls in *; [ cbn in Hj; lia | ].
  rewrite rejections_app, rejections_refinement, s2_calls_app,
    s2_calls_refinement in *.
  assert (Hbefore : (j <= List.length rs)%nat ->
            escalates_ self (Z.of_nat j)
              (fold_left update_feedback (firstn j (map snd rs))
                 ImprovementTrendEvaluator) = false).
  { intros Hle.
    exact (@went_on_prefix self rs 0%Z ImprovementTrendEvaluator j Hwent
             (conj (proj1 Hj) Hle)). }
  inversion Hlast as [ | response fb | response fb Hesc
                     | response fb s2s s2m Hesc ];
    subst last; cbn [rejections s2_calls filter is_s2_call List.length Nat.add] in *;
    rewrite ?app_nil_r, ?length_app, ?length_map in *; cbn [List.length] in *.
  - rewrite Hbefore by lia. split; [ discriminate | intros [_ H]; lia ].
  - rewrite Hbefore by lia. split; [ discriminate | intros [_ H]; lia ].
  - destruct (Nat.eq_dec j (List.length rs + 1)) as [-> | Hne].
    + rewrite firstn_app, firstn_all2 by (rewrite length_map; lia).
      rewrite length_map.
      replace (List.length rs + 1 - List.length rs)%nat with 1%nat by lia.
      cbn [firstn]. rewrite fold_left_app. cbn [fold_left].
      rewrite <- evaluator_after_fold.
      replace (Z.of_nat (List.length rs + 1)) with (Z.of_nat (List.length rs) + 1)%Z
        by lia.
      rewrite Hesc. split; [ intros _; split; [ reflexivity | lia ] | reflexivity ].
    + rewrite firstn_app, length_map.
      replace (j - List.length rs)%nat with 0%nat by lia.
      cbn [firstn]. rewrite app_nil_r, Hbefore by lia.
      split; [ discriminate | intros [H _]; lia ].
  - destruct (Nat.eq_dec j (List.length rs + 1)) as [-> | Hne].
    + rewrite firstn_app, firstn_all2 by (rewrite length_map; lia).
      rewrite length_map.
      replace (List.length rs + 1 - List.length rs)%nat with 1%nat by lia.
      cbn [firstn]. rewrite fold_left_app. cbn [fold_left].
      rewrite <- evaluator_after_fold.
      replace (Z.of_nat (List.length rs + 1)) with (Z.of_nat (List.length rs) + 1)%Z
        by lia.
      rewrite Hesc. split; [ intros _; split; [ reflexivity | lia ] | reflexivity ].
    + rewrite firstn_app, length_map.
      replace (j - List.length rs)%nat with 0%nat by lia.
      cbn [firstn]. rewrite app_nil_r, Hbefore by lia.
      split; [ discriminate | intros [H _]; lia ].
Qed.

(** X5.  Memory across calls: after a call that returned (with
    [max_iterations >= 1]) the memory is not empty, so the next call, on any
    problem, opens its conversation with the prompt built from the examples
    [retrieve_similar] gives for a memory that ends with the new entry. *)
Theorem next_solve_is_seeded (self : MCModule) (problem next_problem : Problem)
    (verbose next_verbose : bool) (w : World) (run next_run : Run)
    (out : SolveOutcome Solution Time) :
  (1 <= max_iterations self)%Z ->
  solve_ self problem verbose w = Some run ->
  returned run = Ok out ->
  solve_ (self_after run) next_problem next_verbose (world_after run)
  = Some next_run ->
  exists sol rest,
    solution out = Some sol /\
    calls next_run
    = EvS1Call
        [user_message
           (build_prompt next_problem
              (Some (retrieve_similar
                       (episodic_memory self ++
                          [(get_problem_representation problem,
                            format_solution_for_memory sol)])
                       (get_problem_representation next_problem))))]
      :: rest.
Proof.
  intros Hmax Hsolve Hret Hnext.
  apply solve_cases in Hsolve.
  assert (Hmem : exists sol,
             solution out = Some sol /\
             self_after run
             = with_memory self
                 (episodic_memory self ++
                    [(get_problem_representation problem,
                      format_solution_for_memory sol)])).
  { inversion Hsolve as
        [ out' ? Hle Hret'
        | rs m e' ? Hret'
        | rs m sol fb out' ? Hret' Hcalls Hself Hsolved Hs1 Hs2 Hit Hle Ht2 Hsol
        | rs m sol fb e' ? Hret'
        | rs m sol fb s2s s2m out' ? Hret' Hcalls Hself Hsolved Hs1 Hs2 Hit Hle Hsol ];
      subst; rewrite Hret in Hret'; try discriminate; try lia;
      inversion Hret'; subst; eexists; split; eassumption. }
  destruct Hmem as (sol & Hsol & Hself).
  apply solve_course in Hnext.
  rewrite Hself in Hnext. cbn [max_iterations with_memory] in Hnext.
  destruct Hnext as [[Hle _] | (rs & last & Hcalls & _ & Hlast & _)]; [ lia | ].
  assert (Hopen : opening
                    (with_memory self
                       (episodic_memory self ++
                          [(get_problem_representation problem,
                            format_solution_for_memory sol)])) next_problem
                  = [user_message
                       (build_prompt next_problem
                          (Some (retrieve_similar
                                   (episodic_memory self ++
                                      [(get_problem_representation problem,
                                        format_solution_for_memory sol)])
                                   (get_problem_representation next_problem))))]).
  { unfold opening, episodic_examples. cbn [episodic_memory with_memory].
    destruct (episodic_memory self); reflexivity. }
  rewrite Hopen in *.
  exists sol. destruct rs as [| r rs].
  - unfold conversation in Hlast. cbn [flat_map app] in Hlast.
    cbn [refinement app] in Hcalls. rewrite Hcalls.
    inversion Hlast; eexists; (split; [ eassumption | reflexivity ]).
  - eexists. split; [ eassumption | ]. rewrite Hcalls. reflexivity.
Qed.

End Course.

(** ** The configuration surface, from the call to the run *)

Section ConfigurationFacts.
Context {World Problem Solution Feedback Metadata : Type}.
Context {domain : DomainInterface World Problem Solution Feedback Metadata}.
Variable ollama_chat : string -> list Message -> Eff World (list string).
Variable Time : Type.
Variable time_time : World -> Time * World.
Variable time_zero : Time.
Variable time_add time_sub : Time -> Time -> Time.
Variable Evaluator : Type.
Variable ImprovementTrendEvaluator : Evaluator.
Variable update_feedback : Evaluator -> Feedback -> Evaluator.
Variable get_no_improvement_flag : Evaluator -> bool.
Variable retrieve_similar : EpisodicMemory.t -> string -> list (string * string).

Local Abbreviation Event := (@Event Problem Solution Feedback Metadata).
Local Abbreviation St := (@St World Problem Solution Feedback Metadata).
Local Abbreviation Locals := (@Locals Solution Time Evaluator).
Local Abbreviation Run := (@Run World Problem Solution Feedback Metadata Time).
Local Abbreviation solve_with_chat chat :=
  (solve chat time_time time_zero time_add time_sub
     ImprovementTrendEvaluator update_feedback get_no_improvement_flag
     retrieve_similar).
Local Abbreviation solve_ := (solve_with_chat ollama_chat).

(** Two transports that answer alike under the model [name]. *)
Definition same_answers
    (chat chat' : string -> list Message -> Eff World (list string))
    (name : string) : Prop :=
  forall msgs w, chat' name msgs w = chat name msgs w.

Lemma loop_body_same_model
    (chat' : string -> list Message -> Eff World (list string))
    (self : MCModule) (problem : Problem) (problem_repr : string)
    (l : Locals) (st : St) :
  same_answers ollama_chat chat' (model (llm_solver self)) ->
  loop_body chat' time_time time_add time_sub update_feedback
    get_no_improvement_flag self problem problem_repr l st
  = loop_body ollama_chat time_time time_add time_sub update_feedback
      get_no_improvement_flag self problem problem_repr l st.
Proof.
  intros Hsame.
  unfold loop_body, generate_response, bind, clock, log, modify, lift_world.
  destruct (time_time (world st)) as [t0 w0]. cbn [world memory trace].
  rewrite Hsame. reflexivity.
Qed.

Lemma while_loop_same_model
    (chat' : string -> list Message -> Eff World (list string))
    (self : MCModule) (problem : Problem) (problem_repr : string)
    (fuel : nat) :
  same_answers ollama_chat chat' (model (llm_solver self)) ->
  forall (l : Locals) (st : St),
    while_loop chat' time_time time_add time_sub update_feedback
      get_no_improvement_flag self problem problem_repr fuel l st
    = while_loop ollama_chat time_time time_add time_sub update_feedback
        get_no_improvement_flag self problem problem_repr fuel l st.
Proof.
  intros Hsame. induction fuel as [| fuel IH]; intros l st; cbn [while_loop];
    [ reflexivity | ].
  rewrite loop_body_same_model by exact Hsame.
  destruct (iteration l <? max_iterations self)%Z; [ | reflexivity ].
  destruct (loop_body ollama_chat time_time time_add time_sub update_feedback
              get_no_improvement_flag self problem problem_repr l st)
    as [[[l' | l'] | e] st']; auto.
Qed.

(** The events of rounds that failed are requests and verdicts. *)
Lemma failed_rounds_no_s2 (rs : list (list Message * Solution * Feedback))
    (p : Problem) (solver : LLMSolver) :
  ~ In (EvS2Call p solver)
       (failed_rounds (Problem := Problem) (Metadata := Metadata) rs).
Proof.
  induction rs as [| [[m s] f] rs IH]; [ intros [] | ].
  change (failed_rounds ((m, s, f) :: rs))
    with ([EvS1Call m; EvValidated s false f]
          ++ failed_rounds (Problem := Problem) (Metadata := Metadata) rs).
  intros [H | [H | H]]; [ discriminate | discriminate | now apply IH ].
Qed.

Lemma s2_call_target (self : MCModule) (problem : Problem) (verbose : bool)
    (w : World) (run : Run) (p : Problem) (solver : LLMSolver) :
  solve_ self problem verbose w = Some run ->
  In (EvS2Call p solver) (calls run) ->
  p = problem /\ solver = s2_llm_solver self.
Proof.
  intros Hsolve Hin. apply solve_cases in Hsolve.
  inversion Hsolve as
      [ out ? Hle Hret Hcalls
      | rs m e ? Hret Hcalls
      | rs m sol fb out ? Hret Hcalls
      | rs m sol fb e ? Hret Hcalls
      | rs m sol fb s2s s2m out ? Hret Hcalls ];
    subst; rewrite Hcalls in Hin;
    try (destruct Hin; fail);
    apply in_app_or in Hin as [Hin | Hin];
    try (exfalso; exact (failed_rounds_no_s2 _ _ _ Hin));
    cbn [In] in Hin;
    repeat (destruct Hin as [Hin | Hin];
            [ first [ discriminate
                    | inversion Hin; subst; split; reflexivity ] | ]);
    destruct Hin.
Qed.

Lemma s1_calls_bound (self : MCModule) (problem : Problem) (verbose : bool)
    (w : World) (run : Run) :
  solve_ self problem verbose w = Some run ->
  (s1_calls (calls run) <= Z.to_nat (max_iterations self))%nat.
Proof.
  intros Hsolve. apply solve_cases in Hsolve.
  inversion Hsolve as
      [ out ? Hle Hret Hcalls Hself Hsolved Hs1 Hs2 Hit
      | rs m e ? Hret Hcalls Hself Hle
      | rs m sol fb out ? Hret Hcalls Hself Hsolved Hs1 Hs2 Hit Hle
      | rs m sol fb e ? Hret Hcalls Hself Hle
      | rs m sol fb s2s s2m out ? Hret Hcalls Hself Hsolved Hs1 Hs2 Hit Hle ];
    subst; rewrite Hcalls;
    try rewrite s1_calls_app, s1_calls_failed_rounds;
    cbn; lia.
Qed.

Lemma solve_opens_with_prompt (self : MCModule) (problem : Problem)
    (verbose : bool) (w : World) (run : Run) :
  (1 <= max_iterations self)%Z ->
  solve_ self problem verbose w = Some run ->
  exists rest,
    calls run
    = EvS1Call
        [user_message
           (build_prompt problem
              (if EpisodicMemory.nonempty (episodic_memory self)
               then Some (retrieve_similar (episodic_memory self)
                            (get_problem_representation problem))
               else None))]
      :: rest.
Proof.
  intros Hmax Hsolve. apply solve_course in Hsolve.
  destruct Hsolve as [[Hle _] | (rs & last & Hcalls & _ & Hlast & _)];
    [ lia | ].
  unfold opening, episodic_examples in *. rewrite Hcalls.
  destruct rs as [| r rs].
  - unfold conversation in Hlast. cbn [flat_map] in Hlast.
    rewrite app_nil_r in Hlast. cbn [refinement app].
    inversion Hlast; eexists; reflexivity.
  - cbn [refinement app]. eexists. reflexivity.
Qed.

(** C8, as amended.  The parameters that a call binds are [domain],
    [llm_model], [max_iterations] and [s2_llm_model] for the constructor,
    with defaults ["mistral"], [5] and [None], and [problem] and [verbose]
    (default [True]) for [solve]; any other keyword passed to the
    constructor is a [TypeError].  The constructor keeps [llm_model] as the
    model of the System 1 solver and [max_iterations] as the bound, and
    takes for the System 2 solver [s2_llm_model], or the System 1 model
    when that is [None] or empty.  In [solve], the System 1 requests number
    at most [max_iterations] and depend on the transport only under the
    System 1 model, the System 2 solver is invoked with the System 2 solver
    of the controller, the examples of the opening prompt are
    [retrieve_similar] of the problem representation alone, with no count,
    and [verbose] changes nothing of the run. *)
Theorem controller_configuration_surface :
  (forall kwargs env,
      PyCall.bind_keywords PyCall.MCModule_signature kwargs = Ok env ->
      map fst env = ["domain"; "llm_model"; "max_iterations"; "s2_llm_model"])
  /\
  (forall kwargs env,
      PyCall.bind_keywords PyCall.solve_signature kwargs = Ok env ->
      map fst env = ["problem"; "verbose"])
  /\
  (forall kwargs k v,
      In (k, v) kwargs ->
      PyCall.mem k ["domain"; "llm_model"; "max_iterations"; "s2_llm_model"]
      = false ->
      exists msg,
        PyCall.bind_keywords PyCall.MCModule_signature kwargs
        = Raise (TypeError msg))
  /\
  (forall domain_value,
      PyCall.bind_keywords PyCall.MCModule_signature
        [("domain", domain_value)]
      = Ok [("domain", domain_value); ("llm_model", VStr "mistral");
            ("max_iterations", VInt 5); ("s2_llm_model", VNone)])
  /\
  (forall problem_value,
      PyCall.bind_keywords PyCall.solve_signature
        [("problem", problem_value)]
      = Ok [("problem", problem_value); ("verbose", VBool true)])
  /\
  (forall (llm_model : string) (bound : Z) (s2_llm_model : option string),
      let self := MCModule_init llm_model bound s2_llm_model in
      model (llm_solver self) = llm_model /\
      max_iterations self = bound /\
      episodic_memory self = EpisodicMemory.empty /\
      model (s2_llm_solver self)
      = match s2_llm_model with
        | None | Some EmptyString => llm_model
        | Some (String c m) => String c m
        end)
  /\
  (forall (self : MCModule) (problem : Problem) (verbose : bool) (w : World)
          (run : Run),
      solve_ self problem verbose w = Some run ->
      (s1_calls (calls run) <= Z.to_nat (max_iterations self))%nat /\
      (forall p solver,
          In (EvS2Call p solver) (calls run) ->
          p = problem /\ solver = s2_llm_solver self) /\
      ((1 <= max_iterations self)%Z ->
       exists rest,
         calls run
         = EvS1Call
             [user_message
                (build_prompt problem
                   (if EpisodicMemory.nonempty (episodic_memory self)
                    then Some (retrieve_similar (episodic_memory self)
                                 (get_problem_representation problem))
                    else None))]
           :: rest))
  /\
  (forall (chat' : string -> list Message -> Eff World (list string))
          (self : MCModule) (problem : Problem) (verbose : bool) (w : World),
      same_answers ollama_chat chat' (model (llm_solver self)) ->
      solve_with_chat chat' self problem verbose w
      = solve_ self problem verbose w)
  /\
  (forall (self : MCModule) (problem : Problem) (verbose verbose' : bool)
          (w : World),
      solve_ self problem verbose w = solve_ self problem verbose' w).
Proof.
  split; [ | split; [ | split; [ | split; [ | split; [ | split;
    [ | split; [ | split ] ] ] ] ] ] ].
  - intros kwargs env H. now apply bind_keywords_names in H.
  - intros kwargs env H. now apply bind_keywords_names in H.
  - intros kwargs k v Hin Hmem.
    destruct (unexpected_keyword PyCall.MCModule_signature kwargs k v Hin Hmem)
      as [k' Hk'].
    unfold PyCall.bind_keywords. rewrite Hk'. now eexists.
  - reflexivity.
  - reflexivity.
  - intros llm_model bound s2_llm_model. cbn zeta.
    repeat split. destruct s2_llm_model as [[| c m] |]; reflexivity.
  - intros self problem verbose w run Hsolve.
    split; [ eapply s1_calls_bound; eassumption | ].
    split; [ intros p solver Hin; eapply s2_call_target; eassumption | ].
    intros Hmax. eapply solve_opens_with_prompt; eassumption.
  - intros chat' self problem verbose w Hsame. unfold solve.
    destruct (time_time w) as [start_time w0].
    now rewrite while_loop_same_model by exact Hsame.
  - intros self problem verbose verbose' w. reflexivity.
Qed.

End ConfigurationFacts.

(** ** Strings *)

Section StringFacts.
Import PyStr.

Local Open Scope string_scope.

(** Every character of [s] satisfies [p]. *)
Fixpoint all_chars (p : ascii -> bool) (s : string) : bool :=
  match s with
  | EmptyString => true
  | String c s' => p c && all_chars p s'
  end.

Lemma all_chars_app (p : ascii -> bool) (s t : string) :
  all_chars p (s ++ t) = all_chars p s && all_chars p t.
Proof.
  induction s as [| c s IH]; cbn [append all_chars]; [ reflexivity | ].
  now rewrite IH, andb_assoc.
Qed.

(** *** Decimal numerals *)

Lemma digits_of_uint (d : Decimal.uint) :
  all_chars is_digit (NilEmpty.string_of_uint d) = true.
Proof. induction d; cbn; auto. Qed.

Lemma int_digits_of_uint_acc (d : Decimal.uint) :
  forall acc : positive,
    int_digits (Zpos acc) (NilEmpty.string_of_uint d)
    = Zpos (Pos.of_uint_acc d acc).
Proof.
  induction d; intros acc; [ reflexivity | .. ];
    unfold NilEmpty.string_of_uint; fold NilEmpty.string_of_uint;
    unfold int_digits; fold int_digits;
    unfold Pos.of_uint_acc; fold Pos.of_uint_acc;
    rewrite <- IHd; f_equal;
    match goal with
    | |- context [Z.of_nat ?n] =>
        let n' := eval vm_compute in n in change n with n'
    end; lia.
Qed.

Lemma int_digits_of_uint (d : Decimal.uint) :
  int_digits 0 (NilEmpty.string_of_uint d) = Z.of_N (Pos.of_uint d).
Proof.
  induction d; [ reflexivity | exact IHd | .. ];
    unfold NilEmpty.string_of_uint; fold NilEmpty.string_of_uint;
    unfold int_digits; fold int_digits;
    unfold Pos.of_uint; fold Pos.of_uint;
    match goal with
    | |- int_digits ?z _ = _ =>
        let z' := eval vm_compute in z in change z with z'
    end; rewrite int_digits_of_uint_acc; reflexivity.
Qed.

Lemma to_uint_not_nil (p : positive) : Pos.to_uint p <> Decimal.Nil.
Proof.
  intros H.
  pose proof (DecimalPos.Unsigned.of_to p) as Hof.
  rewrite H in Hof. discriminate.
Qed.

Lemma of_int_nonneg (n : Z) :
  (0 <= n)%Z ->
  exists d, d <> Decimal.Nil /\ of_int n = NilEmpty.string_of_uint d /\
            Z.of_N (Pos.of_uint d) = n.
Proof.
  intros Hn. destruct n as [| p | p]; [ | | lia ].
  - exists (Decimal.D0 Decimal.Nil). repeat split. discriminate.
  - exists (Pos.to_uint p). split; [ apply to_uint_not_nil | ].
    split.
    + unfold of_int. cbn [Z.to_int NilZero.string_of_int].
      unfold NilZero.string_of_uint.
      destruct (Pos.to_uint p) eqn:Hd; try reflexivity.
      exfalso. now apply (to_uint_not_nil p).
    + now rewrite DecimalPos.Unsigned.of_to.
Qed.

(** [int(str(n)) == n] for [n >= 0]. *)
Lemma int_of_int (n : Z) : (0 <= n)%Z -> int (of_int n) = n.
Proof.
  intros Hn. destruct (of_int_nonneg Hn) as (d & _ & Hs & Hv).
  unfold int. now rewrite Hs, int_digits_of_uint.
Qed.

Lemma of_int_digits (n : Z) :
  (0 <= n)%Z -> all_chars is_digit (of_int n) = true /\ of_int n <> EmptyString.
Proof.
  intros Hn. destruct (of_int_nonneg Hn) as (d & Hd & Hs & _).
  rewrite Hs. split; [ apply digits_of_uint | ].
  destruct d; cbn; congruence.
Qed.

Lemma int_digits_nonneg (s : string) :
  forall acc, (0 <= acc)%Z -> (0 <= int_digits acc s)%Z.
Proof.
  induction s as [| c s IH]; intros acc Hacc; cbn [int_digits]; [ assumption | ].
  apply IH. lia.
Qed.


(** *** Reversal and stripping *)

Lemma append_assoc (s t u : string) : (s ++ t) ++ u = s ++ (t ++ u).
Proof. induction s as [| c s IH]; cbn; congruence. Qed.

Lemma rev_onto_app (s : string) :
  forall acc, rev_onto s acc = rev s ++ acc.
Proof.
  unfold rev. induction s as [| c s IH]; intros acc; cbn [rev_onto];
    [ reflexivity | ].
  rewrite IH, (IH (String c EmptyString)).
  now rewrite append_assoc.
Qed.

Lemma rev_cons (c : ascii) (s : string) :
  rev (String c s) = rev s ++ String c EmptyString.
Proof. unfold rev at 1. cbn [rev_onto]. apply rev_onto_app. Qed.

Lemma append_empty_r (s : string) : s ++ EmptyString = s.
Proof. induction s as [| c s IH]; cbn; congruence. Qed.

Lemma rev_app (s t : string) : rev (s ++ t) = rev t ++ rev s.
Proof.
  induction s as [| c s IH]; cbn [append].
  - now rewrite append_empty_r.
  - now rewrite !rev_cons, IH, append_assoc.
Qed.

Lemma rev_involutive (s : string) : rev (rev s) = s.
Proof.
  induction s as [| c s IH]; [ reflexivity | ].
  now rewrite rev_cons, rev_app, IH.
Qed.

Lemma all_chars_rev (p : ascii -> bool) (s : string) :
  all_chars p (rev s) = all_chars p s.
Proof.
  induction s as [| c s IH]; [ reflexivity | ].
  rewrite rev_cons, all_chars_app, IH. cbn [all_chars].
  now rewrite andb_true_r, andb_comm.
Qed.

(** A string that is empty or starts with no blank. *)
Definition starts_clean (s : string) : bool :=
  match s with
  | EmptyString => true
  | String c _ => negb (is_space c)
  end.

(** A string that is empty or ends with no blank. *)
Definition ends_clean (s : string) : bool := starts_clean (rev s).

Lemma lstrip_clean (s : string) : starts_clean s = true -> lstrip s = s.
Proof.
  destruct s as [| c s]; cbn; [ reflexivity | ].
  now destruct (is_space c).
Qed.

Lemma lstrip_starts_clean (s : string) : starts_clean (lstrip s) = true.
Proof.
  induction s as [| c s IH]; cbn [lstrip]; [ reflexivity | ].
  destruct (is_space c) eqn:Hc; [ exact IH | ].
  cbn. now rewrite Hc.
Qed.

(** What [lstrip] removes is a run of blanks. *)
Lemma lstrip_split (s : string) :
  exists blanks, s = blanks ++ lstrip s /\ all_chars is_space blanks = true.
Proof.
  induction s as [| c s (blanks & Hs & Hb)]; cbn [lstrip].
  - now exists EmptyString.
  - destruct (is_space c) eqn:Hc.
    + exists (String c blanks). cbn [append all_chars].
      rewrite Hc, Hb. split; [ congruence | reflexivity ].
    + now exists EmptyString.
Qed.

Lemma rstrip_clean (s : string) : ends_clean s = true -> rstrip s = s.
Proof.
  unfold ends_clean, rstrip. intros H.
  now rewrite lstrip_clean, rev_involutive.
Qed.

Lemma rstrip_ends_clean (s : string) : ends_clean (rstrip s) = true.
Proof.
  unfold ends_clean, rstrip. rewrite rev_involutive. apply lstrip_starts_clean.
Qed.

(** What [rstrip] removes is a run of blanks. *)
Lemma rstrip_split (s : string) :
  exists blanks, s = rstrip s ++ blanks /\ all_chars is_space blanks = true.
Proof.
  destruct (lstrip_split (rev s)) as (blanks & Hs & Hb).
  exists (rev blanks). split; [ | now rewrite all_chars_rev ].
  unfold rstrip. rewrite <- rev_app, <- Hs. symmetry. apply rev_involutive.
Qed.

Lemma starts_clean_prefix (s t : string) :
  starts_clean (s ++ t) = true -> all_chars is_space t = true ->
  starts_clean s = true.
Proof.
  destruct s as [| c s]; [ reflexivity | ]. cbn. auto.
Qed.

Lemma rstrip_starts_clean (s : string) :
  starts_clean s = true -> starts_clean (rstrip s) = true.
Proof.
  intros H. destruct (rstrip_split s) as (blanks & Hs & Hb).
  rewrite Hs in H. eapply starts_clean_prefix; eassumption.
Qed.

Lemma strip_clean (s : string) :
  starts_clean s = true -> ends_clean s = true -> strip s = s.
Proof.
  intros Hs He. unfold strip. rewrite (lstrip_clean s Hs).
  now apply rstrip_clean.
Qed.

Lemma strip_is_clean (s : string) :
  starts_clean (strip s) = true /\ ends_clean (strip s) = true.
Proof.
  unfold strip. split.
  - apply rstrip_starts_clean, lstrip_starts_clean.
  - apply rstrip_ends_clean.
Qed.

(** [s.strip().strip() == s.strip()] *)
Lemma strip_idempotent (s : string) : strip (strip s) = strip s.
Proof. destruct (strip_is_clean s). now apply strip_clean. Qed.

(** [strip] removes a run of blanks at each end and nothing else. *)
Lemma strip_split (s : string) :
  exists before after,
    s = before ++ strip s ++ after /\
    all_chars is_space before = true /\ all_chars is_space after = true.
Proof.
  destruct (lstrip_split s) as (before & Hs & Hb).
  destruct (rstrip_split (lstrip s)) as (after & Hs' & Ha).
  exists before, after. unfold strip. now rewrite <- Hs', <- Hs.
Qed.

Lemma ends_clean_snoc (s : string) (c : ascii) :
  is_space c = false -> ends_clean (s ++ String c EmptyString) = true.
Proof.
  intros Hc. unfold ends_clean. rewrite rev_app. cbn. now rewrite Hc.
Qed.

End StringFacts.

(** ** [domains/graph_coloring/solution_parser.py] and the memory format *)

Section ColoringFacts.
Import PyStr.
Import GraphColoringParser.

Local Open Scope string_scope.

Definition not_newline (c : ascii) : bool := negb (code c =? 10)%nat.

Lemma split_lines_single (line : string) :
  all_chars not_newline line = true -> split_lines line = [line].
Proof.
  induction line as [| c line IH]; cbn [all_chars split_lines];
    [ reflexivity | ].
  unfold not_newline at 1. intros H. apply andb_true_iff in H as [Hc Hl].
  apply negb_true_iff in Hc. now rewrite Hc, (IH Hl).
Qed.

Lemma split_lines_cons (line rest : string) :
  all_chars not_newline line = true ->
  split_lines (line ++ newline ++ rest) = line :: split_lines rest.
Proof.
  induction line as [| c line IH]; cbn [all_chars append split_lines].
  - reflexivity.
  - unfold not_newline at 1. intros H. apply andb_true_iff in H as [Hc Hl].
    apply negb_true_iff in Hc. rewrite Hc.
    change (line ++ String (ascii_of_nat 10) rest)
      with (line ++ newline ++ rest).
    now rewrite (IH Hl).
Qed.

(** ['\n'.join(lines).split('\n') == lines] when no line holds a line feed
    and there is a line at all. *)
Lemma split_lines_join (lines : list string) :
  lines <> [] ->
  Forall (fun line => all_chars not_newline line = true) lines ->
  split_lines (join newline lines) = lines.
Proof.
  intros Hne Hall. induction Hall as [| line rest Hline Hrest IH];
    [ congruence | ].
  destruct rest as [| line' rest'].
  - cbn. now apply split_lines_single.
  - change (join newline (line :: line' :: rest'))
      with (line ++ newline ++ join newline (line' :: rest')).
    rewrite split_lines_cons by assumption. f_equal. apply IH. discriminate.
Qed.

Lemma span_all (p : ascii -> bool) (s t : string) :
  all_chars p s = true ->
  match t with EmptyString => True | String c _ => p c = false end ->
  span p (s ++ t) = (s, t).
Proof.
  intros Hs Ht. induction s as [| c s IH]; cbn [append].
  - destruct t as [| c t]; cbn [span]; [ reflexivity | now rewrite Ht ].
  - cbn [all_chars] in Hs. apply andb_true_iff in Hs as [Hc Hs].
    cbn [span]. now rewrite Hc, (IH Hs).
Qed.

Lemma span_taken (p : ascii -> bool) (s : string) :
  all_chars p (fst (span p s)) = true.
Proof.
  induction s as [| c s IH]; cbn [span]; [ reflexivity | ].
  destruct (p c) eqn:Hc; [ | reflexivity ].
  destruct (span p s) as [taken rest]. cbn [fst all_chars] in *.
  now rewrite Hc, IH.
Qed.

Lemma digit_not_space (c : ascii) : is_digit c = true -> is_space c = false.
Proof.
  unfold is_digit, is_space, between. intros H.
  apply andb_true_iff in H as [H1 H2].
  apply Nat.leb_le in H1. apply Nat.leb_le in H2.
  repeat (apply orb_false_iff; split);
    [ apply andb_false_iff; right; apply Nat.leb_gt; lia
    | apply andb_false_iff; right; apply Nat.leb_gt; lia
    | apply Nat.eqb_neq; lia ].
Qed.

Lemma digit_not_newline (c : ascii) :
  is_digit c = true -> not_newline c = true.
Proof.
  unfold is_digit, not_newline, between. intros H.
  apply andb_true_iff in H as [H1 H2]. apply Nat.leb_le in H1.
  apply negb_true_iff, Nat.eqb_neq. lia.
Qed.

Lemma word_not_newline (c : ascii) :
  is_word c = true -> not_newline c = true.
Proof.
  unfold is_word, is_digit, not_newline, between. intros H.
  apply negb_true_iff, Nat.eqb_neq. intros Hc. rewrite Hc in H.
  discriminate.
Qed.

Lemma all_chars_impl (p q : ascii -> bool) (s : string) :
  (forall c, p c = true -> q c = true) ->
  all_chars p s = true -> all_chars q s = true.
Proof.
  intros Hpq. induction s as [| c s IH]; cbn [all_chars]; [ reflexivity | ].
  intros H. apply andb_true_iff in H as [Hc Hs].
  now rewrite (Hpq c Hc), (IH Hs).
Qed.

(** The line [f"({v} {c})"] of [format_solution_for_memory]. *)
Definition memory_line (vc : string * Z) : string :=
  "(" ++ fst vc ++ " " ++ of_int (snd vc) ++ ")".

(** A vertex label the pattern [\w+] matches in full. *)
Definition label (v : string) : Prop :=
  v <> EmptyString /\ all_chars is_word v = true.

Lemma memory_line_no_newline (v : string) (c : Z) :
  label v -> (0 <= c)%Z -> all_chars not_newline (memory_line (v, c)) = true.
Proof.
  intros [_ Hv] Hc. destruct (of_int_digits Hc) as [Hd _].
  unfold memory_line. cbn [fst snd].
  repeat (rewrite all_chars_app || cbn [append all_chars]).
  rewrite (@all_chars_impl _ _ _ word_not_newline Hv).
  now rewrite (@all_chars_impl _ _ _ digit_not_newline Hd).
Qed.

Lemma memory_line_clean (v : string) (c : Z) :
  strip (memory_line (v, c)) = memory_line (v, c).
Proof.
  apply strip_clean; [ reflexivity | ].
  unfold memory_line. cbn [fst snd].
  rewrite <- !append_assoc. now apply ends_clean_snoc.
Qed.

Lemma pattern_match_memory_line (v : string) (c : Z) :
  label v -> (0 <= c)%Z ->
  pattern_match (memory_line (v, c)) = Some (v, of_int c).
Proof.
  intros [Hne Hv] Hc. destruct (of_int_digits Hc) as [Hd Hdne].
  unfold memory_line, pattern_match. cbn [fst snd append].
  rewrite (span_all is_word v (String " " (of_int c ++ ")")) Hv)
    by reflexivity.
  change (String " " (of_int c ++ ")")) with (" " ++ (of_int c ++ ")")).
  rewrite (span_all is_space " " (of_int c ++ ")")); [ | reflexivity | ].
  - rewrite (span_all is_digit (of_int c) ")" Hd) by reflexivity.
    destruct v; [ congruence | ]. destruct (of_int c); [ congruence | ].
    reflexivity.
  - destruct (of_int c) as [| d ds]; [ congruence | ].
    cbn [append all_chars] in *. apply andb_true_iff in Hd as [Hd _].
    now apply digit_not_space.
Qed.


(** *** The dict built by the parser *)

Definition keys (d : Coloring) : list string := map fst d.

(** A colouring as the parser can produce it: the keys of a dict are
    distinct, each one matched [\w+] and each colour matched [\d+]. *)
Definition well_formed (d : Coloring) : Prop :=
  NoDup (keys d) /\
  Forall (fun vc => label (fst vc) /\ (0 <= snd vc)%Z) d.

Lemma dict_set_fresh (d : Coloring) (k : string) (v : Z) :
  ~ In k (keys d) -> dict_set d k v = (d ++ [(k, v)])%list.
Proof.
  induction d as [| [k' v'] d IH]; cbn [dict_set keys map fst app In];
    [ reflexivity | ].
  intros Hin. destruct (String.eqb_spec k' k) as [-> | Hneq].
  - exfalso. apply Hin. now left.
  - f_equal. apply IH. intros H. apply Hin. now right.
Qed.

Lemma dict_set_keys (d : Coloring) (k : string) (v : Z) :
  keys (dict_set d k v) = if in_dec string_dec k (keys d) then keys d
                          else (keys d ++ [k])%list.
Proof.
  induction d as [| [k' v'] d IH]; cbn [dict_set keys map fst]; [ reflexivity | ].
  fold (keys d). destruct (String.eqb_spec k' k) as [-> | Hneq].
  - cbn [map fst]. fold (keys d).
    destruct (in_dec string_dec k (k :: keys d)) as [_ | Hn];
      [ reflexivity | exfalso; apply Hn; now left ].
  - cbn [map fst]. fold (keys (dict_set d k v)). rewrite IH.
    destruct (in_dec string_dec k (keys d)) as [Hin | Hn];
      destruct (in_dec string_dec k (k' :: keys d)) as [Hin' | Hn'];
      try reflexivity.
    + exfalso. apply Hn'. now right.
    + destruct Hin' as [? | ?]; [ congruence | contradiction ].
Qed.

Lemma dict_set_NoDup (d : Coloring) (k : string) (v : Z) :
  NoDup (keys d) -> NoDup (keys (dict_set d k v)).
Proof.
  intros Hd. rewrite dict_set_keys.
  destruct (in_dec string_dec k (keys d)) as [Hin | Hn]; [ assumption | ].
  rewrite <- (List.rev_involutive (keys d ++ [k])). apply NoDup_rev.
  rewrite rev_app_distr. cbn [List.rev app].
  constructor; [ now rewrite <- in_rev | now apply NoDup_rev ].
Qed.

Lemma dict_set_Forall (P : string * Z -> Prop) (d : Coloring) (k : string)
  (v : Z) :
  Forall P d -> P (k, v) -> Forall P (dict_set d k v).
Proof.
  intros Hd Hkv. induction Hd as [| [k' v'] d Hx Hd IH]; cbn [dict_set].
  - now constructor.
  - destruct (String.eqb k' k); constructor; assumption.
Qed.

Lemma pattern_match_groups (line vertex color : string) :
  pattern_match line = Some (vertex, color) ->
  label vertex /\ all_chars is_digit color = true /\ color <> EmptyString.
Proof.
  unfold pattern_match. destruct line as [| a s1]; [ discriminate | ].
  destruct a as [[] [] [] [] [] [] [] []]; try discriminate.
  pose proof (span_taken is_word s1) as Hw.
  destruct (span is_word s1) as [v s2].
  destruct (span is_space s2) as [blank s3].
  pose proof (span_taken is_digit s3) as Hd.
  destruct (span is_digit s3) as [c s4]. cbn [fst] in *.
  destruct v; [ discriminate | ]. destruct blank; [ discriminate | ].
  destruct c; [ discriminate | ]. destruct s4 as [| b s4]; [ discriminate | ].
  destruct b as [[] [] [] [] [] [] [] []]; try discriminate.
  intros H. injection H as <- <-. repeat split; try assumption; discriminate.
Qed.

Lemma scan_lines_well_formed (lines : list string) :
  forall acc, well_formed acc -> well_formed (scan_lines lines acc).
Proof.
  unfold scan_lines.
  induction lines as [| line lines IH]; intros acc Hacc; cbn [fold_left];
    [ assumption | ].
  apply IH. destruct (pattern_match (strip line)) as [[vertex color] |] eqn:Hm;
    [ | assumption ].
  destruct (pattern_match_groups _ Hm) as (Hlabel & _ & _).
  destruct Hacc as [Hnd Hall]. split.
  - now apply dict_set_NoDup.
  - apply dict_set_Forall; [ assumption | ]. cbn [fst snd]. split;
      [ assumption | ].
    unfold int. now apply int_digits_nonneg.
Qed.

Lemma scan_memory_lines (d : Coloring) :
  forall acc,
    Forall (fun vc => label (fst vc) /\ (0 <= snd vc)%Z) d ->
    NoDup (keys acc ++ keys d)%list ->
    scan_lines (map memory_line d) acc = (acc ++ d)%list.
Proof.
  unfold scan_lines.
  induction d as [| [v c] d IH]; intros acc Hall Hnd; cbn [map fold_left].
  - now rewrite app_nil_r.
  - inversion Hall as [| ? ? [Hv Hc] Hall']; subst. cbn [fst snd] in *.
    rewrite memory_line_clean, (pattern_match_memory_line Hv Hc).
    rewrite (int_of_int Hc).
    cbn [keys map fst] in Hnd. fold (keys d) in Hnd.
    rewrite dict_set_fresh.
    + rewrite IH; [ now rewrite <- app_assoc | assumption | ].
      unfold keys at 1. rewrite map_app. fold (keys acc). cbn [map fst].
      now rewrite <- app_assoc.
    + apply NoDup_remove_2 in Hnd. intros Hin. apply Hnd.
      apply in_or_app. now left.
Qed.

Lemma ends_clean_app (s t : string) :
  t <> EmptyString -> ends_clean (s ++ t) = ends_clean t.
Proof.
  intros Ht. unfold ends_clean. rewrite rev_app.
  destruct (rev t) as [| c r] eqn:Hr; [ | reflexivity ].
  exfalso. apply Ht. now rewrite <- (rev_involutive t), Hr.
Qed.

Lemma join_ends_clean (lines : list string) :
  Forall (fun line => line <> EmptyString /\ ends_clean line = true) lines ->
  ends_clean (join newline lines) = true.
Proof.
  induction 1 as [| line rest [Hne Hline] Hrest IH]; [ reflexivity | ].
  destruct rest as [| line' rest']; [ exact Hline | ].
  change (join newline (line :: line' :: rest'))
    with (line ++ newline ++ join newline (line' :: rest')).
  rewrite <- append_assoc. inversion Hrest as [| ? ? [Hne' _] _]; subst.
  destruct rest' as [| line'' rest''].
  - cbn [join String.concat]. now rewrite ends_clean_app.
  - rewrite ends_clean_app; [ exact IH | ].
    change (join newline (line' :: line'' :: rest''))
      with (line' ++ newline ++ join newline (line'' :: rest'')).
    destruct line'; [ congruence | discriminate ].
Qed.

Lemma memory_round_trip (d : Coloring) :
  well_formed d ->
  parse_solution
    (join newline
       (map (fun vc => "(" ++ fst vc ++ " " ++ of_int (snd vc) ++ ")") d))
  = d.
Proof.
  intros [Hnd Hall]. change (fun vc : string * Z => _) with memory_line.
  destruct d as [| vc d']; [ reflexivity | ]. set (d := vc :: d') in *.
  unfold parse_solution. rewrite strip_clean.
  - rewrite split_lines_join.
    + now apply scan_memory_lines.
    + discriminate.
    + apply Forall_map. eapply Forall_impl; [ | exact Hall ].
      intros [v c] [Hv Hc]. now apply memory_line_no_newline.
  - subst d. cbn [map]. destruct d'; reflexivity.
  - apply join_ends_clean. apply Forall_map, Forall_forall.
    intros [v c] _. split; [ discriminate | ].
    unfold memory_line. cbn [fst snd]. rewrite <- !append_assoc.
    now apply ends_clean_snoc.
Qed.

Lemma parse_solution_invariant (response : string) :
  well_formed (parse_solution response).
Proof.
  unfold parse_solution. apply scan_lines_well_formed. split; constructor.
Qed.

End ColoringFacts.

(** X6.  A colouring stored in the episodic memory reads back as itself:
    for a dict whose keys are non-empty words and whose colours are not
    negative, [parse_solution] of [format_solution_for_memory] gives the
    dict again, in the same order. *)
Theorem memory_format_round_trip (d : GraphColoringParser.Coloring) :
  well_formed d ->
  GraphColoringParser.parse_solution
    (GraphColoring.format_solution_for_memory d) = d.
Proof. apply memory_round_trip. Qed.

(** X7.  Whatever the response, the colouring [parse_solution] returns has
    distinct keys that are non-empty words and colours that are not
    negative; formatting it for the memory and parsing it again gives the
    same colouring. *)
Theorem parse_solution_well_formed (response : string) :
  well_formed (GraphColoringParser.parse_solution response) /\
  GraphColoringParser.parse_solution
    (GraphColoring.format_solution_for_memory
       (GraphColoringParser.parse_solution response))
  = GraphColoringParser.parse_solution response.
Proof.
  pose proof (parse_solution_invariant response) as H.
  split; [ exact H | now apply memory_round_trip ].
Qed.

(** ** [domains/code_debugging/solution_parser.py] *)

Section SearchFacts.
Import PyStr.

Local Open Scope string_scope.

Lemma prefix_app (needle rest : string) :
  String.prefix needle (needle ++ rest) = true.
Proof.
  induction needle as [| c needle IH]; cbn; [ now destruct rest | ].
  destruct (ascii_dec c c); [ exact IH | congruence ].
Qed.

Lemma drop_app (needle rest : string) :
  drop (String.length needle) (needle ++ rest) = rest.
Proof.
  induction needle as [| c needle IH]; cbn; [ now destruct rest | exact IH ].
Qed.

Lemma prefix_split (needle hay : string) :
  String.prefix needle hay = true ->
  hay = needle ++ drop (String.length needle) hay.
Proof.
  revert hay. induction needle as [| c needle IH]; intros hay.
  - now destruct hay.
  - destruct hay as [| c' hay]; cbn; [ intros H; discriminate | ].
    destruct (ascii_dec c c') as [<- | _]; [ | intros H; discriminate ].
    intros H. f_equal. now apply IH.
Qed.

(** [find] splits the text at an occurrence of the needle. *)
Lemma find_sound (needle hay before after : string) :
  find needle hay = Some (before, after) -> hay = before ++ needle ++ after.
Proof.
  revert before. induction hay as [| c hay IH]; intros before; cbn [find].
  - destruct (String.prefix needle EmptyString) eqn:Hp; [ | discriminate ].
    intros H. injection H as <- <-. cbn [append]. now apply prefix_split.
  - destruct (String.prefix needle (String c hay)) eqn:Hp.
    + intros H. injection H as <- <-. cbn [append]. now apply prefix_split.
    + destruct (find needle hay) as [[b a] |]; [ | discriminate ].
      intros H. injection H as <- <-. cbn [append]. f_equal. now apply IH.
Qed.

(** A prefix of [a ++ t] lies within [a], or covers [a] and goes on as a
    prefix of [t]. *)
Lemma prefix_app_cases (needle a t : string) :
  String.prefix needle (a ++ t) = true ->
  if (String.length needle <=? String.length a)%nat
  then String.prefix needle a = true
  else String.prefix (drop (String.length a) needle) t = true.
Proof.
  revert needle. induction a as [| c a IH]; intros needle; cbn [append].
  - destruct needle as [| d needle]; cbn; auto.
  - destruct needle as [| d needle]; [ reflexivity | ].
    cbn [String.prefix String.length drop].
    destruct (ascii_dec d c); [ | intros H; discriminate ].
    intros H. apply IH in H. exact H.
Qed.

Lemma prefix_within (w needle rest : string) :
  String.prefix w (needle ++ rest) = true ->
  (String.length w <= String.length needle)%nat ->
  String.prefix w needle = true.
Proof.
  intros H Hle. apply prefix_app_cases in H.
  apply Nat.leb_le in Hle. now rewrite Hle in H.
Qed.

Lemma drop_length (k : nat) (s : string) :
  String.length (drop k s) = (String.length s - k)%nat.
Proof.
  revert s. induction k as [| k IH]; intros s; cbn [drop].
  - now rewrite Nat.sub_0_r.
  - destruct s as [| c s]; [ reflexivity | ]. cbn [String.length]. apply IH.
Qed.

(** A proper suffix of the needle is also a prefix of it: an occurrence of
    the needle can then overlap the next one. *)
Definition bordered (needle : string) : bool :=
  existsb (fun k => String.prefix (drop k needle) needle)
          (seq 1 (String.length needle - 1)).

(** With a needle that no occurrence of itself can overlap, the first
    occurrence in [before ++ needle ++ after] is the one written, as soon
    as [before] holds none. *)
Lemma find_first (needle before after : string) :
  bordered needle = false ->
  contains needle before = false ->
  find needle (before ++ needle ++ after) = Some (before, after).
Proof.
  intros Hb. induction before as [| c before IH]; intros Hc.
  - cbn [append]. destruct (needle ++ after) eqn:Hn; cbn [find];
      rewrite <- Hn, prefix_app, drop_app; reflexivity.
  - unfold contains in Hc. cbn [find] in Hc.
    destruct (String.prefix needle (String c before)) eqn:Hp;
      [ discriminate | ].
    assert (Hc' : contains needle before = false).
    { unfold contains. destruct (find needle before) as [[? ?] |];
        [ discriminate | reflexivity ]. }
    cbn [append find].
    destruct (String.prefix needle (String c (before ++ needle ++ after)))
      eqn:Hp'.
    + exfalso. change (String c (before ++ needle ++ after))
        with (String c before ++ needle ++ after) in Hp'.
      apply prefix_app_cases in Hp'.
      destruct (String.length needle <=? String.length (String c before))%nat
        eqn:Hlen; [ congruence | ].
      apply Nat.leb_gt in Hlen.
      apply prefix_within in Hp'; [ | rewrite drop_length; lia ].
      assert (Hex : bordered needle = true); [ | congruence ].
      apply existsb_exists. exists (String.length (String c before)).
      split; [ | exact Hp' ]. apply in_seq. cbn [String.length] in *. lia.
    + now rewrite (IH Hc').
Qed.

Lemma code_tags_unbordered :
  bordered "<code>" = false /\ bordered "</code>" = false /\
  bordered "<exp>" = false /\ bordered "</exp>" = false.
Proof. repeat split; reflexivity. Qed.

(** A piece of [text]: [text] is [before ++ piece ++ after]. *)
Definition substring_of (piece text : string) : Prop :=
  exists before after, text = before ++ piece ++ after.

Lemma substring_refl (s : string) : substring_of s s.
Proof. exists EmptyString, EmptyString. cbn. now rewrite append_empty_r. Qed.

Lemma substring_trans (a b c : string) :
  substring_of a b -> substring_of b c -> substring_of a c.
Proof.
  intros (p & q & ->) (p' & q' & ->). exists (p' ++ p), (q ++ q').
  now rewrite !append_assoc.
Qed.

Lemma strip_substring (s : string) : substring_of (strip s) s.
Proof. destruct (strip_split s) as (b & a & H & _). now exists b, a. Qed.

Lemma search_between_substring (opening closing text found : string) :
  CodeDebuggingParser.search_between opening closing text = Some found ->
  substring_of found text /\ strip found = found.
Proof.
  unfold CodeDebuggingParser.search_between.
  destruct (find opening text) as [[before rest] |] eqn:Ho; [ | discriminate ].
  destruct (find closing rest) as [[inner after] |] eqn:Hc; [ | discriminate ].
  intros H. injection H as <-. split; [ | apply strip_idempotent ].
  apply find_sound in Ho, Hc. subst.
  apply substring_trans with inner; [ apply strip_substring | ].
  exists (before ++ opening), (closing ++ after). now rewrite !append_assoc.
Qed.

Lemma search_between_tags (opening closing before body after : string) :
  bordered opening = false -> bordered closing = false ->
  contains opening before = false -> contains closing body = false ->
  CodeDebuggingParser.search_between opening closing
    (before ++ opening ++ body ++ closing ++ after)
  = Some (strip body).
Proof.
  intros Ho Hc Hb Hbody. unfold CodeDebuggingParser.search_between.
  now rewrite (@find_first _ _ _ Ho Hb), (@find_first _ _ _ Hc Hbody).
Qed.

End SearchFacts.

(** X8.  The code [parse_fixed_code] returns is always a contiguous piece
    of the response with no blank at either end, and so is the explanation
    [parse_explanation] returns: the parsers cut and strip, they never
    rewrite. *)
Theorem parsed_text_is_a_stripped_piece (llm_response : string) :
  (substring_of (CodeDebuggingParser.parse_fixed_code llm_response)
     llm_response /\
   PyStr.strip (CodeDebuggingParser.parse_fixed_code llm_response)
   = CodeDebuggingParser.parse_fixed_code llm_response) /\
  (substring_of (CodeDebuggingParser.parse_explanation llm_response)
     llm_response /\
   PyStr.strip (CodeDebuggingParser.parse_explanation llm_response)
   = CodeDebuggingParser.parse_explanation llm_response).
Proof.
  assert (Hstrip : substring_of (PyStr.strip llm_response) llm_response /\
                   PyStr.strip (PyStr.strip llm_response)
                   = PyStr.strip llm_response)
    by (split; [ apply strip_substring | apply strip_idempotent ]).
  split.
  - unfold CodeDebuggingParser.parse_fixed_code.
    destruct (CodeDebuggingParser.search_between "<code>" "</code>"
                llm_response) eqn:H1;
      [ now apply search_between_substring in H1 | ].
    destruct (PyStr.contains "```python" llm_response);
      [ destruct (CodeDebuggingParser.search_between "```python" "```"
                    llm_response) eqn:H2;
        [ now apply search_between_substring in H2 | ] | ];
      (destruct (PyStr.contains "```" llm_response);
       [ destruct (CodeDebuggingParser.search_between "```" "```"
                     llm_response) eqn:H3;
         [ now apply search_between_substring in H3 | ] | ];
       exact Hstrip).
  - unfold CodeDebuggingParser.parse_explanation.
    destruct (CodeDebuggingParser.search_between "<exp>" "</exp>"
                llm_response) eqn:H1;
      [ now apply search_between_substring in H1 | ].
    split; [ | reflexivity ].
    exists EmptyString, llm_response. reflexivity.
Qed.

(** X9.  Tags win over fences and over the surrounding text: a response
    that holds [<code>body</code>], with no [<code>] before it and no
    [</code>] inside [body], parses to [body] stripped, whatever else the
    response holds; likewise [<exp>body</exp>] for the explanation. *)
Theorem tagged_blocks_are_extracted (before body after : string) :
  (PyStr.contains "<code>" before = false ->
   PyStr.contains "</code>" body = false ->
   CodeDebuggingParser.parse_fixed_code
     (before ++ "<code>" ++ body ++ "</code>" ++ after)%string
   = PyStr.strip body) /\
  (PyStr.contains "<exp>" before = false ->
   PyStr.contains "</exp>" body = false ->
   CodeDebuggingParser.parse_explanation
     (before ++ "<exp>" ++ body ++ "</exp>" ++ after)%string
   = PyStr.strip body).
Proof.
  destruct code_tags_unbordered as (H1 & H2 & H3 & H4).
  unfold CodeDebuggingParser.parse_fixed_code,
    CodeDebuggingParser.parse_explanation.
  split; intros Hb Hbody.
  - now rewrite (@search_between_tags _ _ _ _ _ H1 H2 Hb Hbody).
  - now rewrite (@search_between_tags _ _ _ _ _ H3 H4 Hb Hbody).
Qed.

(** ** [domains/code_debugging/prompt_builder.py] and the domain's strings *)

Section PromptFacts.
Import PyStr.

Local Open Scope string_scope.

Lemma contains_occurrence (needle before after : string) :
  contains needle (before ++ needle ++ after) = true.
Proof.
  unfold contains. induction before as [| c before IH]; cbn [append].
  - destruct (needle ++ after) eqn:Hn; cbn [find];
      rewrite <- Hn, prefix_app; reflexivity.
  - cbn [find]. destruct (String.prefix needle _); [ reflexivity | ].
    destruct (find needle (before ++ needle ++ after)) as [[? ?] |];
      [ reflexivity | discriminate ].
Qed.

Lemma substring_contains (needle hay : string) :
  substring_of needle hay -> contains needle hay = true.
Proof. intros (b & a & ->). apply contains_occurrence. Qed.

Lemma substring_skip_char (needle hay : string) (c : ascii) :
  substring_of needle hay -> substring_of needle (String c hay).
Proof. intros (b & a & ->). now exists (String c b), a. Qed.

Lemma substring_skip (needle skipped hay : string) :
  substring_of needle hay -> substring_of needle (skipped ++ hay).
Proof.
  intros (b & a & ->). exists (skipped ++ b), a. now rewrite append_assoc.
Qed.

Lemma substring_prefix (needle hay : string) :
  String.prefix needle hay = true -> substring_of needle hay.
Proof.
  intros H. exists EmptyString, (drop (String.length needle) hay).
  now apply prefix_split.
Qed.

Lemma substring_here (needle rest : string) :
  substring_of needle (needle ++ rest).
Proof. now exists EmptyString, rest. Qed.

(** The remembered examples are put in front of the prompt. *)
Lemma episodic_block
    (description : string) (examples : list string)
    (constraints buggy_code : string)
    (episodic_examples : option (list (string * string))) :
  exists block,
    CodeDebuggingPrompt.build_debugging_prompt description examples
      constraints buggy_code episodic_examples
    = block ++
      CodeDebuggingPrompt.build_debugging_prompt description examples
        constraints buggy_code None.
Proof.
  unfold CodeDebuggingPrompt.build_debugging_prompt.
  destruct episodic_examples as [[| e l] |];
    try (now exists EmptyString).
  eexists. reflexivity.
Qed.

End PromptFacts.

(** Looks for the needle in a text built of literals and variables. *)
Ltac find_piece :=
  cbn [append];
  repeat first
    [ apply substring_here
    | apply substring_prefix; reflexivity
    | apply substring_skip_char
    | apply substring_skip ].

(** The entry [f"\nExample {i}:\n{prob_repr}\n{sol_repr}\n"]. *)
Definition example_entry (i : Z) (e : string * string) : string :=
  (PyStr.newline ++ "Example " ++ PyStr.of_int i ++ ":" ++ PyStr.newline
   ++ fst e ++ PyStr.newline ++ snd e ++ PyStr.newline)%string.

(** [enumerate(l, i)] *)
Fixpoint enumerate {A : Type} (i : Z) (l : list A) : list (Z * A) :=
  match l with
  | [] => []
  | a :: rest => (i, a) :: enumerate (i + 1) rest
  end.

(** The block of remembered examples as one expression. *)
Definition similar_problems (l : list (string * string)) : string :=
  match l with
  | [] => EmptyString
  | _ :: _ =>
      (PyStr.newline ++ PyStr.newline ++ "--- Similar Past Problems ---"
       ++ PyStr.newline
       ++ fold_right append EmptyString
            (map (fun ie => example_entry (fst ie) (snd ie))
                 (enumerate 1 (firstn 3 l)))
       ++ PyStr.newline ++ "--- End of Similar Examples ---"
       ++ PyStr.newline ++ PyStr.newline)%string
  end.

Lemma episodic_lines_entries (l : list (string * string)) :
  forall (i : Z) (acc : string),
    CodeDebuggingPrompt.episodic_lines i l acc
    = (acc ++ fold_right append EmptyString
                (map (fun ie => example_entry (fst ie) (snd ie))
                     (enumerate i l)))%string.
Proof.
  induction l as [| [p s] l IH]; intros i acc;
    cbn [CodeDebuggingPrompt.episodic_lines enumerate map fold_right].
  - now rewrite append_empty_r.
  - rewrite IH. cbn [fst snd]. unfold example_entry at 2. cbn [fst snd].
    now rewrite !append_assoc.
Qed.

(** X10.  The code-debugging prompt with remembered examples is the block
    of the first three of them, numbered from 1 in the order given, put in
    front of the prompt built without examples; so it depends on the list
    only through its first three entries, and an empty list is as no
    list. *)
Theorem episodic_examples_go_in_front
    (description : string) (examples : list string)
    (constraints buggy_code : string) (l : list (string * string)) :
  let prompt :=
    CodeDebuggingPrompt.build_debugging_prompt description examples
      constraints buggy_code in
  prompt (Some l) = (similar_problems l ++ prompt None)%string /\
  prompt (Some l) = prompt (Some (firstn 3 l)) /\
  prompt (Some []) = prompt None.
Proof.
  cbn zeta. unfold CodeDebuggingPrompt.build_debugging_prompt.
  split; [ | split; [ | reflexivity ] ].
  - destruct l as [| e l]; [ reflexivity | ].
    rewrite episodic_lines_entries. unfold similar_problems.
    now rewrite !append_assoc.
  - destruct l as [| e1 [| e2 [| e3 l]]]; reflexivity.
Qed.

(** X11.  What [test_domain_interface] of [test_code_debugging.py] checks
    on one problem holds for every problem: the prompt names the faulty
    implementation and holds the buggy code, with or without remembered
    examples, the representation holds the slug, and the memory format
    of a solution holds "Fixed Code" and ends with the solution. *)
Theorem domain_interface_strings
    (problem : CodeDebugging.CodeDebuggingProblem)
    (episodic_examples : option (list (string * string)))
    (solution : string) :
  PyStr.contains "Faulty Python3 Implementation"
    (CodeDebugging.build_prompt problem episodic_examples) = true /\
  PyStr.contains (CodeDebugging.buggy_code problem)
    (CodeDebugging.build_prompt problem episodic_examples) = true /\
  PyStr.contains (CodeDebugging.slug problem)
    (CodeDebugging.get_problem_representation problem) = true /\
  PyStr.contains "Fixed Code"
    (CodeDebugging.format_solution_for_memory solution) = true /\
  exists title,
    CodeDebugging.format_solution_for_memory solution
    = (title ++ solution)%string.
Proof.
  assert (Hbase : forall needle : string,
             substring_of needle
               (CodeDebugging.build_prompt problem None) ->
             PyStr.contains needle
               (CodeDebugging.build_prompt problem episodic_examples) = true).
  { intros needle Hsub. apply substring_contains.
    apply substring_trans with (CodeDebugging.build_prompt problem None);
      [ exact Hsub | ].
    unfold CodeDebugging.build_prompt.
    destruct (episodic_block (CodeDebugging.description problem)
                (CodeDebugging.examples problem)
                (CodeDebugging.constraints problem)
                (CodeDebugging.buggy_code problem) episodic_examples)
      as (block & ->).
    exists block, EmptyString. now rewrite append_empty_r. }
  split; [ | split; [ | split; [ | split ] ] ].
  - apply Hbase. unfold CodeDebugging.build_prompt,
      CodeDebuggingPrompt.build_debugging_prompt,
      CodeDebuggingPrompt.IO_INTENTION_PROMPT_TEMPLATE_format.
    find_piece.
  - apply Hbase. unfold CodeDebugging.build_prompt,
      CodeDebuggingPrompt.build_debugging_prompt,
      CodeDebuggingPrompt.IO_INTENTION_PROMPT_TEMPLATE_format.
    find_piece.
  - apply substring_contains.
    unfold CodeDebugging.get_problem_representation. find_piece.
  - apply substring_contains.
    unfold CodeDebugging.format_solution_for_memory. find_piece.
  - exists ("Fixed Code:" ++ PyStr.newline)%string. reflexivity.
Qed.

(** ** [domains/code_debugging/validator.py] and the feedback it gives *)

Section SubmissionFacts.
Variable Ext : Type.
Variable Tester : Type.
Variable Time : Type.
Variable time_time : Ext -> Time * Ext.
Variable time_sleep : Time -> Ext -> Ext.
Variable time_sub : Time -> Time -> Time.
Variable time_lt : Time -> Time -> bool.
Variable time_of_Z : Z -> Time.
Variable environ_get : string -> Ext -> option string.
Variable LeetCodeTester : option (Eff Ext Tester).
Variable tester_test :
  Tester -> string -> string -> string -> Eff Ext (bool * PyDict.t).

Local Abbreviation VWorld := (LeetCodeValidator.VWorld Ext Tester Time).
Local Abbreviation validate_try :=
  (LeetCodeValidator.validate_try time_time time_sleep time_sub time_lt
     time_of_Z).
Local Abbreviation validate_code_with_leetcode :=
  (LeetCodeValidator.validate_code_with_leetcode time_time time_sleep time_sub
     time_lt time_of_Z).
Local Abbreviation get_leetcode_tester :=
  (LeetCodeValidator.get_leetcode_tester (Ext := Ext) (Tester := Tester)
     (Time := Time)).
Local Abbreviation tester_of w :=
  (LeetCodeValidator._tester_instance (LeetCodeValidator.globals w)).
Local Abbreviation check_leetcode_session :=
  (CodeDebuggingUtils.check_leetcode_session environ_get).
Local Abbreviation last_submission_of w :=
  (LeetCodeValidator._last_submission_time (LeetCodeValidator.globals w)).

(** The world when the cooldown has been waited for. *)
Definition after_cooldown (w : VWorld) : VWorld :=
  let '(t, x) := time_time (LeetCodeValidator.ext w) in
  let time_since_last := time_sub t (last_submission_of w) in
  {| LeetCodeValidator.globals := LeetCodeValidator.globals w;
     LeetCodeValidator.ext :=
       if time_lt time_since_last
            (LeetCodeValidator.SUBMISSION_COOLDOWN time_of_Z)
       then time_sleep
              (time_sub (LeetCodeValidator.SUBMISSION_COOLDOWN time_of_Z)
                 time_since_last) x
       else x |}.

(** The submission itself, once the cooldown is over and with the tester
    in hand. *)
Definition submit (tester : Tester) (code task_id language : string)
  : Eff VWorld (bool * PyDict.t) :=
  ('(reward, submission_result) <-
     LeetCodeValidator.lift_ext (tester_test tester code task_id language) ;;
   t' <- LeetCodeValidator.now time_time ;;
   LeetCodeValidator.set_last_submission_time t' ;;;
   ret (reward
        && match PyDict.lookup submission_result "status_msg" with
           | Some v => PyDict.eq_str v "Accepted"
           | None => false
           end, submission_result))%eff.

Lemma validate_try_steps (code task_id language : string) (w : VWorld) :
  validate_try environ_get LeetCodeTester tester_test code task_id language w
  = (tester <- get_leetcode_tester environ_get LeetCodeTester ;;
     submit tester code task_id language)%eff (after_cooldown w).
Proof.
  unfold LeetCodeValidator.validate_try, after_cooldown, submit, bind, gets,
    LeetCodeValidator.now.
  destruct (time_time (LeetCodeValidator.ext w)) as [t x].
  cbn [LeetCodeValidator.globals LeetCodeValidator.ext].
  destruct (time_lt _ _); reflexivity.
Qed.

Lemma after_cooldown_globals (w : VWorld) :
  LeetCodeValidator.globals (after_cooldown w) = LeetCodeValidator.globals w.
Proof.
  unfold after_cooldown.
  now destruct (time_time (LeetCodeValidator.ext w)).
Qed.

Lemma get_leetcode_tester_cached (t : Tester) (w : VWorld) :
  tester_of w = Some t ->
  get_leetcode_tester environ_get LeetCodeTester w = (Ok t, w).
Proof.
  intros H. unfold LeetCodeValidator.get_leetcode_tester, bind, gets.
  now rewrite H.
Qed.

(** What [get_leetcode_tester] does to the globals: nothing when it
    raises, and when it returns, the tester it returns is the stored
    one. *)
Lemma get_leetcode_tester_globals (w w' : VWorld) (r : result Tester) :
  get_leetcode_tester environ_get LeetCodeTester w = (r, w') ->
  last_submission_of w' = last_submission_of w /\
  match r with
  | Ok t => tester_of w' = Some t /\
            (tester_of w = None ->
             LeetCodeValidator.session_missing environ_get
               (LeetCodeValidator.ext w) = false /\
             LeetCodeTester <> None)
  | Raise _ => tester_of w' = tester_of w
  end.
Proof.
  unfold LeetCodeValidator.get_leetcode_tester, bind, gets.
  destruct (tester_of w) as [t |] eqn:Ht.
  - intros H. inversion H; subst. split; [ reflexivity | ].
    split; [ assumption | ]. intros Hn. rewrite Hn in Ht. discriminate.
  - destruct (LeetCodeValidator.session_missing environ_get
                (LeetCodeValidator.ext w)) eqn:Hs.
    + intros H. inversion H; subst. now split.
    + destruct LeetCodeTester as [construct |].
      * unfold LeetCodeValidator.lift_ext.
        destruct (construct (LeetCodeValidator.ext w)) as [[t | e] x];
          intros H; inversion H; subst;
          cbn [LeetCodeValidator.globals LeetCodeValidator._tester_instance
                 LeetCodeValidator._last_submission_time];
          repeat split; try assumption; try reflexivity; discriminate.
      * intros H. inversion H; subst. now split.
Qed.

Lemma submit_globals (tester : Tester) (code task_id language : string)
    (w w' : VWorld) (r : result (bool * PyDict.t)) :
  submit tester code task_id language w = (r, w') ->
  tester_of w' = tester_of w /\
  match r with
  | Ok (is_valid, feedback) =>
      (is_valid = true ->
       PyDict.lookup feedback "status_msg" = Some (VStr "Accepted")) /\
      exists x, time_time x
                = (last_submission_of w', LeetCodeValidator.ext w')
  | Raise _ => last_submission_of w' = last_submission_of w
  end.
Proof.
  unfold submit, bind, LeetCodeValidator.lift_ext, LeetCodeValidator.now,
    LeetCodeValidator.set_last_submission_time, modify, ret.
  destruct (tester_test tester code task_id language (LeetCodeValidator.ext w))
    as [[[reward result] | e] x].
  - cbn [LeetCodeValidator.globals LeetCodeValidator.ext].
    destruct (time_time x) as [t' x'] eqn:Ht.
    intros H. inversion H; subst.
    cbn [LeetCodeValidator.globals LeetCodeValidator.ext
           LeetCodeValidator._tester_instance
           LeetCodeValidator._last_submission_time].
    split; [ reflexivity | ]. split; [ | now exists x ].
    intros Hv. apply andb_true_iff in Hv as [_ Hv].
    destruct (PyDict.lookup result "status_msg") as [[| | | s |] |];
      try discriminate.
    cbn [PyDict.eq_str] in Hv. apply String.eqb_eq in Hv. now subst.
  - intros H. inversion H; subst. now split.
Qed.


(** X12.  A verdict of [True] from [validate_code_with_leetcode] comes with
    a result whose status is "Accepted", which [format_feedback] renders as
    an accepted solution with its runtime and memory. *)
Theorem accepted_verdict_reads_accepted
    (code task_id language : string) (w w' : VWorld) (feedback : PyDict.t) :
  validate_code_with_leetcode environ_get LeetCodeTester tester_test
    code task_id language w = (Ok (true, feedback), w') ->
  PyDict.lookup feedback "status_msg" = Some (VStr "Accepted") /\
  CodeDebugging.format_feedback feedback
  = ("Solution accepted! Runtime: "
     ++ PyDict.str (PyDict.get feedback "runtime" (VStr "N/A"))
     ++ ", Memory: "
     ++ PyDict.str (PyDict.get feedback "memory" (VStr "N/A")))%string.
Proof.
  unfold LeetCodeValidator.validate_code_with_leetcode.
  rewrite validate_try_steps. unfold bind.
  destruct (get_leetcode_tester environ_get LeetCodeTester (after_cooldown w))
    as [[tester | e] w1].
  - destruct (submit tester code task_id language w1) as [[[v fb] | e] w2]
      eqn:Hs.
    + intros H. inversion H; subst.
      apply submit_globals in Hs as (_ & Hacc & _).
      specialize (Hacc eq_refl). split; [ exact Hacc | ].
      unfold CodeDebugging.format_feedback, PyDict.get. now rewrite Hacc.
    + intros H. inversion H as [[Hv]]. destruct e; discriminate.
  - intros H. inversion H as [[Hv]]. destruct e; discriminate.
Qed.

(** X13.  When a step of the submission raises, the feedback the model is
    given is the status line alone, "Environment Error" or "Validation
    Error": the text of the exception is stored under a key that
    [format_feedback] does not read. *)
Theorem fault_feedback_is_the_status_line
    (code task_id language : string) (w w1 : VWorld) (e : PyExn) :
  validate_try environ_get LeetCodeTester tester_test
    code task_id language w = (Raise e, w1) ->
  exists feedback,
    validate_code_with_leetcode environ_get LeetCodeTester tester_test
      code task_id language w = (Ok (false, feedback), w1) /\
    PyDict.lookup feedback "error" = Some (VStr (str_of_exn e)) /\
    CodeDebugging.format_feedback feedback
    = ("Status: "
       ++ (if is_EnvironmentError e then "Environment Error"
           else "Validation Error")
       ++ PyStr.newline)%string.
Proof.
  intros Htry. unfold LeetCodeValidator.validate_code_with_leetcode.
  rewrite Htry. destruct e; eexists; repeat split.
Qed.

(** X14.  The tester is a singleton: once one is stored, a validation uses
    it and keeps it, and neither [LEETCODE_SESSION] nor the class
    [LeetCodeTester] is looked at again, so the result is the same
    whatever they have become. *)
Theorem stored_tester_is_reused
    (environ_get' : string -> Ext -> option string)
    (LeetCodeTester' : option (Eff Ext Tester))
    (code task_id language : string) (w : VWorld) (tester : Tester) :
  tester_of w = Some tester ->
  validate_code_with_leetcode environ_get LeetCodeTester tester_test
    code task_id language w
  = validate_code_with_leetcode environ_get' LeetCodeTester' tester_test
      code task_id language w /\
  validate_try environ_get LeetCodeTester tester_test code task_id language w
  = submit tester code task_id language (after_cooldown w) /\
  tester_of
    (snd (validate_code_with_leetcode environ_get LeetCodeTester tester_test
            code task_id language w))
  = Some tester.
Proof.
  intros Ht.
  assert (Hw : tester_of (after_cooldown w) = Some tester)
    by now rewrite after_cooldown_globals.
  assert (Htry : forall eg lt,
             validate_try eg lt tester_test code task_id language w
             = submit tester code task_id language (after_cooldown w)).
  { intros eg lt.
    unfold LeetCodeValidator.validate_try, after_cooldown, submit, bind, gets,
      LeetCodeValidator.now.
    destruct (time_time (LeetCodeValidator.ext w)) as [t x].
    cbn [LeetCodeValidator.globals LeetCodeValidator.ext].
    destruct (time_lt _ _);
      unfold LeetCodeValidator.sleep, LeetCodeValidator.get_leetcode_tester,
        modify, ret, bind, gets;
      cbn [LeetCodeValidator.globals LeetCodeValidator.ext];
      rewrite Ht; reflexivity. }
  unfold LeetCodeValidator.validate_code_with_leetcode.
  rewrite !Htry. split; [ reflexivity | ]. split; [ reflexivity | ].
  destruct (submit tester code task_id language (after_cooldown w))
    as [r w'] eqn:Hs.
  apply submit_globals in Hs as [Hsame _].
  destruct r; cbn [snd]; congruence.
Qed.

(** X15.  The cooldown counts from the last submission that came back: an
    attempt that raises leaves [_last_submission_time] as it was, and an
    attempt that returns sets it to a reading of the clock taken after the
    test and leaves a tester stored. *)
Theorem cooldown_counts_from_last_result
    (code task_id language : string) (w w' : VWorld)
    (r : result (bool * PyDict.t)) :
  validate_try environ_get LeetCodeTester tester_test
    code task_id language w = (r, w') ->
  match r with
  | Raise _ => last_submission_of w' = last_submission_of w
  | Ok _ =>
      (exists x, time_time x
                 = (last_submission_of w', LeetCodeValidator.ext w')) /\
      exists tester, tester_of w' = Some tester
  end.
Proof.
  rewrite validate_try_steps. unfold bind.
  destruct (get_leetcode_tester environ_get LeetCodeTester (after_cooldown w))
    as [[tester | e] w1] eqn:Hg;
    apply get_leetcode_tester_globals in Hg as [Hlast Hg];
    rewrite after_cooldown_globals in *.
  - destruct Hg as [Hstored _]. intros Hs.
    apply submit_globals in Hs as [Hsame Hs].
    destruct r as [[v fb] | e].
    + destruct Hs as [_ Hclock]. split; [ exact Hclock | ].
      exists tester. congruence.
    + congruence.
  - intros H. inversion H; subst. exact Hlast.
Qed.

(** X16.  [check_leetcode_session] and the validator read the variable
    differently: where the validator finds a session, the check succeeds,
    but with [LEETCODE_SESSION] set to the empty string the check succeeds
    and the validator, with no tester stored, raises the
    [EnvironmentError] of a missing session. *)
Theorem session_check_is_weaker :
  (forall x : Ext,
      LeetCodeValidator.session_missing environ_get x = false ->
      check_leetcode_session x = true) /\
  (forall w : VWorld,
      environ_get "LEETCODE_SESSION" (LeetCodeValidator.ext w)
      = Some EmptyString ->
      tester_of w = None ->
      check_leetcode_session (LeetCodeValidator.ext w) = true /\
      get_leetcode_tester environ_get LeetCodeTester w
      = (Raise (EnvironmentError LeetCodeValidator.session_missing_message),
         w)).
Proof.
  unfold CodeDebuggingUtils.check_leetcode_session,
    LeetCodeValidator.session_missing. split.
  - intros x. destruct (environ_get "LEETCODE_SESSION" x);
      [ reflexivity | discriminate ].
  - intros w Hx Ht. rewrite Hx. split; [ reflexivity | ].
    unfold LeetCodeValidator.get_leetcode_tester, bind, gets,
      LeetCodeValidator.session_missing.
    now rewrite Ht, Hx.
Qed.

End SubmissionFacts.

(** ** [domains/graph_coloring/graph_coloring_domain.py] *)

(** The most digits [int(str)] converts: CPython 3.11 and later raise
    [ValueError] beyond [sys.int_info.default_max_str_digits], leading
    zeros counted.  [PyStr.int] has no such limit, so what is said of
    [int(color)] is said within it. *)
Definition int_max_str_digits : nat := 4300.

(** Every colour that [parse_solution] converts in the response, the
    digits of each line that matches, is within the limit. *)
Definition colours_within_limit (response : string) : bool :=
  forallb
    (fun line =>
       match GraphColoringParser.pattern_match (PyStr.strip line) with
       | Some (_, color) => (String.length color <=? int_max_str_digits)%nat
       | None => true
       end)
    (PyStr.split_lines (PyStr.strip response)).

Section GraphColoringFacts.
Variable World : Type.
Variable ollama_chat : string -> list Message -> Eff World (list string).
Variable validate_coloring :
  string -> GraphColoringParser.Coloring
  -> Eff World (bool * list (string * string)).
Variable prompt_generator :
  string -> Z -> option (list (string * string)) -> string.

Lemma fold_max_bounds (rest : GraphColoringParser.Coloring) :
  forall m : Z,
    let top := fold_left (fun m kv => Z.max m (snd kv)) rest m in
    (m <= top)%Z /\
    (forall v c, In (v, c) rest -> (c <= top)%Z) /\
    (top = m \/ exists v, In (v, top) rest).
Proof.
  induction rest as [| [v c] rest IH]; intros m; cbn [fold_left snd].
  - repeat split; [ lia | intros ? ? [] | now left ].
  - destruct (IH (Z.max m c)) as (Hle & Hall & Hatt). cbn zeta in *.
    split; [ lia | ]. split.
    + intros v' c' [Heq | Hin]; [ inversion Heq; subst; lia | eauto ].
    + destruct Hatt as [Heq | (v' & Hin)].
      * destruct (Z.max_spec m c) as [[_ Hm] | [_ Hm]]; rewrite Hm in *.
        -- right. exists v. left. f_equal. symmetry. exact Heq.
        -- now left.
      * right. exists v'. now right.
Qed.

(** [max(solution.values()) if solution else 0] is the largest colour in
    use. *)
Lemma max_color_bounds (solution : GraphColoringParser.Coloring) :
  (forall v c, In (v, c) solution -> (c <= GraphColoring.max_color solution)%Z)
  /\
  match solution with
  | [] => GraphColoring.max_color solution = 0%Z
  | _ :: _ => exists v, In (v, GraphColoring.max_color solution) solution
  end.
Proof.
  destruct solution as [| [v c] rest]; cbn [GraphColoring.max_color].
  - split; [ intros ? ? [] | reflexivity ].
  - destruct (fold_max_bounds rest c) as (Hle & Hall & Hatt). cbn zeta in *.
    split.
    + intros v' c' [Heq | Hin]; [ inversion Heq; subst; lia | eauto ].
    + destruct Hatt as [Heq | (v' & Hin)].
      * exists v. left. f_equal. symmetry. exact Heq.
      * exists v'. now right.
Qed.

(** X17.  The feedback of the graph-colouring domain is made from the
    validator's list of conflicting edges alone: an empty list becomes
    [None] and is rendered "Solution is correct!", also when the verdict is
    [False]; otherwise one sentence per edge, joined by " | ".  A fault of
    the validator is not caught. *)
Theorem colouring_feedback_follows_the_errors
    (problem : GraphColoring.GraphColoringProblem)
    (solution : GraphColoringParser.Coloring) (w w' : World) :
  (forall is_valid errors,
      validate_coloring (GraphColoring.file_path problem) solution w
      = (Ok (is_valid, errors), w') ->
      exists feedback,
        GraphColoring.validate_solution validate_coloring problem solution w
        = (Ok (is_valid, feedback), w') /\
        (feedback = None <-> errors = []) /\
        (forall e es, errors = e :: es -> feedback = Some errors) /\
        GraphColoring.format_feedback feedback
        = match errors with
          | [] => "Solution is correct!"%string
          | _ :: _ =>
              PyStr.join " | "
                (map (fun edge =>
                        ("adjacent vertices " ++ fst edge ++ " and "
                         ++ snd edge ++ " have the same color")%string)
                     errors)
          end) /\
  (forall e,
      validate_coloring (GraphColoring.file_path problem) solution w
      = (Raise e, w') ->
      GraphColoring.validate_solution validate_coloring problem solution w
      = (Raise e, w')).
Proof.
  unfold GraphColoring.validate_solution, bind, ret. split.
  - intros is_valid errors H. rewrite H. eexists. split; [ reflexivity | ].
    destruct errors as [| e es].
    + repeat split; intros; try reflexivity; discriminate.
    + repeat split; intros; try reflexivity; discriminate.
  - intros e H. now rewrite H.
Qed.

(** X18.  When the System 2 agent answers and every colour of the answer
    is within the digit limit of [int], the S2 solver of the graph-colouring
    domain returns the parse of that answer, which was asked of the given
    solver in a conversation of one message, the prompt built without
    examples, together with the largest colour in use, which is [0] for an
    empty colouring and is never negative; a fault of the call is
    raised. *)
Theorem s2_returns_parse_and_largest_colour
    (problem : GraphColoring.GraphColoringProblem) (llm_solver : LLMSolver)
    (w : World) :
  let request :=
    generate_response ollama_chat llm_solver
      [user_message
         (prompt_generator (GraphColoring.graph_repr problem)
            (GraphColoring.min_colors problem) None)] in
  (forall response w',
      request w = (Ok response, w') ->
      colours_within_limit response = true ->
      let solution := GraphColoringParser.parse_solution response in
      exists top,
        GraphColoring.run_s2_solver ollama_chat prompt_generator
          problem llm_solver w = (Ok (solution, top), w') /\
        (0 <= top)%Z /\
        (forall v c, In (v, c) solution -> (0 <= c <= top)%Z) /\
        (solution = [] -> top = 0%Z) /\
        (solution <> [] -> exists v, In (v, top) solution)) /\
  (forall e w',
      request w = (Raise e, w') ->
      GraphColoring.run_s2_solver ollama_chat prompt_generator
        problem llm_solver w = (Raise e, w')).
Proof.
  cbn zeta. unfold GraphColoring.run_s2_solver, GraphColoring.build_prompt,
    GraphColoring.parse_solution, bind, ret.
  split; [ | intros e w' Hreq; now rewrite Hreq ].
  intros response w' Hreq _. rewrite Hreq.
  set (solution := GraphColoringParser.parse_solution response).
  destruct (parse_solution_invariant response) as [_ Hall].
  fold solution in Hall.
  destruct (max_color_bounds solution) as [Hle Hatt].
  assert (Hnonneg : forall v c, In (v, c) solution -> (0 <= c)%Z).
  { intros v c Hin. rewrite Forall_forall in Hall.
    now destruct (Hall (v, c) Hin). }
  exists (GraphColoring.max_color solution).
  split; [ reflexivity | ]. split; [ | split; [ | split ] ].
  - destruct solution as [| vc rest]; [ rewrite Hatt; lia | ].
    destruct Hatt as (v & Hin). eauto.
  - intros v c Hin. split; [ eauto | eauto ].
  - intros ->. exact Hatt.
  - intros Hne. destruct solution; [ congruence | exact Hatt ].
Qed.

End GraphColoringFacts.

Section GraphUtilsFacts.
Import PyStr.
Import GraphUtils.

Local Open Scope string_scope.

Definition no_blank (c : ascii) : bool := negb (is_space c).

(** An item of [s.split()]: not empty and without blanks. *)
Definition word (w : string) : Prop :=
  w <> EmptyString /\ all_chars no_blank w = true.

Lemma split_from_word (w : string) :
  forall word0 s,
    all_chars no_blank w = true ->
    split_from word0 (w ++ s) = split_from (word0 ++ w) s.
Proof.
  induction w as [| c w IH]; intros word0 s Hw; cbn [append].
  - now rewrite append_empty_r.
  - cbn [all_chars] in Hw. apply andb_true_iff in Hw as [Hc Hw].
    unfold no_blank in Hc. apply negb_true_iff in Hc.
    cbn [split_from]. rewrite Hc, IH by assumption. now rewrite append_assoc.
Qed.

Lemma split_from_blanks (blanks : string) :
  forall word0,
    all_chars is_space blanks = true ->
    split_from word0 blanks = split_from word0 EmptyString.
Proof.
  induction blanks as [| c blanks IH]; intros word0 Hb; [ reflexivity | ].
  cbn [all_chars] in Hb. apply andb_true_iff in Hb as [Hc Hb].
  cbn [split_from]. rewrite Hc, (IH EmptyString) by assumption.
  now destruct word0.
Qed.

Lemma split_blanks_front (blanks s : string) :
  all_chars is_space blanks = true ->
  split_from EmptyString (blanks ++ s) = split_from EmptyString s.
Proof.
  induction blanks as [| c blanks IH]; intros Hb; [ reflexivity | ].
  cbn [all_chars] in Hb. apply andb_true_iff in Hb as [Hc Hb].
  cbn [append split_from]. rewrite Hc. now apply IH.
Qed.

Lemma split_blanks_end (s blanks : string) :
  forall word0,
    all_chars is_space blanks = true ->
    split_from word0 (s ++ blanks) = split_from word0 s.
Proof.
  induction s as [| c s IH]; intros word0 Hb; cbn [append].
  - now apply split_from_blanks.
  - cbn [split_from]. destruct (is_space c); [ | now apply IH ].
    rewrite (IH EmptyString) by assumption. reflexivity.
Qed.

(** [s.strip().split() == s.split()] *)
Lemma split_strip (s : string) : split (strip s) = split s.
Proof.
  destruct (strip_split s) as (before & after & Hs & Hb & Ha).
  unfold split. rewrite Hs at 2.
  rewrite split_blanks_front by assumption. now rewrite split_blanks_end.
Qed.

(** [" ".join(ws).split() == ws] for words. *)
Lemma split_join (ws : list string) :
  Forall word ws -> split (join " " ws) = ws.
Proof.
  unfold split. induction 1 as [| w rest [Hne Hw] Hrest IH]; [ reflexivity | ].
  destruct rest as [| w' rest'].
  - cbn [join String.concat].
    rewrite <- (append_empty_r w) at 1. rewrite split_from_word by assumption.
    cbn [append split_from]. destruct w; [ congruence | reflexivity ].
  - change (join " " (w :: w' :: rest'))
      with (w ++ String " " (join " " (w' :: rest'))).
    rewrite split_from_word by assumption. cbn [append split_from is_space].
    change (is_space " ") with true. cbv iota.
    rewrite IH. destruct w; [ congruence | reflexivity ].
Qed.

Lemma split_from_words (s : string) :
  forall word0,
    all_chars no_blank word0 = true -> Forall word (split_from word0 s).
Proof.
  induction s as [| c s IH]; intros word0 Hw; cbn [split_from].
  - destruct word0; constructor; [ | constructor ]. split; [ discriminate | assumption ].
  - destruct (is_space c) eqn:Hc.
    + destruct word0; [ now apply IH | ].
      constructor; [ split; [ discriminate | assumption ] | now apply IH ].
    + apply IH. rewrite all_chars_app, Hw. cbn. unfold no_blank.
      now rewrite Hc.
Qed.

(** The items of [s.split()] are words. *)
Lemma split_words (s : string) : Forall word (split s).
Proof. now apply split_from_words. Qed.


(** *** The loop of [parse_graph] *)

(** [line.strip().split()] *)
Definition parts (line : string) : list string := split (strip line).

(** A [p] line that the unpacking accepts. *)
Definition header_ok (line : string) : bool :=
  match parts line with
  | first :: rest => negb (String.eqb first "p") || (List.length rest =? 3)%nat
  | [] => true
  end.

(** The edge an [e] line of three words adds. *)
Definition edge_of (line : string) : list string :=
  match parts line with
  | [first; v1; v2] =>
      if String.eqb first "e" then [v1 ++ " " ++ v2] else []
  | _ => []
  end.

(** The two labels an [e] line of three words adds. *)
Definition ends_of (line : string) : list string :=
  match parts line with
  | [first; v1; v2] => if String.eqb first "e" then [v1; v2] else []
  | _ => []
  end.

(** The counts after a line: those of the line if it is a [p] line. *)
Definition counts_after (counts : PyVal * PyVal) (line : string)
  : PyVal * PyVal :=
  match parts line with
  | [first; _; num_vertices; num_edges] =>
      if String.eqb first "p" then (VStr num_vertices, VStr num_edges)
      else counts
  | _ => counts
  end.

Lemma step_cases (st : Parse) (line : string) :
  if header_ok line
  then step st line
       = Ok {| edges := (edges st ++ edge_of line)%list;
               num_vertices :=
                 fst (counts_after (num_vertices st, num_edges st) line);
               num_edges :=
                 snd (counts_after (num_vertices st, num_edges st) line);
               vertices := (vertices st ++ ends_of line)%list |}
  else step st line = Raise (unpack_error (List.length (parts line))).
Proof.
  unfold header_ok, step, edge_of, ends_of, counts_after. fold (parts line).
  destruct st as [es nv ne vs]. cbn [edges num_vertices num_edges vertices].
  destruct (parts line) as [| first rest];
    [ cbn; now rewrite !app_nil_r | ].
  destruct (String.eqb first "p") eqn:Hp; cbn [negb orb].
  - apply String.eqb_eq in Hp. subst first.
    destruct rest as [| a [| b [| c [| d rest]]]]; cbn; try reflexivity.
    now rewrite !app_nil_r.
  - destruct (String.eqb first "e") eqn:He; cbn [andb].
    + destruct rest as [| a [| b [| c rest]]]; cbn; rewrite ?Hp, ?app_nil_r;
        try reflexivity.
      now destruct rest.
    + destruct rest as [| a [| b [| c [| d rest]]]]; cbn;
        rewrite ?Hp, ?app_nil_r; reflexivity.
Qed.

(** The loop in one expression, when no [p] line stops it. *)
Lemma scan_closed (lines : list string) :
  forall st,
    forallb header_ok lines = true ->
    scan lines st
    = Ok {| edges := (edges st ++ flat_map edge_of lines)%list;
            num_vertices :=
              fst (fold_left counts_after lines
                     (num_vertices st, num_edges st));
            num_edges :=
              snd (fold_left counts_after lines
                     (num_vertices st, num_edges st));
            vertices := (vertices st ++ flat_map ends_of lines)%list |}.
Proof.
  induction lines as [| line lines IH]; intros st Hok;
    cbn [scan flat_map fold_left forallb] in *.
  - rewrite !app_nil_r. now destruct st.
  - apply andb_true_iff in Hok as [Hline Hlines].
    pose proof (step_cases st line) as Hstep. rewrite Hline in Hstep.
    rewrite Hstep, (IH _ Hlines).
    cbn [edges num_vertices num_edges vertices].
    rewrite <- !app_assoc, <- surjective_pairing. reflexivity.
Qed.

Lemma scan_stops (lines : list string) :
  forall st,
    forallb header_ok lines = false -> exists e, scan lines st = Raise e.
Proof.
  induction lines as [| line lines IH]; intros st Hok;
    cbn [scan forallb] in *; [ discriminate | ].
  pose proof (step_cases st line) as Hstep.
  destruct (header_ok line).
  - rewrite Hstep. now apply IH.
  - rewrite Hstep. eauto.
Qed.

(** The loop stops at the first [p] line that the unpacking refuses, with
    the error for the number of words of that line. *)
Lemma scan_stops_at (lines : list string) :
  forall st line,
    List.find (fun line => negb (header_ok line)) lines = Some line ->
    scan lines st = Raise (unpack_error (List.length (parts line))).
Proof.
  induction lines as [| line' lines IH]; intros st line Hfind;
    cbn [scan List.find] in *; [ discriminate | ].
  pose proof (step_cases st line') as Hstep.
  destruct (header_ok line'); cbn [negb] in Hfind.
  - rewrite Hstep. now apply IH.
  - inversion Hfind; subst. now rewrite Hstep.
Qed.

Lemma find_refused (lines : list string) :
  forallb header_ok lines = false ->
  exists line,
    List.find (fun line => negb (header_ok line)) lines = Some line /\
    In line lines /\ header_ok line = false.
Proof.
  induction lines as [| line lines IH]; cbn [forallb List.find];
    [ discriminate | ].
  destruct (header_ok line) eqn:Hline; cbn [andb negb].
  - intros H. destruct (IH H) as (bad & Hfind & Hin & Hbad).
    exists bad. repeat split; [ assumption | now right | assumption ].
  - intros _. exists line. repeat split; [ now left | assumption ].
Qed.

(** *** The description as a graph file *)

Lemma blank_is_newline (c : ascii) : no_blank c = true -> not_newline c = true.
Proof.
  unfold no_blank, not_newline, is_space, between. intros H.
  apply negb_true_iff in H. apply negb_true_iff, Nat.eqb_neq. intros Hc.
  rewrite Hc in H. discriminate.
Qed.

Lemma word_no_newline (w : string) :
  word w -> all_chars not_newline w = true.
Proof. intros [_ Hw]. exact (@all_chars_impl _ _ _ blank_is_newline Hw). Qed.

Lemma readlines_cons (line rest : string) :
  all_chars not_newline line = true ->
  readlines (line ++ newline ++ rest) = (line ++ newline) :: readlines rest.
Proof.
  induction line as [| c line IH]; cbn [all_chars append readlines].
  - reflexivity.
  - unfold not_newline at 1. intros H. apply andb_true_iff in H as [Hc Hl].
    apply negb_true_iff in Hc. rewrite Hc.
    change (line ++ String (ascii_of_nat 10) rest)
      with (line ++ newline ++ rest).
    now rewrite (IH Hl).
Qed.

Lemma readlines_single (line : string) :
  all_chars not_newline line = true -> line <> EmptyString ->
  readlines line = [line].
Proof.
  induction line as [| c line IH]; cbn [all_chars readlines]; [ congruence | ].
  unfold not_newline at 1. intros H _. apply andb_true_iff in H as [Hc Hl].
  apply negb_true_iff in Hc. rewrite Hc.
  destruct line as [| d line]; [ reflexivity | ].
  rewrite IH; [ reflexivity | assumption | discriminate ].
Qed.

Lemma parts_newline (line : string) : parts (line ++ newline) = parts line.
Proof.
  unfold parts. rewrite !split_strip. unfold split.
  now apply split_blanks_end.
Qed.

Lemma step_parts (st : Parse) (a b : string) :
  parts a = parts b -> step st a = step st b.
Proof. unfold step, parts. now intros ->. Qed.

Lemma scan_parts (l1 l2 : list string) :
  Forall2 (fun a b => parts a = parts b) l1 l2 ->
  forall st, scan l1 st = scan l2 st.
Proof.
  induction 1 as [| a b l1 l2 Hab _ IH]; intros st; cbn [scan];
    [ reflexivity | ].
  rewrite (step_parts st _ _ Hab). destruct (step st b); auto.
Qed.

Lemma readlines_join (lines : list string) :
  Forall (fun line => all_chars not_newline line = true /\
                      line <> EmptyString) lines ->
  Forall2 (fun a b => parts a = parts b)
    (readlines (join newline lines)) lines.
Proof.
  induction 1 as [| line rest [Hline Hne] Hrest IH]; [ constructor | ].
  destruct rest as [| line' rest'].
  - cbn [join String.concat]. rewrite readlines_single by assumption.
    repeat constructor.
  - change (join newline (line :: line' :: rest'))
      with (line ++ newline ++ join newline (line' :: rest')).
    rewrite readlines_cons by assumption.
    constructor; [ apply parts_newline | exact IH ].
Qed.

(** Literal words and words among the hypotheses. *)
Ltac words_ok :=
  repeat first
    [ assumption
    | apply Forall_nil
    | apply Forall_cons
    | split; [ discriminate | reflexivity ] ].

(** An edge as the loop writes it: two words and a space between. *)
Definition edge_ok (edge : string) : Prop :=
  exists v1 v2, edge = v1 ++ " " ++ v2 /\ word v1 /\ word v2.

Lemma parts_of_words (ws : list string) :
  Forall word ws -> parts (join " " ws) = ws.
Proof. intros H. unfold parts. rewrite split_strip. now apply split_join. Qed.

Lemma parts_are_words (line : string) : Forall word (parts line).
Proof. apply split_words. Qed.

Lemma edge_of_ok (line : string) :
  Forall edge_ok (edge_of line) /\
  ends_of line = flat_map split (edge_of line).
Proof.
  unfold edge_of, ends_of. pose proof (parts_are_words line) as Hw.
  destruct (parts line) as [| first [| v1 [| v2 [| x rest]]]];
    try (split; [ constructor | reflexivity ]).
  destruct (String.eqb first "e"); [ | split; [ constructor | reflexivity ] ].
  inversion Hw as [| ? ? _ Hw1]; subst.
  inversion Hw1 as [| ? ? Hv1 Hw2]; subst.
  inversion Hw2 as [| ? ? Hv2 _]; subst. split.
  - repeat constructor. now exists v1, v2.
  - cbn [flat_map]. rewrite app_nil_r.
    change (v1 ++ " " ++ v2) with (join " " [v1; v2]).
    symmetry. apply split_join. words_ok.
Qed.

Lemma edges_of_ok (lines : list string) :
  Forall edge_ok (flat_map edge_of lines) /\
  flat_map ends_of lines = flat_map split (flat_map edge_of lines).
Proof.
  induction lines as [| line lines [IH1 IH2]]; cbn [flat_map].
  - split; [ constructor | reflexivity ].
  - destruct (edge_of_ok line) as [H1 H2]. split.
    + apply Forall_app. now split.
    + now rewrite flat_map_app, H2, IH2.
Qed.

Lemma counts_are_words (lines : list string) :
  forall counts : PyVal * PyVal,
    word (PyDict.str (fst counts)) /\ word (PyDict.str (snd counts)) ->
    word (PyDict.str (fst (fold_left counts_after lines counts))) /\
    word (PyDict.str (snd (fold_left counts_after lines counts))).
Proof.
  induction lines as [| line lines IH]; intros counts Hc; cbn [fold_left];
    [ exact Hc | ].
  apply IH. unfold counts_after. pose proof (parts_are_words line) as Hw.
  destruct (parts line) as [| first [| a [| b [| c [| d rest]]]]];
    try exact Hc.
  destruct (String.eqb first "p"); [ | exact Hc ].
  inversion Hw as [| ? ? _ Hw1]; subst.
  inversion Hw1 as [| ? ? _ Hw2]; subst.
  inversion Hw2 as [| ? ? Hb Hw3]; subst.
  inversion Hw3 as [| ? ? Hc' _]; subst. now split.
Qed.

Lemma scan_edge_lines (es : list string) :
  forall st,
    Forall edge_ok es ->
    scan (map (fun edge => "e " ++ edge) es) st
    = Ok {| edges := (edges st ++ es)%list;
            num_vertices := num_vertices st;
            num_edges := num_edges st;
            vertices := (vertices st ++ flat_map split es)%list |}.
Proof.
  induction es as [| edge es IH]; intros st Hes; cbn [map scan flat_map].
  - rewrite !app_nil_r. now destruct st.
  - inversion Hes as [| ? ? (v1 & v2 & -> & Hv1 & Hv2) Hes']; subst.
    change (String " " v2) with (" " ++ v2) in *.
    assert (Hparts : parts ("e " ++ v1 ++ " " ++ v2) = ["e"; v1; v2]).
    { change ("e " ++ v1 ++ " " ++ v2) with (join " " ["e"; v1; v2]).
      apply parts_of_words. words_ok. }
    assert (Hsplit : split (v1 ++ " " ++ v2) = [v1; v2]).
    { change (v1 ++ " " ++ v2) with (join " " [v1; v2]).
      apply split_join. words_ok. }
    pose proof (step_cases st ("e " ++ v1 ++ " " ++ v2)) as Hstep.
    unfold header_ok, edge_of, ends_of, counts_after in Hstep.
    rewrite Hparts in Hstep.
    cbn [String.eqb Ascii.eqb Bool.eqb negb orb andb List.length Nat.eqb
           fst snd] in Hstep.
    rewrite Hstep, (IH _ Hes'), Hsplit.
    cbn [edges num_vertices num_edges vertices].
    now rewrite <- !app_assoc.
Qed.

(** Reading the description as a file gives the edges and the labels
    again, and the counts as they were written. *)
Lemma description_rescan (lines : list string) (st : Parse) :
  scan lines initial = Ok st ->
  scan (readlines (graph_description st)) initial
  = Ok {| edges := edges st;
          num_vertices := VStr (PyDict.str (num_vertices st));
          num_edges := VStr (PyDict.str (num_edges st));
          vertices := vertices st |}.
Proof.
  intros Hscan.
  destruct (forallb header_ok lines) eqn:Hok;
    [ | destruct (scan_stops lines initial Hok); congruence ].
  rewrite (scan_closed lines initial Hok) in Hscan.
  cbn [edges vertices num_vertices num_edges initial app] in Hscan.
  destruct (edges_of_ok lines) as [Hedges Hends].
  destruct (counts_are_words lines (VInt 0, VInt 0)) as [Hnv Hne];
    [ split; split; (discriminate || reflexivity) | ].
  inversion Hscan as [Hst]. clear Hscan.
  set (nv := fst (fold_left counts_after lines (VInt 0, VInt 0))) in *.
  set (ne := snd (fold_left counts_after lines (VInt 0, VInt 0))) in *.
  unfold graph_description. cbn [edges vertices num_vertices num_edges].
  set (elines := map (fun edge => "e " ++ edge) (flat_map edge_of lines)).
  set (header := join " " ["p"; "edge"; PyDict.str nv; PyDict.str ne]).
  assert (Hheader : Forall word ["p"; "edge"; PyDict.str nv; PyDict.str ne])
    by words_ok.
  replace ("p edge " ++ PyDict.str nv ++ " " ++ PyDict.str ne ++ newline
           ++ join newline elines)
    with (header ++ newline ++ join newline elines)
    by (subst header; cbn [join String.concat append]; f_equal; f_equal;
        f_equal; f_equal; f_equal; f_equal; f_equal;
        now rewrite !append_assoc).
  rewrite readlines_cons.
  - cbn [scan].
    rewrite (step_parts initial _ header (parts_newline header)).
    pose proof (step_cases initial header) as Hstep.
    unfold header_ok, edge_of, ends_of, counts_after in Hstep.
    subst header. rewrite (parts_of_words Hheader) in Hstep.
    cbn [String.eqb Ascii.eqb Bool.eqb negb orb andb List.length Nat.eqb
           fst snd initial edges vertices num_vertices num_edges app]
      in Hstep.
    rewrite Hstep.
    assert (Hlines : Forall (fun line => all_chars not_newline line = true /\
                                         line <> EmptyString) elines).
    { subst elines. apply Forall_map.
      eapply Forall_impl; [ | exact Hedges ].
      intros edge (v1 & v2 & -> & Hv1 & Hv2). split; [ | discriminate ].
      cbn [append all_chars]. rewrite !all_chars_app. cbn [all_chars].
      now rewrite (word_no_newline Hv1), (word_no_newline Hv2). }
    rewrite (scan_parts (readlines_join Hlines)).
    subst elines. rewrite scan_edge_lines by assumption.
    cbn [edges vertices num_vertices num_edges app].
    rewrite Hends. subst st. reflexivity.
  - subst header. cbn [join String.concat append all_chars].
    rewrite !all_chars_app. cbn [all_chars].
    now rewrite (word_no_newline Hnv), (word_no_newline Hne).
Qed.

End GraphUtilsFacts.

Section ParseGraphFacts.
Variable World : Type.
Variable read_lines : string -> Eff World (list string).
Variable list_of_set : list string -> list string.

Local Abbreviation parse_graph :=
  (GraphUtils.parse_graph read_lines list_of_set).

(** X19.  The description [parse_graph] returns is itself a graph file of
    the same graph: parsing a file that holds it gives the same
    description, the same edges and the same labels, and the counts it
    shows, as strings. *)
Theorem graph_description_is_a_graph_file
    (file_path : string) (w w1 : World) (description : string)
    (num_edges num_vertices : PyVal) (edges vertices : list string)
    (copy : string) (w2 w3 : World) :
  parse_graph file_path w
  = (Ok (description, num_edges, num_vertices, edges, vertices), w1) ->
  read_lines copy w2 = (Ok (GraphUtils.readlines description), w3) ->
  parse_graph copy w2
  = (Ok (description, VStr (PyDict.str num_edges),
         VStr (PyDict.str num_vertices), edges, vertices), w3).
Proof.
  unfold GraphUtils.parse_graph, bind.
  destruct (read_lines file_path w) as [[lines | e] w'];
    [ | intros H; discriminate ].
  destruct (GraphUtils.scan lines GraphUtils.initial) as [st | e] eqn:Hscan;
    [ | intros H; discriminate ].
  intros H Hcopy. inversion H; subst. rewrite Hcopy.
  rewrite (description_rescan lines Hscan). reflexivity.
Qed.

(** X20.  [parse_graph] in one expression.  A line whose first word is [p]
    and that has not four words stops it, wherever the line is, with the
    [ValueError] of the unpacking for the first such line: not enough
    values with the number of words it got, or too many values; otherwise
    the edges are the lines [e v1 v2] of three words, in order, every other
    line is passed over, the labels are the set of their ends, and the
    counts are the words of the last [p] line, [0] without one, whatever
    the number of edges.  A file that cannot be read raises. *)
Theorem parse_graph_line_by_line (file_path : string) (w w1 : World) :
  (forall lines,
      read_lines file_path w = (Ok lines, w1) ->
      if forallb header_ok lines
      then
        let counts := fold_left counts_after lines (VInt 0, VInt 0) in
        parse_graph file_path w
        = (Ok (("p edge " ++ PyDict.str (fst counts) ++ " "
                ++ PyDict.str (snd counts) ++ PyStr.newline
                ++ PyStr.join PyStr.newline
                     (map (fun edge => "e " ++ edge)
                          (flat_map edge_of lines)))%string,
               snd counts, fst counts, flat_map edge_of lines,
               list_of_set (flat_map ends_of lines)), w1)
      else
        exists line first rest,
          List.find (fun line => negb (header_ok line)) lines = Some line /\
          parts line = first :: rest /\ first = "p" /\
          List.length rest <> 3%nat /\
          parse_graph file_path w
          = (Raise
               (OtherException
                  (if (List.length (first :: rest) <? 4)%nat
                   then ("not enough values to unpack (expected 4, got "
                         ++ PyStr.of_int (Z.of_nat (List.length (first :: rest)))
                         ++ ")")%string
                   else "too many values to unpack (expected 4)")), w1)) /\
  (forall e,
      read_lines file_path w = (Raise e, w1) ->
      parse_graph file_path w = (Raise e, w1)).
Proof.
  unfold GraphUtils.parse_graph, bind. split.
  - intros lines ->. destruct (forallb header_ok lines) eqn:Hok.
    + now rewrite (scan_closed lines GraphUtils.initial Hok).
    + destruct (find_refused lines Hok) as (line & Hfind & _ & Hbad).
      rewrite (scan_stops_at lines GraphUtils.initial Hfind).
      unfold header_ok in Hbad.
      destruct (parts line) as [| first rest] eqn:Hparts; [ discriminate | ].
      apply orb_false_iff in Hbad as [Hfirst Hrest].
      apply negb_false_iff, String.eqb_eq in Hfirst.
      apply Nat.eqb_neq in Hrest.
      exists line, first, rest. repeat split; assumption.
  - now intros e ->.
Qed.

End ParseGraphFacts.

Section DataLoaderFacts.
Variable World : Type.
Variable random_choice : list string -> Eff World string.
Variable random_randint : Z -> Z -> Eff World Z.
Variable DEBUGBENCH_PATH : string.
Variable os_path_join : string -> string -> string.
Variable os_path_exists : string -> Eff World bool.
Variable json_load : string -> Eff World (list DataLoader.Entry).

Local Abbreviation load_problem_from_dataset :=
  (DataLoader.load_problem_from_dataset random_choice random_randint
     DEBUGBENCH_PATH os_path_join os_path_exists json_load).
Local Abbreviation generate_problem :=
  (DataLoader.generate_problem random_choice random_randint
     DEBUGBENCH_PATH os_path_join os_path_exists json_load).

(** The problem made of an object of the dataset. *)
Definition problem_of (problem_data : DataLoader.Entry) (bug_type : string)
  : CodeDebugging.CodeDebuggingProblem :=
  {| CodeDebugging.slug :=
       DataLoader.get (DataLoader.e_slug problem_data) "unknown";
     CodeDebugging.description :=
       DataLoader.get (DataLoader.e_description problem_data) "";
     CodeDebugging.examples :=
       DataLoader.get (DataLoader.e_examples problem_data) [];
     CodeDebugging.constraints :=
       DataLoader.get (DataLoader.e_constraints problem_data) "";
     CodeDebugging.level :=
       DataLoader.get (DataLoader.e_level problem_data) "medium";
     CodeDebugging.buggy_code :=
       DataLoader.get (DataLoader.e_buggy_code problem_data) "";
     CodeDebugging.oracle_code :=
       DataLoader.get (DataLoader.e_oracle_code problem_data) "";
     CodeDebugging.explanations :=
       DataLoader.get (DataLoader.e_explanations problem_data) "";
     CodeDebugging.content :=
       DataLoader.get (DataLoader.e_content problem_data) "";
     CodeDebugging.bug_type := bug_type |}.

Lemma index_cases {A : Type} (data : list A) (i : Z) :
  let n := Z.of_nat (List.length data) in
  if ((- n <=? i) && (i <? n))%Z
  then exists a,
         nth_error data (Z.to_nat (i mod n)) = Some a /\
         DataLoader.index data i = Ok a
  else DataLoader.index data i
       = Raise (OtherException "list index out of range").
Proof.
  cbn zeta. unfold DataLoader.index.
  set (n := Z.of_nat (List.length data)).
  destruct ((- n <=? i) && (i <? n))%Z eqn:Hin.
  - apply andb_true_iff in Hin as [Hlo Hhi].
    apply Z.leb_le in Hlo. apply Z.ltb_lt in Hhi.
    assert (Hj : (if (i <? 0)%Z then (i + n)%Z else i) = (i mod n)%Z).
    { destruct (i <? 0)%Z eqn:Hneg.
      - apply Z.ltb_lt in Hneg.
        apply Z.mod_unique with (-1)%Z; lia.
      - apply Z.ltb_ge in Hneg. symmetry. apply Z.mod_small. lia. }
    rewrite Hj.
    assert (Hrange : (0 <= i mod n < n)%Z) by (apply Z.mod_pos_bound; lia).
    replace ((0 <=? i mod n) && (i mod n <? n))%Z with true
      by (symmetry; apply andb_true_iff; split;
          [ apply Z.leb_le | apply Z.ltb_lt ]; lia).
    destruct (nth_error data (Z.to_nat (i mod n))) as [a |] eqn:Hnth.
    + now exists a.
    + apply nth_error_None in Hnth. subst n. lia.
  - destruct (i <? 0)%Z eqn:Hneg.
    + apply Z.ltb_lt in Hneg.
      replace ((0 <=? i + n) && (i + n <? n))%Z with false; [ reflexivity | ].
      symmetry. apply andb_false_iff. apply andb_false_iff in Hin.
      destruct Hin as [Hin | Hin].
      * left. apply Z.leb_gt in Hin. apply Z.leb_gt. lia.
      * apply Z.ltb_ge in Hin. lia.
    + apply Z.ltb_ge in Hneg.
      replace ((0 <=? i) && (i <? n))%Z with false; [ reflexivity | ].
      symmetry. apply andb_false_iff. apply andb_false_iff in Hin.
      destruct Hin as [Hin | Hin].
      * apply Z.leb_gt in Hin. lia.
      * now right.
Qed.

(** X21.  The bounds of [problem_index], for a bug type of [BUG_TYPES]
    whose file is there and holds [data]: an index of [len(data)] or more
    is the [ValueError] of the function; an index from [-len(data)] to
    [-1] is not refused and picks the problem counted from the end; an
    index below [-len(data)] is the [IndexError] of the list; any other
    index picks the problem at its place.  The problem carries the bug
    type that was asked for. *)
Theorem problem_index_bounds
    (language bug_type : string) (problem_index : Z)
    (data : list DataLoader.Entry) (w w1 w2 : World) :
  let filepath :=
    os_path_join DEBUGBENCH_PATH (DataLoader.filename language bug_type) in
  let n := Z.of_nat (List.length data) in
  DataLoader.mem bug_type DataLoader.BUG_TYPES = true ->
  os_path_exists filepath w = (Ok true, w1) ->
  json_load filepath w1 = (Ok data, w2) ->
  if (problem_index >=? n)%Z then
    load_problem_from_dataset language (Some bug_type) (Some problem_index) w
    = (Raise (OtherException
                ("Problem index " ++ PyStr.of_int problem_index
                 ++ " out of range (max: " ++ PyStr.of_int (n - 1) ++ ")")),
       w2)
  else if (problem_index <? - n)%Z then
    load_problem_from_dataset language (Some bug_type) (Some problem_index) w
    = (Raise (OtherException "list index out of range"), w2)
  else
    exists problem_data,
      nth_error data (Z.to_nat (problem_index mod n)) = Some problem_data /\
      load_problem_from_dataset language (Some bug_type) (Some problem_index) w
      = (Ok (problem_of problem_data bug_type), w2).
Proof.
  cbn zeta. intros Hmem Hexists Hload.
  unfold DataLoader.load_problem_from_dataset, bind, ret, DataLoader.raise.
  rewrite Hmem. cbn [negb]. rewrite Hexists. cbn [negb]. rewrite Hload.
  set (n := Z.of_nat (List.length data)).
  destruct (problem_index >=? n)%Z eqn:Hge; [ reflexivity | ].
  pose proof (index_cases data problem_index) as Hidx. cbn zeta in Hidx.
  fold n in Hidx.
  assert (Hlt : (problem_index <? n)%Z = true)
    by (apply Z.ltb_lt; rewrite Z.geb_leb in Hge; apply Z.leb_gt in Hge; lia).
  rewrite Hlt, andb_true_r in Hidx.
  destruct (problem_index <? - n)%Z eqn:Hlow.
  - replace (- n <=? problem_index)%Z with false in Hidx
      by (symmetry; apply Z.leb_gt; now apply Z.ltb_lt).
    now rewrite Hidx.
  - replace (- n <=? problem_index)%Z with true in Hidx
      by (symmetry; apply Z.leb_le; now apply Z.ltb_ge).
    destruct Hidx as (problem_data & Hnth & ->).
    exists problem_data. split; [ exact Hnth | reflexivity ].
Qed.

(** X22.  A bug type that is given is checked before anything is read or
    drawn: one that is not in [BUG_TYPES] is a [ValueError] that leaves the
    world as it was, and so are the two bug types that the documentation
    of [generate_problem] and of the command line names as examples; one
    that is in [BUG_TYPES] is looked for in the file
    [python3_<bug type>.json], whose absence is a [FileNotFoundError]. *)
Theorem bug_type_is_checked_first
    (bug_type : string) (problem_index : option Z) (w : World) :
  (if DataLoader.mem bug_type DataLoader.BUG_TYPES
   then
     let filepath :=
       os_path_join DEBUGBENCH_PATH ("python3_" ++ bug_type ++ ".json") in
     forall w1,
       os_path_exists filepath w = (Ok false, w1) ->
       generate_problem (Some bug_type) problem_index w
       = (Raise (EnvironmentError ("Dataset file not found: " ++ filepath)),
          w1)
   else
     generate_problem (Some bug_type) problem_index w
     = (Raise (OtherException
                 ("Invalid bug_type '" ++ bug_type ++ "'. Must be one of "
                  ++ DataLoader.repr_list DataLoader.BUG_TYPES)), w)) /\
  DataLoader.mem "condition" DataLoader.BUG_TYPES = false /\
  DataLoader.mem "variable_misuse" DataLoader.BUG_TYPES = false.
Proof.
  split; [ | split; reflexivity ].
  unfold DataLoader.generate_problem, DataLoader.load_problem_from_dataset,
    bind, ret, DataLoader.raise.
  destruct (DataLoader.mem bug_type DataLoader.BUG_TYPES); cbn [negb];
    [ | reflexivity ].
  cbn zeta. intros w1 Hexists.
  change (DataLoader.filename CodeDebugging.language bug_type)
    with ("python3_" ++ bug_type ++ ".json")%string.
  rewrite Hexists. reflexivity.
Qed.

End DataLoaderFacts.

(** ** [main.py] *)

(** X23.  The one call of the constructor in the program, on lines 203-208
    of [main.py], is refused for every value of its four arguments: it
    names [s1_llm] and [s2_lrm], and the parameters are [llm_model] and
    [s2_llm_model]; the same values under the parameters' names are
    accepted. *)
Theorem main_cannot_build_the_controller
    (domain s1_llm max_iterations s2_lrm : PyVal) :
  PyCall.bind_keywords PyCall.MCModule_signature
    (PyCall.main_call domain s1_llm max_iterations s2_lrm)
  = Raise (TypeError "got an unexpected keyword argument 's1_llm'") /\
  PyCall.bind_keywords PyCall.MCModule_signature
    [("domain", domain); ("llm_model", s1_llm);
     ("max_iterations", max_iterations); ("s2_llm_model", s2_lrm)]
  = Ok [("domain", domain); ("llm_model", s1_llm);
        ("max_iterations", max_iterations); ("s2_llm_model", s2_lrm)].
Proof. split; reflexivity. Qed.

(** ** The further properties on the worked runs *)

Module MoreRuns.
Import PyStr.
Import Scenario.

Local Abbreviation gc_domain chat validator :=
  (GraphColoring.GraphColoringDomain chat validator prompt_generator).

Local Abbreviation evaluator_flag :=
  (TrendEvaluator.get_no_improvement_flag violations comparable).

Local Abbreviation evaluator_update :=
  (@TrendEvaluator.update_feedback GraphColoring.Feedback).

Local Abbreviation evaluator_new :=
  (TrendEvaluator.ImprovementTrendEvaluator GraphColoring.Feedback).

Local Abbreviation self_with max :=
  (MCModule_init "gemma3:1b" max (Some "deepseek-r1:1.5b")).

(** The model server is down: the call raises and the controller is as it
    was. *)
Lemma failed_solve_witness :
  exists run : Run,
    solve_with unreachable_chat edge_validator 3 [] = Some run /\
    returned run = Raise (OtherException "connection refused") /\
    self_after run = self_with 3%Z.
Proof.
  eexists.
  split; [ vm_compute; reflexivity | ].
  split; [ vm_compute; reflexivity | ].
  refine (failed_solve_changes_nothing
            (domain := gc_domain unreachable_chat edge_validator)
            unreachable_chat time_time 0%nat Nat.add Nat.sub
            evaluator_new evaluator_update evaluator_flag
            retrieve_similar (self_with 3%Z) problem false []
            (e := OtherException "connection refused") _ _);
    vm_compute; reflexivity.
Defined.


(** A rejected answer, then a proper colouring: the solution that is
    returned is the one that is remembered. *)
Lemma returned_solution_witness :
  exists (run : Run) out,
    solve_with scripted_chat edge_validator 5 [bad_answer; good_answer]
    = Some run /\
    returned run = Ok out /\
    exists sol,
      solution out = Some sol /\
      self_after run
      = with_memory (self_with 5%Z)
          ([] ++ [(GraphColoring.graph_repr problem,
                   GraphColoring.format_solution_for_memory sol)]).
Proof.
  eexists. eexists.
  split; [ vm_compute; reflexivity | ].
  split; [ vm_compute; reflexivity | ].
  refine (returned_solution_is_remembered
            (domain := gc_domain scripted_chat edge_validator)
            scripted_chat time_time 0%nat Nat.add Nat.sub
            evaluator_new evaluator_update evaluator_flag
            retrieve_similar (self_with 5%Z) problem false
            [bad_answer; good_answer] _ _ _);
    [ vm_compute; discriminate | vm_compute; reflexivity
    | vm_compute; reflexivity ].
Defined.

(** The same run: its two requests are the opening prompt, and the opening
    prompt with the rejected answer and its feedback. *)
Lemma requests_witness :
  exists run : Run,
    solve_with scripted_chat edge_validator 5 [bad_answer; good_answer]
    = Some run /\
    exists rs : list (string * GraphColoring.Feedback),
      s1_requests (calls run)
      = map (fun k =>
               conversation
                 (domain := gc_domain scripted_chat edge_validator)
                 (opening (domain := gc_domain scripted_chat edge_validator)
                    retrieve_similar (self_with 5%Z) problem)
                 (firstn k rs))
            (seq 0 (s1_calls (calls run))) /\
      (s1_calls (calls run) <= S (List.length rs))%nat /\
      firstn (List.length rs) (validations (calls run))
      = map (fun r => (GraphColoringParser.parse_solution (fst r), false,
                       snd r)) rs.
Proof.
  eexists.
  split; [ vm_compute; reflexivity | ].
  refine (requests_follow_the_conversation
            (domain := gc_domain scripted_chat edge_validator)
            scripted_chat time_time 0%nat Nat.add Nat.sub
            evaluator_new evaluator_update evaluator_flag
            retrieve_similar (self_with 5%Z) problem false
            [bad_answer; good_answer] _).
  vm_compute; reflexivity.
Defined.

(** Two rejected answers with [max_iterations = 2]: the rule holds at the
    second rejection, after which the System 2 solver is called. *)
Lemma escalation_rule_witness :
  exists run : Run,
    solve_with scripted_chat rejecting_validator 2
      [bad_answer; bad_answer; good_answer] = Some run /\
    (0 < 2 <= List.length (rejections (calls run)))%nat /\
    (escalates evaluator_flag (self_with 2%Z) (Z.of_nat 2)
       (fold_left evaluator_update (firstn 2 (rejections (calls run)))
          evaluator_new) = true
     <-> (2%nat = List.length (rejections (calls run)) /\
          (0 < s2_calls (calls run))%nat)).
Proof.
  eexists.
  split; [ vm_compute; reflexivity | ].
  split; [ vm_compute; lia | ].
  refine (escalation_rule
            (domain := gc_domain scripted_chat rejecting_validator)
            scripted_chat time_time 0%nat Nat.add Nat.sub
            evaluator_new evaluator_update evaluator_flag
            retrieve_similar (self_with 2%Z) problem false
            [bad_answer; bad_answer; good_answer] (j := 2) _ _);
    [ vm_compute; reflexivity | vm_compute; lia ].
Defined.

(** Two calls in a row: the second opens with the prompt that shows the
    colouring found by the first. *)
Lemma next_solve_witness :
  exists (run next_run : Run) out,
    solve_with scripted_chat edge_validator 5 [good_answer; good_answer]
    = Some run /\
    returned run = Ok out /\
    solve (domain := gc_domain scripted_chat edge_validator)
      scripted_chat time_time 0%nat Nat.add Nat.sub
      evaluator_new evaluator_update evaluator_flag retrieve_similar
      (self_after run) problem false (world_after run) = Some next_run /\
    exists sol rest,
      solution out = Some sol /\
      calls next_run
      = EvS1Call
          [user_message
             (prompt_generator (GraphColoring.graph_repr problem)
                (GraphColoring.min_colors problem)
                (Some (retrieve_similar
                         ([] ++ [(GraphColoring.graph_repr problem,
                                  GraphColoring.format_solution_for_memory
                                    sol)])
                         (GraphColoring.graph_repr problem))))]
        :: rest.
Proof.
  eexists. eexists. eexists.
  split; [ vm_compute; reflexivity | ].
  split; [ vm_compute; reflexivity | ].
  split; [ vm_compute; reflexivity | ].
  refine (next_solve_is_seeded
            (domain := gc_domain scripted_chat edge_validator)
            scripted_chat time_time 0%nat Nat.add Nat.sub
            evaluator_new evaluator_update evaluator_flag
            retrieve_similar (self_with 5%Z) problem problem false false
            [good_answer; good_answer] _ _ _ _);
    [ vm_compute; discriminate | vm_compute; reflexivity
    | vm_compute; reflexivity | vm_compute; reflexivity ].
Defined.


(** A colouring of two vertices, written for the memory and read back. *)
Lemma memory_format_witness :
  well_formed [("1", 1%Z); ("2", 2%Z)] /\
  GraphColoringParser.parse_solution
    (GraphColoring.format_solution_for_memory [("1", 1%Z); ("2", 2%Z)])
  = [("1", 1%Z); ("2", 2%Z)].
Proof.
  assert (H : well_formed [("1", 1%Z); ("2", 2%Z)]).
  { split.
    - constructor; [ intros [H | []]; discriminate | ].
      constructor; [ intros [] | constructor ].
    - repeat constructor; try discriminate; cbn; lia. }
  split; [ exact H | exact (memory_format_round_trip H) ].
Defined.

(** A reply in the format the prompt asks for, with a sentence before
    it. *)
Lemma tagged_blocks_witness :
  CodeDebuggingParser.parse_fixed_code
    ("Here is the fix." ++ newline ++ "<code>" ++ newline
     ++ "def f(): return 1" ++ newline ++ "</code>" ++ newline
     ++ "<exp>typo</exp>")%string
  = "def f(): return 1".
Proof.
  exact (proj1 (tagged_blocks_are_extracted
                  ("Here is the fix." ++ newline)
                  (newline ++ "def f(): return 1" ++ newline)
                  (newline ++ "<exp>typo</exp>"))
           eq_refl eq_refl).
Defined.

(** A process with [LEETCODE_SESSION] set. *)
Definition session_environ (name : string) (x : World) : option string :=
  if String.eqb name "LEETCODE_SESSION" then Some "cookie" else None.

(** The world in which a tester is stored. *)
Definition cd_stored (script : World) : CodeDebugging.World World unit Z :=
  {| LeetCodeValidator.globals :=
       {| LeetCodeValidator._tester_instance := Some tt;
          LeetCodeValidator._last_submission_time := 0%Z |};
     LeetCodeValidator.ext := script |}.

(** The judge accepts: the verdict is [True] and the feedback reads
    accepted. *)
Lemma accepted_verdict_witness :
  exists w',
    LeetCodeValidator.validate_code_with_leetcode judge_time judge_sleep
      Z.sub Z.ltb (fun z => z) session_environ accepting_tester
      accepting_test "x = 1" "two-sum" "python" (cd_start [])
    = (Ok (true, [("status_msg", VStr "Accepted")]), w') /\
    CodeDebugging.format_feedback [("status_msg", VStr "Accepted")]
    = "Solution accepted! Runtime: N/A, Memory: N/A".
Proof.
  eexists. split; [ vm_compute; reflexivity | ].
  refine (proj2 (accepted_verdict_reads_accepted judge_time judge_sleep
                   Z.sub Z.ltb (fun z => z) session_environ accepting_tester
                   accepting_test "x = 1" "two-sum" "python" (cd_start [])
                   _)).
  vm_compute; reflexivity.
Defined.

(** Without [LEETCODE_SESSION] the feedback is the status line. *)
Lemma fault_feedback_witness :
  exists w1 feedback,
    LeetCodeValidator.validate_try judge_time judge_sleep Z.sub Z.ltb
      (fun z => z) empty_environ accepting_tester accepting_test
      "x = 1" "two-sum" "python" (cd_start [])
    = (Raise (EnvironmentError LeetCodeValidator.session_missing_message),
       w1) /\
    LeetCodeValidator.validate_code_with_leetcode judge_time judge_sleep
      Z.sub Z.ltb (fun z => z) empty_environ accepting_tester
      accepting_test "x = 1" "two-sum" "python" (cd_start [])
    = (Ok (false, feedback), w1) /\
    PyDict.lookup feedback "error"
    = Some (VStr LeetCodeValidator.session_missing_message) /\
    CodeDebugging.format_feedback feedback
    = ("Status: Environment Error" ++ newline)%string.
Proof.
  eexists.
  assert (Htry :
            LeetCodeValidator.validate_try judge_time judge_sleep Z.sub Z.ltb
              (fun z => z) empty_environ accepting_tester accepting_test
              "x = 1" "two-sum" "python" (cd_start [])
            = (Raise (EnvironmentError
                        LeetCodeValidator.session_missing_message),
               cd_start []))
    by (vm_compute; reflexivity).
  destruct (fault_feedback_is_the_status_line _ _ _ _ _ _ _ _ _ _ _ _ Htry)
    as (feedback & Hv & Herr & Hfmt).
  exists feedback.
  split; [ exact Htry | split; [ exact Hv | split; [ exact Herr | exact Hfmt ] ] ].
Defined.

(** With a tester stored, the validation does not need the session. *)
Lemma stored_tester_witness :
  LeetCodeValidator.validate_code_with_leetcode judge_time judge_sleep
    Z.sub Z.ltb (fun z => z) empty_environ None accepting_test
    "x = 1" "two-sum" "python" (cd_stored [])
  = LeetCodeValidator.validate_code_with_leetcode judge_time judge_sleep
      Z.sub Z.ltb (fun z => z) session_environ accepting_tester
      accepting_test "x = 1" "two-sum" "python" (cd_stored []).
Proof.
  exact (proj1 (stored_tester_is_reused judge_time judge_sleep Z.sub Z.ltb
                  (fun z => z) empty_environ None accepting_test
                  session_environ accepting_tester
                  "x = 1" "two-sum" "python" (cd_stored []) eq_refl)).
Defined.

(** The attempt without a session leaves the time of the last submission
    as it was. *)
Lemma cooldown_witness :
  exists e w',
    LeetCodeValidator.validate_try judge_time judge_sleep Z.sub Z.ltb
      (fun z => z) empty_environ accepting_tester accepting_test
      "x = 1" "two-sum" "python" (cd_start []) = (Raise e, w') /\
    LeetCodeValidator._last_submission_time (LeetCodeValidator.globals w')
    = 0%Z.
Proof.
  eexists. eexists.
  assert (Htry :
            LeetCodeValidator.validate_try judge_time judge_sleep Z.sub Z.ltb
              (fun z => z) empty_environ accepting_tester accepting_test
              "x = 1" "two-sum" "python" (cd_start [])
            = (Raise (EnvironmentError
                        LeetCodeValidator.session_missing_message),
               cd_start []))
    by (vm_compute; reflexivity).
  split; [ exact Htry | ].
  exact (cooldown_counts_from_last_result _ _ _ _ _ _ _ _ _ _ _ _ Htry).
Defined.


(** Two files: a graph with a comment and a malformed edge line, and a
    copy that holds the description of the first. *)
Definition graph_file : list string :=
  [ ("c a triangle without one side" ++ newline)%string;
    ("p  edge 3 2" ++ newline)%string;
    ("e 1 2" ++ newline)%string;
    ("e 2" ++ newline)%string;
    ("e 2 3" ++ newline)%string ].

Definition graph_copy : string :=
  ("p edge 3 2" ++ newline ++ "e 1 2" ++ newline ++ "e 2 3")%string.

Definition read_lines (file_path : string) : Eff unit (list string) :=
  fun w =>
    if String.eqb file_path "graph_0.col" then (Ok graph_file, w)
    else if String.eqb file_path "copy.col"
         then (Ok (GraphUtils.readlines graph_copy), w)
         else (Raise (EnvironmentError "No such file or directory"), w).

Definition list_of_set (labels : list string) : list string :=
  nodup string_dec labels.

Lemma graph_description_witness :
  GraphUtils.parse_graph read_lines list_of_set "graph_0.col" tt
  = (Ok (graph_copy, VStr "2", VStr "3", ["1 2"; "2 3"], ["1"; "2"; "3"]),
     tt) /\
  GraphUtils.parse_graph read_lines list_of_set "copy.col" tt
  = (Ok (graph_copy, VStr "2", VStr "3", ["1 2"; "2 3"], ["1"; "2"; "3"]),
     tt).
Proof.
  assert (H : GraphUtils.parse_graph read_lines list_of_set "graph_0.col" tt
              = (Ok (graph_copy, VStr "2", VStr "3", ["1 2"; "2 3"],
                     ["1"; "2"; "3"]), tt))
    by (vm_compute; reflexivity).
  split; [ exact H | ].
  exact (graph_description_is_a_graph_file read_lines list_of_set
           "graph_0.col" tt "copy.col" tt H eq_refl).
Defined.

(** A dataset file of two problems, asked for its last one by the index
    [-1]. *)
Definition dataset : list DataLoader.Entry :=
  [ {| DataLoader.e_slug := Some "two-sum";
       DataLoader.e_description := Some "Add two numbers.";
       DataLoader.e_examples := Some [];
       DataLoader.e_constraints := None;
       DataLoader.e_level := Some "easy";
       DataLoader.e_buggy_code := Some "def twoSum(): pass";
       DataLoader.e_oracle_code := None;
       DataLoader.e_explanations := None;
       DataLoader.e_content := None |};
    {| DataLoader.e_slug := Some "valid-anagram";
       DataLoader.e_description := None;
       DataLoader.e_examples := None;
       DataLoader.e_constraints := None;
       DataLoader.e_level := None;
       DataLoader.e_buggy_code := Some "def isAnagram(): pass";
       DataLoader.e_oracle_code := None;
       DataLoader.e_explanations := None;
       DataLoader.e_content := None |} ].

Definition path_join (directory name : string) : string :=
  (directory ++ "/" ++ name)%string.

Definition path_exists (path : string) : Eff unit bool :=
  fun w => (Ok (String.eqb path "data/python3_double.json"), w).

Definition json_load (path : string) : Eff unit (list DataLoader.Entry) :=
  fun w => (Ok dataset, w).

Definition first_choice (options : list string) : Eff unit string :=
  fun w => (Ok (hd EmptyString options), w).

Definition lowest (lo hi : Z) : Eff unit Z := fun w => (Ok lo, w).

Lemma problem_index_witness :
  exists problem,
    DataLoader.load_problem_from_dataset first_choice lowest "data"
      path_join path_exists json_load "Python3" (Some "double")
      (Some (-1)%Z) tt
    = (Ok problem, tt) /\
    CodeDebugging.slug problem = "valid-anagram" /\
    CodeDebugging.bug_type problem = "double".
Proof.
  destruct (@problem_index_bounds unit first_choice lowest "data" path_join
              path_exists json_load "Python3" "double" (-1)%Z dataset
              tt tt tt eq_refl eq_refl eq_refl)
    as (problem_data & Hnth & Hload).
  vm_compute in Hnth. injection Hnth as <-.
  eexists. split; [ exact Hload | split; reflexivity ].
Defined.

(** The System 2 agent gives a proper colouring: it is returned with its
    largest colour. *)
Lemma s2_result_witness :
  colours_within_limit good_answer = true /\
  exists top,
    GraphColoring.run_s2_solver scripted_chat prompt_generator problem
      (LLMSolver_init (Some "deepseek-r1:1.5b")) [good_answer]
    = (Ok ([("1", 1%Z); ("2", 2%Z)], top), []) /\
    top = 2%Z.
Proof.
  assert (Hlimit : colours_within_limit good_answer = true)
    by (vm_compute; reflexivity).
  split; [ exact Hlimit | ].
  destruct (proj1 (s2_returns_parse_and_largest_colour scripted_chat
                     prompt_generator problem
                     (LLMSolver_init (Some "deepseek-r1:1.5b"))
                     [good_answer])
              good_answer [] eq_refl Hlimit)
    as (top & Hrun & _).
  exists top. split; [ exact Hrun | ].
  assert (Hvalue :
            GraphColoring.run_s2_solver scripted_chat prompt_generator problem
              (LLMSolver_init (Some "deepseek-r1:1.5b")) [good_answer]
            = (Ok ([("1", 1%Z); ("2", 2%Z)], 2%Z), []))
    by (vm_compute; reflexivity).
  rewrite Hvalue in Hrun. injection Hrun as Htop. symmetry. exact Htop.
Defined.

End MoreRuns.
